(* ===== verification/_CoqProject ===== *)
-Q . S2P
Prelude.v
GoLib.v
ClientIP.v
Config.v
Router.v
PathClean.v
Middleware.v
Endpoints.v
Startup.v
Duration.v
Lifecycle.v
Banner.v
