(* ===== verification/Prelude.v ===== *)
(** * A verification library for impossible98/httpbin

    The repository is a Go re-implementation of httpbin.org: an HTTP server
    whose endpoints echo and simulate HTTP behaviour.  Its sources are

    - [src/app/app.go]: the configuration record [HTTPBin], its defaults and
      functional options ([New], [With*]), and [Handler], which registers
      every endpoint on a [net/http.ServeMux] and wraps the mux in the
      middleware chain (body-size limit, preflight, auto-HEAD, observer);
    - [src/app/utils/ip/ip.go]: [GetClientIP], the client-address resolver
      (Fly-Client-IP, then the first X-Forwarded-For entry, then the socket
      address) and [GetLocalIp], the first non-loopback IPv4 address;
    - [src/app/utils/color/color.go], [src/app/utils/info/info.go]: ANSI
      colouring and the start-up banner ([ShowInfo]);
    - [src/cmd/httpbin/main.go]: flag/environment resolution of the
      configuration, construction of the server, and graceful shutdown on a
      signal.
    The endpoint handlers ([h.Get], [h.Status], ...) and the middleware
    bodies ([limitRequestSize], [preflight], [autohead], [observe],
    [methods]) are named by [app.go] but their files are not in the sources;
    where they are modelled, they are modelled from the specification and
    marked so in the manifest.

    ** Layout of the development (files in dependency order)

    - [Prelude] (this file): the [go_scope] notations ([==s], [+s], the
      error-monad bind [let?]), the [int64] wrap-around arithmetic of Go's
      [int64]/[time.Duration] ([wrap64], [add64]), string lemmas, the
      [httpbin] hint database and the tactics shared by all files; the
      closure [star] of a step relation with the invariant and simulation
      lemmas [star_inv] and [star_simulation].
    - [GoLib]: the parts of Go's standard library the sources call, written
      from their Go definitions: [strings.SplitN], [strings.TrimSpace]
      (Unicode white space as its UTF-8 encodings),
      [textproto.CanonicalMIMEHeaderKey], [http.Header.Get]/[Set],
      [strconv.ParseUint]/[ParseInt]/[Atoi] (base 10, 64 bits, with the
      fast path of [Atoi]) and [Itoa], [net.IP.To4]/[IsLoopback]/[String];
      the value [dec_val] of a decimal digit string, shared by the integer
      parsers; and the [Request] record (method, path, header, remote
      address, body).
    - [ClientIP] (module [ClientIP]): [GetClientIP] and [GetLocalIp] of
      [ip.go], the test table of [ip_test.go], and the precedence
      specification of the resolver.  A panic of Go is [None].
    - [Config] (module [Config]): [HTTPBin], [DefaultParams], the options
      and [New] of [app.go]; options are closures [HTTPBin -> HTTPBin]
      folded left to right as the Go loop applies them.
    - [Router] (module [Router]): the route table built by [Handler]
      (app.go lines 132-217) as the list of registrations in source order,
      and Go's [ServeMux]: [Handle] with its panics, the longest-first list
      of subtree patterns ([appendSorted]), [match], [cleanPath]
      ([path.Clean]), [shouldRedirect] and [ServeMux.Handler] with its
      redirects; the invariant [mux_inv] (map and sorted list agree) is
      carried through registration.
    - [PathClean] (module [PathClean]): [cleanPath] is idempotent, through
      [SplitN] inverting [join_slash] and [clean_stack] keeping proper
      segments; so a request redirected to its cleaned path is dispatched
      without a second clean-path redirect.
    - [Middleware] (module [Middleware]): the composition of app.go lines
      219-229 over the middleware bodies, which are modelled from the
      specification; the endpoint handlers are an interface, the class
      [Endpoints], with the law class [EndpointsLaws] (HEAD answered as
      GET), so the theorems hold for every implementation of the handlers.
      [http.Error], [http.NotFound] and [http.Redirect] are written from Go.
    - [Endpoints] (module [Handlers]): the handlers whose contract the
      specification states precisely, written from it (sections 4.3, 4.4,
      8) in [Section SpecHandlers] over the configuration [cfg], the
      handlers [base] of every other endpoint and the envelope members
      [fields] of a stream record: status echo, the n-hop redirect chain,
      ETag, stream, delay (with the client's cancellation time) and drip
      (its emission schedule).  [spec_endpoints] is the instance of
      [Endpoints] they form, and [spec_endpoints_laws] discharges
      [EndpointsLaws] for it.  [serve] is the response of [Handler]'s
      wrapped mux with that instance; the client [follow] follows
      redirects on fuel, and the consumer [scan_lines]/[record_id] reads a
      streamed body line by line.
    - [Startup] (module [Startup]): [main] of main.go up to the server
      record: flag/environment precedence ([resolve]), the option list,
      the listen address, the shutdown timeout [maxDuration + 1s] as an
      [int64] sum, and the exits with status 1, in the error monad [Exit + _].
      [time.ParseDuration] is a section variable, so every theorem holds for
      any duration parser.
    - [Duration] (module [Duration]): Go's [time.ParseDuration] written
      from Go 1.21's [time/format.go] ([leadingInt], [leadingFraction],
      [unitMap], the loop with its [uint64] sum), the [float64] steps of a
      fraction computed in binary64 with the Standard Library's
      [SpecFloat]; [go_startup] is [Startup.startup] with it.
    - [Lifecycle] (module [Lifecycle]): main.go lines 111-146, the main
      goroutine and the shutdown goroutine with the server, the channels
      [shutdownCh] and [exitCh], the active connections and a clock, as the
      interleaving step relation [step] (one constructor per atomic action,
      [http.Server]'s [ListenAndServe] as its [shuttingDown] check,
      [net.Listen] and [trackListener], [log.Fatalf] as its write and its
      [os.Exit], and [Shutdown], written from Go); [exec]
      and [run] execute the same actions; the specification's
      Running -> Draining -> Stopped machine is [astep], related by [abs].
    - [Banner] (module [Banner]): color.go and [ShowInfo] of info.go as the
      text written to standard output, with the clock readings and the
      interface addresses as parameters.

    ** What the theorems show

    - ClientIP: [GetClientIP] refines the abstract resolver of the
      specification (section 4.1) and never panics; the three-way
      precedence; the X-Forwarded-For result has no comma and no
      surrounding white space; the header lookup is case-insensitive; the
      test table passes; [GetLocalIp] returns the first non-loopback IPv4
      address in dotted form.  Finding: an empty first X-Forwarded-For entry
      yields the empty string, not the socket address.
    - Config: [New] yields, field by field, the value of the last option
      that sets it and the default of app.go otherwise.
    - Router: registering the table never panics (no duplicate pattern);
      no request reaches the mux's own 404; every argument route of the
      documented surface, followed by any proper path segments, reaches
      the handler the specification names (Endpoints); and the
      trailing-slash policy: the bare forms of [/range],
      [/etag] and [/base64] are redirected (301), against the 404 the
      specification promises for bare argument routes.  Of Go's [ServeMux]
      itself: [match] returns the most specific pattern for any
      registrations, and [cleanPath] is idempotent (PathClean).
    - Middleware: a preflight is answered before routing and even with an
      oversized body (the chain of lines 219-229 puts [preflight] outside
      [limitRequestSize]); an oversized body is answered 413; HEAD is
      answered as GET without a body; the observer sees the final status;
      a method outside a route's list is answered 405.
    - Startup: a flag that differs from its default wins over the
      environment, but a flag at its default value, even if given, does not
      (against the comment of main.go line 40), and [USE_REAL_HOSTNAME]
      overrides the flag; an unparsable variable exits with status 1; the
      server record main builds; the shutdown timeout is not positive for a
      negative max duration and wraps around near the top of [int64].
    - Startup with Go's [ParseDuration] (Duration): [main]'s
      [MAX_DURATION] block accepts two nanosecond components whose sum
      wraps modulo [2^64], so [2^63]ns[2^63]ns starts the server with a
      maximum duration of 0 (a configuration error that is not fatal).
      Library lemmas: [Atoi] reads back [Itoa]; [ParseDuration] reads
      back [Itoa d] ns, returns [int64] values, and its loop needs no more
      rounds than its input has bytes.
    - Lifecycle: the invariant [lc_inv] of the reachable states; the
      refinement of the specification's machine, in which draining starts
      only after a received signal and the grace period ends exactly
      [maxDuration + 1s] after the logged signal time (when that sum does
      not overflow); a clean exit cuts a connection only after the grace
      period; after a signal the program can always exit by its own
      actions within the grace period; at most one shutdown is ever
      started (later signals are dropped); exit status 1 means binding
      failed after the banner already said "ready", with no connection
      served; a signal acted upon between [log.Fatalf]'s write and its
      [os.Exit(1)] logs "shutdown started" after the fatal message and the
      exit status stays 1; and when [maxDuration + 1s] is not positive a
      request in flight is cut at the instant of the signal.  The
      interpreter [exec] is the step relation ([exec_step_iff]).
    - Endpoints: end to end through the route table, [ServeMux]'s path
      cleaning and dispatch and the middleware: GET [/status/c] answers
      [c] with an empty body, or 400 when [c] is not a status; a client
      following GET [/redirect/n] follows exactly [n] redirects and lands
      on [/get]; GET [/etag/t] answers 304 exactly when If-None-Match is
      [t]; GET [/stream/n] carries [min n 100] records whose ids a line
      reader finds as 0, 1, ... in order.  And of the timing handlers: the
      delay never runs past [MaxDuration] and never answers before a
      cancellation; the drip rejects out-of-range arguments before writing
      and otherwise writes exactly [numbytes] bytes at non-decreasing
      times within [delay + duration <= MaxDuration].  The dispatch
      lemma [dispatch_subtree] shows that a path [/s/w] of proper segments
      reaches the subtree pattern [/s/] whenever no other pattern extends
      it ([owns_subtree], checked on the table).
    - Banner: the milliseconds shown; a negative start-up time when the
      wall clock steps back; the URL advertised is always port 8080, while
      the server listens on the resolved port.

    ** Modelling choices

    - Go [int64] and [time.Duration] are [Z] with the wrap-around of
      [wrap64] written out where the code adds; strings are
      [String.string] (byte strings, as Go's).
    - [http.Header] is a [gmap string (list string)] keyed by canonical
      header names, as the Go server stores it.
    - Go's [ServeMux] is modelled in its path-only form (no host patterns,
      no method patterns), the form every registration of [app.go] uses.
    - Loops run on fuel equal to the length of their input, which is
      enough because each round consumes at least one byte: for
      [TrimSpace] the lemmas [trim_left_spec]/[trim_right_spec], for
      [ParseDuration] the theorem [parse_loop_fuel] (any larger fuel gives
      the same result).
    - Concurrency is interleaving: each atomic action of a goroutine or of
      the environment is one step; time is an integer clock that the
      environment advances; [context.WithTimeout]'s deadline is compared
      with it.

    ** Not modelled

    - The handlers other than those of [Endpoints] ([h.Get] and the
      request envelope, [h.Anything], cookies, the authentication
      handlers, gzip/deflate, range, bytes, images, [h.Unstable],
      [h.RedirectTo], the relative and absolute redirects): their files
      are not in the sources and the specification does not state their
      output precisely enough to write them; they are the parameter
      [base] of the spec handlers, and the theorems hold for any [base].
    - The query string is not part of the [Request] record (the mux
      dispatches on the path only), so [Drip_run] receives its arguments
      parsed and is not reached through [spec_serve]; the drip route
      serves [base].
    - [flag.Parse], [os.Getenv], [os.Hostname], [net.InterfaceAddrs],
      logging and signal delivery are library I/O: their results are the
      inputs of the models (the [Flags] record, the environment function,
      the host name, the address list, the signal steps of [Lifecycle]).
      The handlers' suspensions are their schedules in nanoseconds, not a
      clock.
    - Nothing is assumed: there is no axiom and no admitted proof. *)

From stdpp Require Export base gmap strings list.
From Stdlib Require Export String Ascii ZArith Lia.

Declare Scope go_scope.
Delimit Scope go_scope with go.

(** Boolean string comparison as Go's [==] on strings. *)
Notation "a ==s b" := (String.eqb a b) (at level 70, no associativity) : go_scope.
(** Go's string concatenation [a + b]. *)
Notation "a +s b" := (String.append a b) (at level 60, right associativity) : go_scope.

Open Scope go_scope.

(** stdpp makes [String.append] opaque to [simpl]; Go code concatenates
    strings everywhere, so the development lets it compute again. *)
Global Arguments String.append : simpl nomatch.

(** Go's [v, err := f(); if err != nil { ... }]: a computation that
    stops at the first error, [inl e], or goes on with the value [inr v]. *)
Definition err_bind {E A B} (r : E + A) (k : A -> E + B) : E + B :=
  match r with
  | inl e => inl e
  | inr a => k a
  end.

Notation "'let?' x ':=' r 'in' k" := (err_bind r (fun x => k))
  (at level 10, x name, r at level 100, k at level 200) : go_scope.

Create HintDb httpbin.
Create Rewrite HintDb httpbin_rw.

(** ** Go [int64] arithmetic *)

Local Open Scope Z_scope.

Definition int64_modulus : Z := 2 ^ 64.
Definition int64_min : Z := - 2 ^ 63.
Definition int64_max : Z := 2 ^ 63 - 1.

(** Two's-complement wrap-around of an unbounded integer into [int64]. *)
Definition wrap64 (z : Z) : Z := (z + 2 ^ 63) mod 2 ^ 64 - 2 ^ 63.

Definition in_int64 (z : Z) : Prop := int64_min <= z <= int64_max.

(** Go's [x + y] on [int64] (and on [time.Duration]). *)
Definition add64 (x y : Z) : Z := wrap64 (x + y).

Lemma wrap64_range z : in_int64 (wrap64 z).
Proof.
  unfold in_int64, wrap64, int64_min, int64_max.
  pose proof (Z.mod_pos_bound (z + 2 ^ 63) (2 ^ 64)). lia.
Qed.

Lemma wrap64_id z : in_int64 z -> wrap64 z = z.
Proof.
  unfold in_int64, wrap64, int64_min, int64_max. intros H.
  rewrite Z.mod_small; lia.
Qed.

(** Adding past [int64_max] wraps to a negative value. *)
Lemma add64_overflow x y :
  in_int64 x -> in_int64 y -> int64_max < x + y -> add64 x y = x + y - 2 ^ 64.
Proof.
  unfold add64, in_int64, wrap64, int64_min, int64_max. intros Hx Hy Hxy.
  rewrite <- (Z.mod_unique (x + y + 2 ^ 63) (2 ^ 64) 1 (x + y + 2 ^ 63 - 2 ^ 64)); lia.
Qed.

Lemma add64_no_overflow x y : in_int64 (x + y) -> add64 x y = x + y.
Proof. apply wrap64_id. Qed.

#[export] Hint Resolve wrap64_range : httpbin.

Local Close Scope Z_scope.

(** ** Strings *)

Lemma str_eqb_refl s : (s ==s s) = true.
Proof. apply String.eqb_refl. Qed.

Lemma str_eqb_neq s t : s <> t -> (s ==s t) = false.
Proof. intros H. apply String.eqb_neq. exact H. Qed.

Lemma str_eqb_true s t : (s ==s t) = true -> s = t.
Proof. apply String.eqb_eq. Qed.

#[export] Hint Rewrite str_eqb_refl : httpbin_rw.
#[export] Hint Resolve str_eqb_true : httpbin.

Lemma str_length_app (s t : string) :
  String.length (s +s t) = String.length s + String.length t.
Proof. induction s as [|c s IH]; simpl; congruence. Qed.

Lemma str_app_nil_r (s : string) : (s +s "")%string = s.
Proof. induction s as [|c s IH]; simpl; congruence. Qed.

Lemma str_app_assoc (s t u : string) : ((s +s t) +s u) = (s +s (t +s u)).
Proof. induction s as [|c s IH]; simpl; congruence. Qed.

Lemma str_app_inj_l (p s t : string) : (p +s s) = (p +s t) -> s = t.
Proof. induction p as [|c p IH]; simpl; [done | intros H; injection H; auto]. Qed.

#[export] Hint Rewrite str_length_app str_app_nil_r : httpbin_rw.

(** Case analysis on every string comparison [a ==s b] of the goal. *)
Ltac go_case_str :=
  repeat match goal with
  | |- context [?a ==s ?b] => destruct (String.eqb_spec a b); subst
  end.

(** Case analysis on the boolean and string tests a Go [if] turns into. *)
Ltac go_cases :=
  repeat first
    [ progress go_case_str
    | match goal with
      | |- context [if ?b then _ else _] => destruct b eqn:?
      | |- context [match ?o with Some _ => _ | None => _ end] => destruct o eqn:?
      end ];
  simplify_eq; try done.

(** ** Transition systems

    The reflexive-transitive closure of a step relation, with the
    induction principle for invariants (after the [star] of Leroy's
    [Sequences] library). *)

Section Star.

Context {S : Type} (R : S -> S -> Prop).

Inductive star : S -> S -> Prop :=
| star_refl s : star s s
| star_step s1 s2 s3 : R s1 s2 -> star s2 s3 -> star s1 s3.

Lemma star_one s1 s2 : R s1 s2 -> star s1 s2.
Proof. intros H. eapply star_step; [exact H | apply star_refl]. Qed.

Lemma star_trans s1 s2 s3 : star s1 s2 -> star s2 s3 -> star s1 s3.
Proof. induction 1; [done|]. intros H3. eapply star_step; eauto. Qed.

Lemma star_right s1 s2 s3 : star s1 s2 -> R s2 s3 -> star s1 s3.
Proof. intros H1 H2. eapply star_trans; [exact H1 | by apply star_one]. Qed.

(** An invariant: true at the start and kept by every step. *)
Lemma star_inv (P : S -> Prop) s1 s2 :
  (forall a b, P a -> R a b -> P b) -> P s1 -> star s1 s2 -> P s2.
Proof. intros Hstep H1 Hs. induction Hs; eauto. Qed.

End Star.

(** Simulation: when every step from a state satisfying an invariant [P]
    is matched by a step of [Ra] between the images under [f], so is every
    run. *)
Lemma star_simulation {S A : Type} (R : S -> S -> Prop) (Ra : A -> A -> Prop)
    (f : S -> A) (P : S -> Prop) s1 s2 :
  (forall a b, P a -> R a b -> P b) ->
  (forall a b, P a -> R a b -> Ra (f a) (f b)) ->
  P s1 -> star R s1 s2 -> star Ra (f s1) (f s2).
Proof.
  intros Hinv Hsim H1 Hs. induction Hs; [apply star_refl|].
  eapply star_step; [by apply Hsim | eauto].
Qed.

#[export] Hint Constructors star : httpbin.
#[export] Hint Resolve star_one star_trans : httpbin.
