(* ===== verification/GoLib.v ===== *)
(** * GoLib: the parts of Go's standard library that the sources call

    Each definition follows the Go implementation of the function it is
    named after (Go 1.21 standard library): [strings.TrimSpace] with its
    Unicode white space, [strings.SplitN] with a one-byte separator,
    [textproto.CanonicalMIMEHeaderKey], [http.Header.Get]/[Set], and the
    parts of [net.IP] used by [ip.go].  Strings are byte strings
    ([String.string]); the lemmas here are the facts the component files
    share about these functions. *)

From S2P Require Import Prelude.
From Stdlib Require Import DecimalString DecimalPos DecimalZ.

(** Byte strings as lists of bytes, for the functions that scan them. *)
Definition bytes (l : list nat) : list ascii := map ascii_of_nat l.

Definition to_bytes (s : string) : list ascii := list_ascii_of_string s.
Definition of_bytes (l : list ascii) : string := string_of_list_ascii l.

Lemma of_to_bytes s : of_bytes (to_bytes s) = s.
Proof. apply string_of_list_ascii_of_string. Qed.

Lemma to_of_bytes l : to_bytes (of_bytes l) = l.
Proof. apply list_ascii_of_string_of_list_ascii. Qed.

#[export] Hint Rewrite of_to_bytes to_of_bytes : httpbin_rw.

(** ** [strings.TrimSpace] *)

(** The UTF-8 encodings of the runes for which [unicode.IsSpace] holds:
    the ASCII white space [\t \n \v \f \r] and space, U+0085, U+00A0,
    U+1680, U+2000..U+200A, U+2028, U+2029, U+202F, U+205F and U+3000. *)
Definition space_runes : list (list ascii) :=
  map bytes
    [ [9]; [10]; [11]; [12]; [13]; [32];
      [194; 133]; [194; 160];
      [225; 154; 128];
      [226; 128; 128]; [226; 128; 129]; [226; 128; 130]; [226; 128; 131];
      [226; 128; 132]; [226; 128; 133]; [226; 128; 134]; [226; 128; 135];
      [226; 128; 136]; [226; 128; 137]; [226; 128; 138];
      [226; 128; 168]; [226; 128; 169]; [226; 128; 175];
      [226; 129; 159];
      [227; 128; 128] ].

Fixpoint strip_prefix (p s : list ascii) : option (list ascii) :=
  match p, s with
  | [], _ => Some s
  | a :: p', b :: s' => if Ascii.eqb a b then strip_prefix p' s' else None
  | _ :: _, [] => None
  end.

Fixpoint first_strip (rs : list (list ascii)) (s : list ascii) : option (list ascii) :=
  match rs with
  | [] => None
  | r :: rs' =>
      match strip_prefix r s with
      | Some s' => Some s'
      | None => first_strip rs' s
      end
  end.

(** Removes one white-space rune at the head of [s], if [s] starts with
    one (what [utf8.DecodeRune] followed by [unicode.IsSpace] decides). *)
Definition leading_space (s : list ascii) : option (list ascii) :=
  first_strip space_runes s.

(** Same at the end of [s], on the reversed string (what
    [utf8.DecodeLastRune] decides: UTF-8 encodings are suffix-free). *)
Definition trailing_space_rev (rs : list ascii) : option (list ascii) :=
  first_strip (map (@rev ascii) space_runes) rs.

Fixpoint trim_left_fuel (fuel : nat) (s : list ascii) : list ascii :=
  match fuel with
  | 0 => s
  | S f => match leading_space s with
           | Some s' => trim_left_fuel f s'
           | None => s
           end
  end.

Fixpoint trim_right_rev_fuel (fuel : nat) (rs : list ascii) : list ascii :=
  match fuel with
  | 0 => rs
  | S f => match trailing_space_rev rs with
           | Some rs' => trim_right_rev_fuel f rs'
           | None => rs
           end
  end.

(** [strings.TrimLeftFunc(s, unicode.IsSpace)]; each step removes at least
    one byte, so [length s] steps are enough. *)
Definition trim_left (s : list ascii) : list ascii := trim_left_fuel (List.length s) s.

(** [strings.TrimRightFunc(s, unicode.IsSpace)]. *)
Definition trim_right (s : list ascii) : list ascii :=
  rev (trim_right_rev_fuel (List.length s) (rev s)).

(** [strings.TrimSpace]: its ASCII fast path and its fall-back to
    [TrimFunc] both remove the white-space runes at both ends. *)
Definition TrimSpace (s : string) : string :=
  of_bytes (trim_right (trim_left (to_bytes s))).

(** ** [strings.SplitN] with a one-byte separator *)

(** [strings.Cut] on one byte: the text before the first [sep] and the
    text after it, or [None] when [sep] does not occur. *)
Fixpoint cut_byte (sep : ascii) (s : string) : option (string * string) :=
  match s with
  | EmptyString => None
  | String c s' =>
      if Ascii.eqb c sep then Some (EmptyString, s')
      else match cut_byte sep s' with
           | Some (before, after) => Some (String c before, after)
           | None => None
           end
  end.

(** The loop of [genSplit]: at most [k] cuts, then the rest. *)
Fixpoint split_cuts (sep : ascii) (k : nat) (s : string) : list string :=
  match k with
  | 0 => [s]
  | S k' => match cut_byte sep s with
            | Some (before, after) => before :: split_cuts sep k' after
            | None => [s]
            end
  end.

(** [strings.SplitN(s, sep, n)] for a one-byte [sep]: [n = 0] gives nil,
    [n < 0] splits at every [sep], [n > 0] gives at most [n] pieces (Go
    first caps [n] at [len(s)+1], which never changes the result). *)
Definition SplitN (s : string) (sep : ascii) (n : Z) : list string :=
  if (n =? 0)%Z then []
  else if (n <? 0)%Z then split_cuts sep (String.length s) s
  else split_cuts sep (Z.to_nat n - 1) s.

(** ** [textproto.CanonicalMIMEHeaderKey] *)

(** [validHeaderFieldByte]: the RFC 7230 token characters. *)
Definition validHeaderFieldByte (c : ascii) : bool :=
  let n := nat_of_ascii c in
  ((48 <=? n) && (n <=? 57)) || ((65 <=? n) && (n <=? 90)) ||
  ((97 <=? n) && (n <=? 122)) ||
  existsb (Nat.eqb n) [33; 35; 36; 37; 38; 39; 42; 43; 45; 46; 94; 95; 96; 124; 126].

Definition is_lower (c : ascii) : bool :=
  let n := nat_of_ascii c in (97 <=? n) && (n <=? 122).
Definition is_upper (c : ascii) : bool :=
  let n := nat_of_ascii c in (65 <=? n) && (n <=? 90).

(** The rewriting loop of [canonicalMIMEHeaderKey]: upper case at the
    start and after each '-', lower case elsewhere. *)
Fixpoint canon_loop (upper : bool) (s : string) : string :=
  match s with
  | EmptyString => EmptyString
  | String c s' =>
      let c' := if upper && is_lower c then ascii_of_nat (nat_of_ascii c - 32)
                else if negb upper && is_upper c then ascii_of_nat (nat_of_ascii c + 32)
                else c in
      String c' (canon_loop (Ascii.eqb c' "-"%char) s')
  end.

Fixpoint all_bytes (p : ascii -> bool) (s : string) : bool :=
  match s with
  | EmptyString => true
  | String c s' => p c && all_bytes p s'
  end.

(** A key with a byte that is not a token character (a space included)
    is returned unchanged; otherwise it is rewritten by [canon_loop]. *)
Definition CanonicalMIMEHeaderKey (s : string) : string :=
  if all_bytes validHeaderFieldByte s then canon_loop true s else s.

(** ** [http.Header] *)

(** [http.Header] is [map[string][]string]; the server stores incoming
    header names in canonical form. *)
Abbreviation Header := (gmap string (list string)).

(** [Header.Get(key)]: the first value stored under the canonical key, or
    "" when there is none. *)
Definition Header_Get (h : Header) (key : string) : string :=
  match h !! CanonicalMIMEHeaderKey key with
  | Some (v :: _) => v
  | _ => EmptyString
  end.

(** [Header.Set(key, value)]: replaces the values under the canonical key. *)
Definition Header_Set (h : Header) (key value : string) : Header :=
  <[CanonicalMIMEHeaderKey key := [value]]> h.

(** ** [strconv.Itoa] *)

(** Decimal text of an integer, with a leading '-' when negative. *)
Definition Itoa (z : Z) : string := DecimalString.NilZero.string_of_int (Z.to_int z).

(** ** [strconv.ParseUint], [ParseInt] and [Atoi] in base 10, 64 bits *)

Inductive NumError := ErrSyntax | ErrRange.

Definition maxUint64 : Z := 2 ^ 64 - 1.

Definition is_digit (c : ascii) : bool :=
  let n := nat_of_ascii c in (48 <=? n) && (n <=? 57).
Definition digit_val (c : ascii) : Z := Z.of_nat (nat_of_ascii c - 48).

(** The digit loop of [ParseUint] for base 10: a non-digit is a syntax
    error, and the range check ([n >= cutoff], then [n1 > maxVal]) comes
    before the rest of the string is looked at. *)
Fixpoint parse_uint_loop (s : string) (n : Z) : NumError + Z :=
  match s with
  | EmptyString => inr n
  | String c s' =>
      if negb (is_digit c) then inl ErrSyntax
      else if (n >=? maxUint64 / 10 + 1)%Z then inl ErrRange
      else let n1 := (n * 10 + digit_val c)%Z in
           if (n1 >? maxUint64)%Z then inl ErrRange else parse_uint_loop s' n1
  end.

(** [strconv.ParseUint(s, 10, 64)]. *)
Definition ParseUint (s : string) : NumError + Z :=
  if s ==s "" then inl ErrSyntax else parse_uint_loop s 0.

(** [strconv.ParseInt(s, 10, 64)]: an optional sign, then [ParseUint];
    a magnitude beyond [int64] is a range error. *)
Definition ParseInt (s : string) : NumError + Z :=
  match s with
  | EmptyString => inl ErrSyntax
  | String c rest =>
      let neg := Ascii.eqb c "-"%char in
      let digits := if neg || Ascii.eqb c "+"%char then rest else s in
      match ParseUint digits with
      | inl ErrSyntax => inl ErrSyntax
      | inl ErrRange => inl ErrRange
      | inr un =>
          if negb neg && (un >=? 2 ^ 63)%Z then inl ErrRange
          else if neg && (un >? 2 ^ 63)%Z then inl ErrRange
          else inr (if neg then - un else un)%Z
      end
  end.

(** The loop of [Atoi]'s fast path: [ch -= '0'; if ch > 9] rejects every
    byte that is not a digit. *)
Fixpoint atoi_fast_loop (s : string) (n : Z) : option Z :=
  match s with
  | EmptyString => Some n
  | String c s' => if is_digit c then atoi_fast_loop s' (n * 10 + digit_val c)%Z else None
  end.

(** [strconv.Atoi] on a 64-bit platform: strings of 1 to 18 bytes take the
    fast path, the others [ParseInt(s, 10, 0)]. *)
Definition Atoi (s : string) : NumError + Z :=
  let len := String.length s in
  if (0 <? len) && (len <? 19) then
    match s with
    | EmptyString => inl ErrSyntax
    | String c rest =>
        let signed := Ascii.eqb c "-"%char || Ascii.eqb c "+"%char in
        let digits := if signed then rest else s in
        if signed && (digits ==s "") then inl ErrSyntax
        else match atoi_fast_loop digits 0 with
             | Some n => inr (if Ascii.eqb c "-"%char then - n else n)%Z
             | None => inl ErrSyntax
             end
    end
  else ParseInt s.

(** The value of a string of decimal digits read left to right, as the
    loops of [ParseUint], [Atoi] and [time]'s [leadingInt] accumulate it. *)
Fixpoint dec_val (s : string) (n : Z) : Z :=
  match s with
  | EmptyString => n
  | String c s' => dec_val s' (n * 10 + digit_val c)%Z
  end.

Fixpoint all_digits (s : string) : bool :=
  match s with
  | EmptyString => true
  | String c s' => is_digit c && all_digits s'
  end.

Lemma digit_val_range c : is_digit c = true -> (0 <= digit_val c <= 9)%Z.
Proof.
  unfold is_digit, digit_val. intros [H1 H2]%andb_prop.
  apply Nat.leb_le in H1, H2. lia.
Qed.

(** On at most 18 digits (the bound [(n + 1) * 10 ^ len <= 10 ^ 18]), the
    [ParseUint] loop never reports a range error and agrees with the fast
    loop of [Atoi]; its result stays below [10 ^ 18]. *)
Lemma parse_uint_loop_fast (s : string) (n : Z) :
  (0 <= n)%Z -> ((n + 1) * 10 ^ Z.of_nat (String.length s) <= 10 ^ 18)%Z ->
  parse_uint_loop s n =
    match atoi_fast_loop s n with Some v => inr v | None => inl ErrSyntax end /\
  (forall v, atoi_fast_loop s n = Some v -> (0 <= v < 10 ^ 18)%Z).
Proof.
  revert n. induction s as [|c s IH]; intros n Hn Hb; simpl in *.
  - split; [done|]. intros v [= <-]. lia.
  - rewrite Nat2Z.inj_succ, Z.pow_succ_r in Hb by lia.
    pose proof (Z.pow_pos_nonneg 10 (Z.of_nat (String.length s)) ltac:(lia) ltac:(lia)) as Hp.
    destruct (is_digit c) eqn:Hd; simpl; [|done].
    pose proof (digit_val_range c Hd) as Hdv.
    set (p := (10 ^ Z.of_nat (String.length s))%Z) in *.
    assert (Hn10 : ((n + 1) * 10 <= 10 ^ 18)%Z) by nia.
    change (maxUint64 / 10 + 1)%Z with 1844674407370955162%Z.
    change maxUint64 with 18446744073709551615%Z.
    replace (n >=? 1844674407370955162)%Z with false by lia.
    replace (n * 10 + digit_val c >? 18446744073709551615)%Z with false by lia.
    apply IH; nia.
Qed.

(** ** Decimal digits *)

Lemma dec_val_ge (w : string) (n : Z) :
  (0 <= n)%Z -> all_digits w = true -> (n <= dec_val w n)%Z.
Proof.
  revert n. induction w as [|c w IH]; intros n Hn Hd; simpl in *; [lia|].
  apply andb_prop in Hd as [Hc Hw]. pose proof (digit_val_range c Hc).
  specialize (IH (n * 10 + digit_val c)%Z ltac:(lia) Hw). lia.
Qed.

(** On a string of digits whose value fits, the [ParseUint] loop passes
    its range checks and returns the value. *)
Lemma parse_uint_loop_digits (w : string) (n : Z) :
  (0 <= n)%Z -> all_digits w = true -> (dec_val w n <= maxUint64)%Z ->
  parse_uint_loop w n = inr (dec_val w n).
Proof.
  revert n. induction w as [|c w IH]; intros n Hn Hd Hb; simpl in *; [done|].
  apply andb_prop in Hd as [Hc Hw]. pose proof (digit_val_range c Hc).
  pose proof (dec_val_ge w (n * 10 + digit_val c) ltac:(lia) Hw).
  rewrite Hc. cbn [negb].
  change (maxUint64 / 10 + 1)%Z with 1844674407370955162%Z.
  change maxUint64 with 18446744073709551615%Z in *.
  replace (n >=? 1844674407370955162)%Z with false by lia.
  replace (n * 10 + digit_val c >? 18446744073709551615)%Z with false by lia.
  apply IH; [lia | done | exact Hb].
Qed.

(** The digits [Pos.of_uint_acc] reads are the digits [string_of_uint]
    writes. *)
Lemma of_uint_acc_dec_val (u : Decimal.uint) (acc : positive) :
  Z.pos (Pos.of_uint_acc u acc) = dec_val (NilEmpty.string_of_uint u) (Z.pos acc) /\
  all_digits (NilEmpty.string_of_uint u) = true.
Proof.
  revert acc. induction u; intros acc; simpl; [done| ..];
  (split; [rewrite (proj1 (IHu _)); f_equal; unfold digit_val; simpl; lia | apply (IHu 1%positive)]).
Qed.

Lemma of_uint_dec_val (u : Decimal.uint) :
  Z.of_N (Pos.of_uint u) = dec_val (NilEmpty.string_of_uint u) 0 /\
  all_digits (NilEmpty.string_of_uint u) = true.
Proof.
  induction u; simpl;
  [ done
  | destruct IHu as [IH1 IH2]; split; [rewrite IH1; f_equal; unfold digit_val; simpl; lia | done]
  | .. ];
  (split; [rewrite (proj1 (of_uint_acc_dec_val u _)); f_equal; unfold digit_val; simpl; lia
          | apply (of_uint_acc_dec_val u 1%positive)]).
Qed.

(** [Itoa z] is the digits of [|z|], after a '-' when [z < 0]. *)
Lemma Itoa_shape (z : Z) :
  exists w, w <> EmptyString /\ all_digits w = true /\ dec_val w 0 = Z.abs z /\
    Itoa z = (if (z <? 0)%Z then String "-"%char w else w).
Proof.
  unfold Itoa. destruct z as [|p|p]; simpl.
  - by exists "0".
  - pose proof (DecimalPos.Unsigned.to_uint_nonnil p) as Hn.
    destruct (of_uint_dec_val (Pos.to_uint p)) as [Hv Hd].
    rewrite DecimalPos.Unsigned.of_to in Hv.
    exists (NilEmpty.string_of_uint (Pos.to_uint p)).
    destruct (Pos.to_uint p); try done.
  - pose proof (DecimalPos.Unsigned.to_uint_nonnil p) as Hn.
    destruct (of_uint_dec_val (Pos.to_uint p)) as [Hv Hd].
    rewrite DecimalPos.Unsigned.of_to in Hv.
    exists (NilEmpty.string_of_uint (Pos.to_uint p)).
    destruct (Pos.to_uint p); try done.
Qed.

Lemma digit_not_sign (c : ascii) :
  is_digit c = true -> Ascii.eqb c "-"%char = false /\ Ascii.eqb c "+"%char = false.
Proof.
  intros Hc. split; apply Ascii.eqb_neq; intros ->; vm_compute in Hc; discriminate.
Qed.

Lemma ParseUint_digits (w : string) :
  w <> EmptyString -> all_digits w = true -> (dec_val w 0 <= maxUint64)%Z ->
  ParseUint w = inr (dec_val w 0).
Proof.
  intros Hne Hd Hb. unfold ParseUint.
  destruct (w ==s "") eqn:He; [apply String.eqb_eq in He; done|].
  by apply parse_uint_loop_digits.
Qed.

Lemma atoi_sign_cases (c : ascii) :
  (Ascii.eqb c "-"%char = true /\ Ascii.eqb c "+"%char = false) \/
  (Ascii.eqb c "-"%char = false /\ Ascii.eqb c "+"%char = true) \/
  (Ascii.eqb c "-"%char = false /\ Ascii.eqb c "+"%char = false).
Proof.
  destruct (Ascii.eqb_spec c "-"%char) as [->|]; [by left|].
  destruct (Ascii.eqb_spec c "+"%char) as [->|]; [right; by left | right; by right].
Qed.

(** The fast path of [Atoi] computes what [ParseInt(s, 10, 64)] computes:
    [Atoi] is [ParseInt] on every string. *)
Lemma Atoi_ParseInt (s : string) : Atoi s = ParseInt s.
Proof.
  unfold Atoi. destruct ((0 <? String.length s) && (String.length s <? 19)) eqn:Hl; [|done].
  apply andb_prop in Hl as [_ Hl]. apply Nat.ltb_lt in Hl.
  destruct s as [|c rest]; [done|]. simpl in Hl. unfold ParseInt, ParseUint.
  assert (Hr : ((0 + 1) * 10 ^ Z.of_nat (String.length rest) <= 10 ^ 18)%Z)
    by (rewrite Z.mul_1_l; apply Z.pow_le_mono_r; lia).
  destruct (atoi_sign_cases c) as [[Hm Hp]|[[Hm Hp]|[Hm Hp]]]; rewrite Hm, Hp; cbn [orb andb negb].
  - destruct (rest ==s "") eqn:He; [done|].
    destruct (parse_uint_loop_fast rest 0 ltac:(lia) Hr) as [-> Hv].
    destruct (atoi_fast_loop rest 0) as [v|]; [|done].
    specialize (Hv v eq_refl). replace (v >? 2 ^ 63)%Z with false by lia. done.
  - destruct (rest ==s "") eqn:He; [done|].
    destruct (parse_uint_loop_fast rest 0 ltac:(lia) Hr) as [-> Hv].
    destruct (atoi_fast_loop rest 0) as [v|]; [|done].
    specialize (Hv v eq_refl). replace (v >=? 2 ^ 63)%Z with false by lia. done.
  - assert (Hs : ((0 + 1) * 10 ^ Z.of_nat (String.length (String c rest)) <= 10 ^ 18)%Z)
      by (simpl; rewrite Z.mul_1_l; apply Z.pow_le_mono_r; lia).
    destruct (parse_uint_loop_fast (String c rest) 0 ltac:(lia) Hs) as [Heq Hv].
    change (String c rest ==s "") with false. cbn iota. rewrite Heq.
    destruct (atoi_fast_loop (String c rest) 0) as [v|]; [|done].
    specialize (Hv v eq_refl). replace (v >=? 2 ^ 63)%Z with false by lia. done.
Qed.

(** Round trip.  [strconv.Atoi] reads back what [strconv.Itoa] writes,
    for every [int64] (main.go formats the port with [Itoa] and reads
    [PORT] with [Atoi]). *)
Theorem Itoa_Atoi_roundtrip (z : Z) : in_int64 z -> Atoi (Itoa z) = inr z.
Proof.
  intros Hz. unfold in_int64, int64_min, int64_max in Hz. rewrite Atoi_ParseInt.
  destruct (Itoa_shape z) as (w & Hne & Hd & Hv & ->).
  assert (Hb : (dec_val w 0 <= maxUint64)%Z) by (unfold maxUint64; lia).
  destruct (z <? 0)%Z eqn:Hneg.
  - cbn. rewrite (ParseUint_digits w Hne Hd Hb), Hv. apply Z.ltb_lt in Hneg.
    replace (Z.abs z >? 2 ^ 63)%Z with false by lia. f_equal. lia.
  - destruct w as [|c rest]; [done|]. pose proof Hd as Hd'. simpl in Hd'. apply andb_prop in Hd' as [Hc _].
    destruct (digit_not_sign c Hc) as [Hm Hp]. apply Z.ltb_ge in Hneg.
    cbn [ParseInt]. rewrite Hm, Hp. cbn [orb negb andb].
    rewrite ParseUint_digits by done.
    rewrite Hv. replace (Z.abs z >=? 2 ^ 63)%Z with false by lia. f_equal. lia.
Qed.

Lemma Itoa_Atoi_roundtrip_witness :
  Itoa (-9223372036854775808) = "-9223372036854775808" /\
  Atoi (Itoa (-9223372036854775808)) = inr (-9223372036854775808)%Z.
Proof.
  split; [vm_compute; reflexivity|].
  apply Itoa_Atoi_roundtrip. unfold in_int64, int64_min, int64_max. lia.
Defined.

Lemma to_int_not_nil (z : Z) : Z.to_int z <> Decimal.Pos Decimal.Nil /\ Z.to_int z <> Decimal.Neg Decimal.Nil.
Proof.
  destruct z as [|p|p]; simpl; split; try discriminate;
    intros [= H]; exact (DecimalPos.Unsigned.to_uint_nonnil p H).
Qed.

(** Different integers have different decimal texts. *)
Lemma Itoa_inj (a b : Z) : Itoa a = Itoa b -> a = b.
Proof.
  unfold Itoa. intros H. apply (f_equal DecimalString.NilZero.int_of_string) in H.
  destruct (to_int_not_nil a) as [Ha1 Ha2]. destruct (to_int_not_nil b) as [Hb1 Hb2].
  rewrite !DecimalString.NilZero.isi in H by assumption.
  injection H as H. by apply DecimalZ.to_int_inj.
Qed.

(** ** [net.IP] *)

(** A [net.IP] is a byte slice: 4 bytes for IPv4, 16 for IPv6. *)
Abbreviation IP := (list Z).

Definition IPv4len : nat := 4.
Definition IPv6len : nat := 16.

(** [v4InV6Prefix]: the first 12 bytes of an IPv4-mapped IPv6 address. *)
Definition v4InV6Prefix : IP := [0; 0; 0; 0; 0; 0; 0; 0; 0; 0; 255; 255]%Z.

(** [net.IPv6loopback] = ::1. *)
Definition IPv6loopback : IP := [0; 0; 0; 0; 0; 0; 0; 0; 0; 0; 0; 0; 0; 0; 0; 1]%Z.

Definition bytes_equal (a b : IP) : bool :=
  (List.length a =? List.length b) && forallb (fun p => Z.eqb p.1 p.2) (zip a b).

(** [IP.To4]: the 4-byte form of an IPv4 or IPv4-mapped address, or nil. *)
Definition To4 (ip : IP) : option IP :=
  if List.length ip =? IPv4len then Some ip
  else if (List.length ip =? IPv6len) && bytes_equal (firstn 12 ip) v4InV6Prefix
  then Some (skipn 12 ip)
  else None.

(** [IP.Equal]. *)
Definition IP_Equal (ip x : IP) : bool :=
  if List.length ip =? List.length x then bytes_equal ip x
  else if (List.length ip =? IPv4len) && (List.length x =? IPv6len)
  then bytes_equal (firstn 12 x) v4InV6Prefix && bytes_equal ip (skipn 12 x)
  else if (List.length ip =? IPv6len) && (List.length x =? IPv4len)
  then bytes_equal (firstn 12 ip) v4InV6Prefix && bytes_equal (skipn 12 ip) x
  else false.

(** [IP.IsLoopback]: 127.0.0.0/8 or ::1. *)
Definition IsLoopback (ip : IP) : bool :=
  match To4 ip with
  | Some ip4 => (nth 0 ip4 0 =? 127)%Z
  | None => IP_Equal ip IPv6loopback
  end.

(** The dotted-decimal text [netip.Addr.String] gives a 4-byte address;
    [IP.String] returns it whenever [To4] is not nil. *)
Definition dotted (p4 : IP) : string :=
  match p4 with
  | [a; b; c; d] => Itoa a +s "." +s Itoa b +s "." +s Itoa c +s "." +s Itoa d
  | _ => EmptyString
  end.

(** ** Lemmas on the scanning functions *)

Lemma strip_prefix_app p s s' : strip_prefix p s = Some s' -> s = p ++ s'.
Proof.
  revert s. induction p as [|a p IH]; intros [|b s] H; simpl in *; simplify_eq; try done.
  destruct (Ascii.eqb_spec a b); [subst; f_equal; auto | done].
Qed.

Lemma first_strip_app rs s s' :
  first_strip rs s = Some s' -> exists r, In r rs /\ s = r ++ s'.
Proof.
  induction rs as [|r rs IH]; simpl; [done|].
  destruct (strip_prefix r s) eqn:E; intros H; simplify_eq.
  - exists r. split; [by left | by apply strip_prefix_app].
  - destruct (IH H) as (r' & ? & ?). exists r'. auto.
Qed.

Lemma space_runes_nonempty r : In r space_runes -> r <> [].
Proof. simpl. intros H. repeat (destruct H as [<-|H]; [done|]); done. Qed.

Lemma space_runes_rev_nonempty r : In r (map (@rev ascii) space_runes) -> r <> [].
Proof.
  intros (r0 & <- & Hin)%in_map_iff Hr.
  apply (space_runes_nonempty r0 Hin). apply length_zero_iff_nil.
  by rewrite <- length_rev, Hr.
Qed.

(** One removal step of a white-space rune shortens the string. *)
Lemma leading_space_shorter s s' :
  leading_space s = Some s' -> List.length s' < List.length s /\ exists r, s = r ++ s'.
Proof.
  intros (r & Hin & ->)%first_strip_app. split; [|eauto].
  rewrite length_app. pose proof (space_runes_nonempty r Hin). destruct r; [done|]. simpl. lia.
Qed.

Lemma trailing_space_rev_shorter s s' :
  trailing_space_rev s = Some s' -> List.length s' < List.length s /\ exists r, s = r ++ s'.
Proof.
  intros (r & Hin & ->)%first_strip_app. split; [|eauto].
  rewrite length_app. pose proof (space_runes_rev_nonempty r Hin). destruct r; [done|]. simpl. lia.
Qed.

(** The fuel-driven trimming loops: enough fuel removes every rune, and
    the result is a suffix of the input. *)
Section TrimLoop.
Context (step : list ascii -> option (list ascii)).
Hypothesis step_shorter : forall s s',
  step s = Some s' -> List.length s' < List.length s /\ exists r, s = r ++ s'.

Fixpoint trim_loop (fuel : nat) (s : list ascii) : list ascii :=
  match fuel with
  | 0 => s
  | S f => match step s with Some s' => trim_loop f s' | None => s end
  end.

Lemma trim_loop_done fuel s : List.length s <= fuel -> step (trim_loop fuel s) = None.
Proof.
  revert s. induction fuel as [|f IH]; intros s Hs; simpl.
  - destruct s; [|simpl in Hs; lia]. destruct (step []) eqn:E; [|done].
    apply step_shorter in E. simpl in E. lia.
  - destruct (step s) eqn:E; [|done]. apply IH.
    apply step_shorter in E. lia.
Qed.

Lemma trim_loop_suffix fuel s : exists r, s = r ++ trim_loop fuel s.
Proof.
  revert s. induction fuel as [|f IH]; intros s; simpl; [by exists []|].
  destruct (step s) eqn:E; [|by exists []].
  destruct (step_shorter _ _ E) as [_ [r ->]]. destruct (IH l) as [r' Hr'].
  exists (r ++ r'). rewrite <- app_assoc, <- Hr'. done.
Qed.
End TrimLoop.

Lemma trim_left_fuel_loop fuel s : trim_left_fuel fuel s = trim_loop leading_space fuel s.
Proof. revert s. induction fuel; intros s; simpl; [done|]. by destruct (leading_space s). Qed.

Lemma trim_right_rev_fuel_loop fuel s :
  trim_right_rev_fuel fuel s = trim_loop trailing_space_rev fuel s.
Proof. revert s. induction fuel; intros s; simpl; [done|]. by destruct (trailing_space_rev s). Qed.

(** [trim_left] leaves no white-space rune in front and drops a prefix. *)
Lemma trim_left_spec s :
  leading_space (trim_left s) = None /\ exists r, s = r ++ trim_left s.
Proof.
  unfold trim_left. rewrite trim_left_fuel_loop. split.
  - apply trim_loop_done; [apply leading_space_shorter | done].
  - apply trim_loop_suffix, leading_space_shorter.
Qed.

(** [trim_right] leaves no white-space rune at the end and drops a suffix. *)
Lemma trim_right_spec s :
  trailing_space_rev (rev (trim_right s)) = None /\ exists r, s = trim_right s ++ r.
Proof.
  unfold trim_right. rewrite rev_involutive, trim_right_rev_fuel_loop. split.
  - apply trim_loop_done; [apply trailing_space_rev_shorter | by rewrite length_rev].
  - destruct (trim_loop_suffix _ trailing_space_rev_shorter (List.length s) (rev s)) as [r Hr].
    exists (rev r). rewrite <- rev_app_distr, <- Hr. by rewrite rev_involutive.
Qed.

(** Every byte of [TrimSpace s] is a byte of [s]. *)
Lemma TrimSpace_bytes s c : In c (to_bytes (TrimSpace s)) -> In c (to_bytes s).
Proof.
  unfold TrimSpace. rewrite to_of_bytes.
  destruct (trim_left_spec (to_bytes s)) as [_ [r1 E1]].
  destruct (trim_right_spec (trim_left (to_bytes s))) as [_ [r2 E2]].
  intros Hc. rewrite E1, E2. apply in_or_app. right. apply in_or_app. by left.
Qed.

Lemma strip_prefix_app_r p x y t :
  strip_prefix p x = Some y -> strip_prefix p (x ++ t) = Some (y ++ t).
Proof.
  revert x. induction p as [|a p IH]; intros [|b x] H; simpl in *; simplify_eq; try done.
  destruct (Ascii.eqb a b); [by apply IH | done].
Qed.

(** A rune found in front of [x] is still in front of [x ++ t]. *)
Lemma first_strip_app_r rs x t : first_strip rs x <> None -> first_strip rs (x ++ t) <> None.
Proof.
  induction rs as [|r rs IH]; simpl; [done|].
  destruct (strip_prefix r x) eqn:E.
  - by rewrite (strip_prefix_app_r _ _ _ _ E).
  - destruct (strip_prefix r (x ++ t)); [done | exact IH].
Qed.

(** [TrimSpace s] neither starts nor ends with a white-space rune. *)
Lemma TrimSpace_trimmed s :
  leading_space (to_bytes (TrimSpace s)) = None /\
  trailing_space_rev (rev (to_bytes (TrimSpace s))) = None.
Proof.
  unfold TrimSpace. rewrite to_of_bytes. split; [|apply trim_right_spec].
  set (l := trim_left (to_bytes s)).
  destruct (trim_right_spec l) as [_ [r E]].
  destruct (trim_left_spec (to_bytes s)) as [H _]. fold l in H.
  destruct (leading_space (trim_right l)) eqn:E'; [exfalso|done].
  apply (first_strip_app_r space_runes (trim_right l) r); [|by rewrite <- E].
  unfold leading_space in E'. by rewrite E'.
Qed.

(** ** [http.Request] *)

(** The fields of [*http.Request] the sources and the middleware read:
    the method, the URL path (after the server's parsing), the header map,
    the remote address of the connection and the body. *)
Record Request := mkRequest {
  req_Method : string;
  req_Path : string;
  req_Header : Header;
  req_RemoteAddr : string;
  req_Body : string
}.
