(* ===== verification/ClientIP.v ===== *)
(** * ClientIP: the client-address resolver of [src/app/utils/ip/ip.go]

    [GetClientIP] reads two request headers and the connection address;
    [GetLocalIp] scans the interface addresses.  The module [ClientIP]
    holds both functions, the abstract resolver of the specification
    (section 4.1) with the refinement theorem that [GetClientIP]
    implements it, the precedence and shape theorems, and the test table
    of [ip_test.go]. *)

From S2P Require Import Prelude GoLib.

Module ClientIP.

(** [strings.SplitN(forwardedFor, ",", 2)[0]]: Go panics when the index is
    out of range, which the model returns as [None]. *)
Definition first_forwarded (forwardedFor : string) : option string :=
  match SplitN forwardedFor ","%char 2 with
  | x :: _ => Some x
  | [] => None
  end.

(** [GetClientIP] (ip.go lines 13-27); [None] stands for a run-time panic. *)
Definition GetClientIP (req : Request) : option string :=
  let clientIP := Header_Get (req_Header req) "Fly-Client-IP" in
  if negb (clientIP ==s "") then Some clientIP
  else
    let forwardedFor := Header_Get (req_Header req) "X-Forwarded-For" in
    if negb (forwardedFor ==s "") then
      match first_forwarded forwardedFor with
      | Some first => Some (TrimSpace first)
      | None => None
      end
    else Some (req_RemoteAddr req).

(** The addresses [net.InterfaceAddrs] returns: [*net.IPNet] values and
    the other implementations of [net.Addr]. *)
Inductive Addr :=
| IPNetAddr (ip : IP) (mask : IP)
| OtherAddr.

(** [GetLocalIp] (ip.go lines 29-48); its argument is the result of
    [net.InterfaceAddrs()], [None] for an error. *)
Definition GetLocalIp (interfaceAddrs : option (list Addr)) : string :=
  match interfaceAddrs with
  | None => ""
  | Some addrs =>
      let fix loop (l : list Addr) : string :=
        match l with
        | [] => ""
        | IPNetAddr ip _ :: rest =>
            if negb (IsLoopback ip) then
              match To4 ip with
              | Some p4 => dotted p4
              | None => loop rest
              end
            else loop rest
        | OtherAddr :: rest => loop rest
        end in
      loop addrs
  end.

(** ** The specification of the resolver (spec section 4.1) *)

(** The text before the first comma (all of [s] when there is none). *)
Fixpoint before_comma (s : string) : string :=
  match s with
  | EmptyString => EmptyString
  | String c s' => if Ascii.eqb c ","%char then EmptyString else String c (before_comma s')
  end.

(** Precedence, first match wins: the platform client-IP header when
    non-empty; the first comma-separated X-Forwarded-For entry, trimmed,
    when the header is non-empty; the connection address. *)
Definition resolve_spec (platformIP forwardedFor remoteAddr : string) : string :=
  if negb (platformIP ==s "") then platformIP
  else if negb (forwardedFor ==s "") then TrimSpace (before_comma forwardedFor)
  else remoteAddr.

(** The first IPv4 address of an [*net.IPNet] that is not a loopback
    address, in the order [InterfaceAddrs] lists them. *)
Fixpoint first_ipv4 (addrs : list Addr) : option IP :=
  match addrs with
  | [] => None
  | IPNetAddr ip _ :: rest =>
      if negb (IsLoopback ip) then
        match To4 ip with Some p4 => Some p4 | None => first_ipv4 rest end
      else first_ipv4 rest
  | OtherAddr :: rest => first_ipv4 rest
  end.

(** ** The test table of [ip_test.go] *)

(** [makeHeaders]: a header map built with [Header.Set]. *)
Definition makeHeaders (kvs : list (string * string)) : Header :=
  fold_left (fun h kv => Header_Set h kv.1 kv.2) kvs ∅.

(** The three cases of [Test_GetClientIP]: name, request, expected value. *)
Definition testCases : list (string * Request * string) :=
  [ ("custom platform headers take precedence",
     mkRequest "GET" "/" (makeHeaders [("Fly-Client-IP", "9.9.9.9");
                                       ("X-Forwarded-For", "1.1.1.1,2.2.2.2,3.3.3.3")])
               "0.0.0.0" "", "9.9.9.9");
    ("x-forwarded-for is parsed",
     mkRequest "GET" "/" (makeHeaders [("X-Forwarded-For", "1.1.1.1,2.2.2.2,3.3.3.3")])
               "0.0.0.0" "", "1.1.1.1");
    ("remoteaddr is fallback", mkRequest "GET" "/" ∅ "0.0.0.0" "", "0.0.0.0") ].

(** The test body: [GetClientIP(tc.given) == tc.want] for every case. *)
Definition Test_GetClientIP : bool :=
  forallb (fun tc => match GetClientIP tc.1.2 with
                     | Some got => got ==s tc.2
                     | None => false
                     end) testCases.

(** ** Lemmas *)

Lemma cut_byte_comma s :
  match cut_byte ","%char s with
  | Some (before, _) => before = before_comma s
  | None => before_comma s = s
  end.
Proof.
  induction s as [|c s IH]; simpl; [done|].
  destruct (Ascii.eqb c ","%char); [done|].
  destruct (cut_byte ","%char s) as [[b a]|]; by rewrite IH.
Qed.

(** [SplitN(s, ",", 2)] always has an element 0: the text before the
    first comma. *)
Lemma first_forwarded_spec s : first_forwarded s = Some (before_comma s).
Proof.
  unfold first_forwarded, SplitN. simpl.
  pose proof (cut_byte_comma s) as H.
  destruct (cut_byte ","%char s) as [[b a]|]; simpl; by rewrite H.
Qed.

Lemma before_comma_no_comma s : ~ In ","%char (to_bytes (before_comma s)).
Proof.
  unfold to_bytes in *. induction s as [|c s IH]; simpl; [tauto|].
  destruct (Ascii.eqb_spec c ","%char); simpl; [tauto|]. intros [? | ?]; auto.
Qed.

Lemma Header_Get_fly h : Header_Get h "Fly-Client-IP" = Header_Get h "fly-client-ip".
Proof. reflexivity. Qed.

Lemma Header_Set_Get_same h k k' v :
  CanonicalMIMEHeaderKey k = CanonicalMIMEHeaderKey k' -> Header_Get (Header_Set h k v) k' = v.
Proof. unfold Header_Get, Header_Set. intros <-. by rewrite lookup_insert_eq. Qed.

Lemma To4_length ip p4 : To4 ip = Some p4 -> List.length p4 = 4.
Proof.
  unfold To4. destruct (Nat.eqb_spec (List.length ip) IPv4len) as [E|_].
  - intros [= <-]. exact E.
  - destruct (Nat.eqb_spec (List.length ip) IPv6len) as [E|_]; simpl; [|done].
    destruct (bytes_equal _ _); [|done]. intros [= <-]. rewrite length_skipn, E. done.
Qed.

Lemma IsLoopback_To4 ip p4 : To4 ip = Some p4 -> IsLoopback ip = (nth 0 p4 0 =? 127)%Z.
Proof. unfold IsLoopback. by intros ->. Qed.

Lemma GetLocalIp_loop addrs :
  GetLocalIp (Some addrs) = match first_ipv4 addrs with Some p4 => dotted p4 | None => "" end.
Proof.
  induction addrs as [|[ip mask|] rest IH]; simpl; [done| |done].
  destruct (IsLoopback ip); simpl; [done|]. by destruct (To4 ip).
Qed.

(** ** Theorems *)

(** C19: [GetClientIP] implements the resolver of the specification: on
    every request it returns (and never panics) the platform client IP
    when set, else the trimmed first X-Forwarded-For entry when that
    header is set, else the connection address. *)
Theorem GetClientIP_refines_spec (req : Request) :
  GetClientIP req =
  Some (resolve_spec (Header_Get (req_Header req) "Fly-Client-IP")
                     (Header_Get (req_Header req) "X-Forwarded-For")
                     (req_RemoteAddr req)).
Proof.
  unfold GetClientIP, resolve_spec.
  destruct (negb (_ ==s "")); [done|].
  destruct (negb (_ ==s "")); [|done].
  by rewrite first_forwarded_spec.
Qed.

(** a non-empty platform client-IP header wins over every other
    signal, whatever the header name's case in the request. *)
Theorem GetClientIP_platform_first (req : Request) (v : string) :
  Header_Get (req_Header req) "Fly-Client-IP" = v -> v <> "" -> GetClientIP req = Some v.
Proof.
  intros Hv Hne. rewrite GetClientIP_refines_spec, Hv. unfold resolve_spec.
  by rewrite str_eqb_neq.
Qed.

(** when only X-Forwarded-For is set, the result is its first entry:
    it has no comma, no surrounding white space, and every byte of it is
    a byte of the header. *)
Theorem GetClientIP_forwarded_shape (req : Request) (xff : string) :
  Header_Get (req_Header req) "Fly-Client-IP" = "" ->
  Header_Get (req_Header req) "X-Forwarded-For" = xff -> xff <> "" ->
  exists ip, GetClientIP req = Some ip /\
    ~ In ","%char (to_bytes ip) /\
    leading_space (to_bytes ip) = None /\
    trailing_space_rev (rev (to_bytes ip)) = None /\
    (forall c, In c (to_bytes ip) -> In c (to_bytes xff)).
Proof.
  intros Hfly Hxff Hne. rewrite GetClientIP_refines_spec, Hfly, Hxff. unfold resolve_spec.
  rewrite str_eqb_refl, str_eqb_neq by done. simpl.
  eexists; split; [reflexivity|].
  pose proof (TrimSpace_trimmed (before_comma xff)) as [Hl Hr].
  split; [|split; [done|split; [done|]]].
  - intros Hc. by apply (before_comma_no_comma xff), TrimSpace_bytes.
  - intros c Hc. apply TrimSpace_bytes in Hc. clear -Hc. unfold to_bytes in *.
    induction xff as [|a xff IH]; simpl in *; [done|].
    destruct (Ascii.eqb a ","%char); simpl in *; [done|]. destruct Hc; auto.
Qed.

(** with neither header set, the connection address is returned
    unchanged. *)
Theorem GetClientIP_remote_fallback (req : Request) :
  Header_Get (req_Header req) "Fly-Client-IP" = "" ->
  Header_Get (req_Header req) "X-Forwarded-For" = "" ->
  GetClientIP req = Some (req_RemoteAddr req).
Proof.
  intros Hfly Hxff. rewrite GetClientIP_refines_spec, Hfly, Hxff. done.
Qed.

(** C20: the resolver can return the empty string although the connection
    address is not empty: an X-Forwarded-For header that starts with a
    comma has an empty first entry, and the code takes it. *)
Theorem GetClientIP_empty_first_entry (req : Request) (rest : string) :
  Header_Get (req_Header req) "Fly-Client-IP" = "" ->
  Header_Get (req_Header req) "X-Forwarded-For" = String ","%char rest ->
  GetClientIP req = Some "".
Proof.
  intros Hfly Hxff. rewrite GetClientIP_refines_spec, Hfly, Hxff. done.
Qed.

(** The three cases of [Test_GetClientIP] in ip_test.go pass. *)
Theorem Test_GetClientIP_passes : Test_GetClientIP = true.
Proof. vm_compute. reflexivity. Qed.

(** header names are looked up case-insensitively: a client IP stored
    under "fly-client-ip" is the one returned. *)
Theorem GetClientIP_header_case (m p ra b v : string) (h : Header) :
  v <> "" -> GetClientIP (mkRequest m p (Header_Set h "fly-client-ip" v) ra b) = Some v.
Proof.
  intros Hv. apply GetClientIP_platform_first; [|done].
  simpl. by apply Header_Set_Get_same.
Qed.

(** C22: [GetLocalIp] returns the dotted form of the first non-loopback
    IPv4 address among the interface addresses, and "" when there is none
    or the lookup fails; the address it returns is a 4-byte address of an
    [IPNet] of the list and never in 127.0.0.0/8. *)
Theorem GetLocalIp_first_ipv4 (addrs : list Addr) (s : string) :
  GetLocalIp (Some addrs) = s -> s <> "" ->
  exists p4 ip mask, first_ipv4 addrs = Some p4 /\ s = dotted p4 /\
    In (IPNetAddr ip mask) addrs /\ To4 ip = Some p4 /\
    List.length p4 = 4 /\ nth 0 p4 0%Z <> 127%Z.
Proof.
  rewrite GetLocalIp_loop. intros Hs Hne.
  destruct (first_ipv4 addrs) as [p4|] eqn:E; [|by subst].
  exists p4. clear Hne. induction addrs as [|[ip mask|] rest IH]; simpl in E; [done| |].
  - destruct (IsLoopback ip) eqn:Hl; simpl in E.
    + destruct (IH E) as (ip' & mask' & ? & ? & ? & ? & ? & ?).
      exists ip', mask'. simpl. repeat split; auto.
    + destruct (To4 ip) as [q|] eqn:Hq.
      * injection E as <-. exists ip, mask. simpl.
        rewrite (IsLoopback_To4 _ _ Hq) in Hl. apply Z.eqb_neq in Hl.
        repeat split; eauto using To4_length.
      * destruct (IH E) as (ip' & mask' & ? & ? & ? & ? & ? & ?).
        exists ip', mask'. simpl. repeat split; auto.
  - destruct (IH E) as (ip' & mask' & ? & ? & ? & ? & ? & ?).
    exists ip', mask'. simpl. repeat split; auto.
Qed.

(** ** Witnesses *)

Definition req_fly : Request :=
  mkRequest "GET" "/ip" (makeHeaders [("Fly-Client-IP", "9.9.9.9")]) "10.0.0.1:4242" "".
Definition req_xff : Request :=
  mkRequest "GET" "/ip" (makeHeaders [("X-Forwarded-For", " 1.1.1.1 , 2.2.2.2")]) "10.0.0.1:4242" "".
Definition req_plain : Request := mkRequest "GET" "/ip" ∅ "10.0.0.1:4242" "".
Definition req_comma : Request :=
  mkRequest "GET" "/ip" (makeHeaders [("X-Forwarded-For", ",2.2.2.2")]) "10.0.0.1:4242" "".

Lemma GetClientIP_platform_first_witness :
  GetClientIP req_fly = Some "9.9.9.9".
Proof. apply GetClientIP_platform_first; [reflexivity | discriminate]. Defined.

Lemma GetClientIP_forwarded_shape_witness :
  exists ip, GetClientIP req_xff = Some ip /\ ~ In ","%char (to_bytes ip) /\
    leading_space (to_bytes ip) = None /\ trailing_space_rev (rev (to_bytes ip)) = None /\
    (forall c, In c (to_bytes ip) -> In c (to_bytes " 1.1.1.1 , 2.2.2.2")).
Proof. apply GetClientIP_forwarded_shape; [reflexivity | reflexivity | discriminate]. Defined.

Lemma GetClientIP_remote_fallback_witness : GetClientIP req_plain = Some "10.0.0.1:4242".
Proof. apply (GetClientIP_remote_fallback req_plain); reflexivity. Defined.

Lemma GetClientIP_empty_first_entry_witness :
  req_RemoteAddr req_comma <> "" /\ GetClientIP req_comma = Some "".
Proof.
  split; [discriminate|]. apply (GetClientIP_empty_first_entry req_comma "2.2.2.2"); reflexivity.
Defined.

Lemma GetClientIP_header_case_witness :
  GetClientIP (mkRequest "GET" "/ip" (Header_Set ∅ "fly-client-ip" "9.9.9.9") "0.0.0.0" "")
  = Some "9.9.9.9".
Proof. apply GetClientIP_header_case. discriminate. Defined.

Definition sample_addrs : list Addr :=
  [ IPNetAddr [127; 0; 0; 1]%Z [255; 0; 0; 0]%Z;
    IPNetAddr IPv6loopback IPv6loopback;
    OtherAddr;
    IPNetAddr [192; 168; 1; 20]%Z [255; 255; 255; 0]%Z;
    IPNetAddr [10; 0; 0; 7]%Z [255; 0; 0; 0]%Z ].

Lemma GetLocalIp_first_ipv4_witness :
  GetLocalIp (Some sample_addrs) = "192.168.1.20" /\
  exists p4 ip mask, first_ipv4 sample_addrs = Some p4 /\ "192.168.1.20" = dotted p4 /\
    In (IPNetAddr ip mask) sample_addrs /\ To4 ip = Some p4 /\
    List.length p4 = 4 /\ nth 0 p4 0%Z <> 127%Z.
Proof.
  split; [vm_compute; reflexivity|].
  apply GetLocalIp_first_ipv4; [vm_compute; reflexivity | discriminate].
Defined.

End ClientIP.
