(* ===== verification/Config.v ===== *)
(** * Config: the [HTTPBin] configuration of [src/app/app.go]

    [HTTPBin] is the process-wide configuration every handler reads; it is
    built once by [New] from the defaults and a list of functional options
    ([OptionFunc], a closure that updates the record), applied in order.
    The module [Config] holds the record, the defaults, the five [With*]
    options and [New], and the theorem that [New] yields, field by field,
    the value set by the last option that touches the field. *)

From S2P Require Import Prelude GoLib.

Module Config.

Local Open Scope Z_scope.

(** [time.Duration] counts nanoseconds in an [int64]. *)
Definition Nanosecond : Z := 1.
Definition Second : Z := 1000000000.

(** Default configuration values (app.go lines 10-15). *)
Definition DefaultMaxBodySize : Z := 1024 * 1024.
Definition DefaultMaxDuration : Z := 10 * Second.
Definition DefaultHostname : string := "httpbin".

(** [DefaultParams] (app.go lines 115-120). *)
Record DefaultParams := mkDefaultParams {
  DripDuration : Z;
  DripDelay : Z;
  DripNumBytes : Z
}.

(** [DefaultDefaultParams] (app.go lines 122-128). *)
Definition DefaultDefaultParams : DefaultParams :=
  {| DripDuration := 2 * Second; DripDelay := 2 * Second; DripNumBytes := 10 |}.

(** The request observers the program can install: main.go installs
    [StdLogObserver(logger)]; other callers may pass any callback, named
    here by a label. *)
Inductive Observer :=
| StdLogObserver
| CustomObserver (label : string).

(** [HTTPBin] (app.go lines 96-113); a nil [Observer] is [None]. *)
Record HTTPBin := mkHTTPBin {
  MaxBodySize : Z;
  MaxDuration : Z;
  Observer_ : option Observer;
  DefaultParams_ : DefaultParams;
  hostname : string
}.

(** [OptionFunc] (app.go line 248): a closure that updates the record. *)
Definition OptionFunc := HTTPBin -> HTTPBin.

(** The five options (app.go lines 250-283). *)
Definition WithDefaultParams (defaultParams : DefaultParams) : OptionFunc :=
  fun h => {| MaxBodySize := MaxBodySize h; MaxDuration := MaxDuration h;
              Observer_ := Observer_ h; DefaultParams_ := defaultParams;
              hostname := hostname h |}.

Definition WithMaxBodySize (m : Z) : OptionFunc :=
  fun h => {| MaxBodySize := m; MaxDuration := MaxDuration h;
              Observer_ := Observer_ h; DefaultParams_ := DefaultParams_ h;
              hostname := hostname h |}.

Definition WithMaxDuration (d : Z) : OptionFunc :=
  fun h => {| MaxBodySize := MaxBodySize h; MaxDuration := d;
              Observer_ := Observer_ h; DefaultParams_ := DefaultParams_ h;
              hostname := hostname h |}.

Definition WithHostname (s : string) : OptionFunc :=
  fun h => {| MaxBodySize := MaxBodySize h; MaxDuration := MaxDuration h;
              Observer_ := Observer_ h; DefaultParams_ := DefaultParams_ h;
              hostname := s |}.

(** [WithObserver(o)] stores [o]; in Go a nil function value stays nil. *)
Definition WithObserver (o : option Observer) : OptionFunc :=
  fun h => {| MaxBodySize := MaxBodySize h; MaxDuration := MaxDuration h;
              Observer_ := o; DefaultParams_ := DefaultParams_ h;
              hostname := hostname h |}.

(** The record [New] starts from (app.go lines 234-239). *)
Definition new_base : HTTPBin :=
  {| MaxBodySize := DefaultMaxBodySize; MaxDuration := DefaultMaxDuration;
     Observer_ := None; DefaultParams_ := DefaultDefaultParams;
     hostname := DefaultHostname |}.

(** [New(opts...)] (app.go lines 232-244): [for _, opt := range opts
    { opt(h) }]. *)
Definition New (opts : list OptionFunc) : HTTPBin :=
  fold_left (fun h opt => opt h) opts new_base.

(** ** The options as data *)

(** The option values built by the [With*] constructors, as data, so that
    a statement can say which field each one sets. *)
Inductive OptionSpec :=
| OptDefaultParams (p : DefaultParams)
| OptMaxBodySize (m : Z)
| OptMaxDuration (d : Z)
| OptHostname (s : string)
| OptObserver (o : option Observer).

Definition option_of_spec (o : OptionSpec) : OptionFunc :=
  match o with
  | OptDefaultParams p => WithDefaultParams p
  | OptMaxBodySize m => WithMaxBodySize m
  | OptMaxDuration d => WithMaxDuration d
  | OptHostname s => WithHostname s
  | OptObserver ob => WithObserver ob
  end.

(** The value the last option of a list sets for a field, if any. *)
Definition last_set {A} (sel : OptionSpec -> option A) (specs : list OptionSpec) (dflt : A) : A :=
  fold_left (fun acc o => match sel o with Some v => v | None => acc end) specs dflt.

Definition sel_MaxBodySize (o : OptionSpec) : option Z :=
  match o with OptMaxBodySize m => Some m | _ => None end.
Definition sel_MaxDuration (o : OptionSpec) : option Z :=
  match o with OptMaxDuration d => Some d | _ => None end.
Definition sel_Observer (o : OptionSpec) : option (option Observer) :=
  match o with OptObserver ob => Some ob | _ => None end.
Definition sel_DefaultParams (o : OptionSpec) : option DefaultParams :=
  match o with OptDefaultParams p => Some p | _ => None end.
Definition sel_hostname (o : OptionSpec) : option string :=
  match o with OptHostname s => Some s | _ => None end.

(** Field by field, the record a list of options should produce. *)
Definition new_spec (specs : list OptionSpec) : HTTPBin :=
  {| MaxBodySize := last_set sel_MaxBodySize specs DefaultMaxBodySize;
     MaxDuration := last_set sel_MaxDuration specs DefaultMaxDuration;
     Observer_ := last_set sel_Observer specs None;
     DefaultParams_ := last_set sel_DefaultParams specs DefaultDefaultParams;
     hostname := last_set sel_hostname specs DefaultHostname |}.

(** ** Theorems *)

Lemma fold_options (specs : list OptionSpec) (h : HTTPBin) :
  fold_left (fun h opt => opt h) (map option_of_spec specs) h =
  {| MaxBodySize := last_set sel_MaxBodySize specs (MaxBodySize h);
     MaxDuration := last_set sel_MaxDuration specs (MaxDuration h);
     Observer_ := last_set sel_Observer specs (Observer_ h);
     DefaultParams_ := last_set sel_DefaultParams specs (DefaultParams_ h);
     hostname := last_set sel_hostname specs (hostname h) |}.
Proof.
  revert h. induction specs as [|o specs IH]; intros h; simpl; [by destruct h|].
  rewrite IH. by destruct o.
Qed.

(** C21: [New] applied to any list of [With*] options yields, for every
    field, the value of the last option that sets it, and the default of
    app.go for a field no option sets. *)
Theorem New_last_option_wins (specs : list OptionSpec) :
  New (map option_of_spec specs) = new_spec specs.
Proof. unfold New. by rewrite fold_options. Qed.

End Config.
