(* ===== verification/Router.v ===== *)
(** * Router: the route table of [Handler] in [src/app/app.go]

    [Handler] registers 63 patterns on a [net/http.ServeMux] (app.go lines
    132-217) and then wraps the mux in middleware (lines 219-229, see the
    planned [Middleware] file).  This file models the registrations as the
    list [routes] in source order, and Go's [ServeMux] as the code of the
    Go 1.21 standard library has it: [Handle] (with its panics on an empty
    or duplicate pattern), the exact-match map [m], the list [es] of
    subtree patterns kept longest first, [match], [cleanPath] with
    [path.Clean], the trailing-slash redirect and [ServeMux.Handler]. *)

From S2P Require Import Prelude GoLib.
From Stdlib Require Import Sorting.Sorted.

Module Router.

(** The handlers [Handler] registers: the methods of [*HTTPBin] by their
    Go names ([IP_] for [h.IP]), [notImplementedHandler] and
    [http.NotFound]. *)
Inductive Endpoint :=
| Index | FormsPost | UTF8 | RequestWithBody | Get
| IP_ | UserAgent | Headers | ResponseHeaders | Hostname
| Status | Unstable
| Redirect | RelativeRedirect | AbsoluteRedirect | RedirectTo
| Cookies | SetCookies | DeleteCookies
| BasicAuth | HiddenBasicAuth | DigestAuth | Bearer
| Deflate | Gzip
| Stream | Delay | Drip
| Range | Bytes | StreamBytes
| HTML | Robots | Deny
| Cache | CacheControl | ETag
| Links
| ImageAccept | Image | XML | JSON
| UUID | Base64
| notImplementedHandler
| NotFound.

#[export] Instance Endpoint_eq_dec : EqDecision Endpoint.
Proof. solve_decision. Defined.

(** What a pattern is registered with: a handler, or [methods(h, ms...)],
    the wrapper that admits only the listed methods. *)
Inductive Target :=
| Plain (e : Endpoint)
| Methods (e : Endpoint) (allowed : list string).

(** The registrations of [Handler], in source order (app.go 134-217). *)
Definition routes : list (string * Target) :=
  [ ("/", Methods Index ["GET"]);
    ("/forms/post", Methods FormsPost ["GET"]);
    ("/encoding/utf8", Methods UTF8 ["GET"]);
    ("/delete", Methods RequestWithBody ["DELETE"]);
    ("/get", Methods Get ["GET"]);
    ("/head", Methods Get ["HEAD"]);
    ("/patch", Methods RequestWithBody ["PATCH"]);
    ("/post", Methods RequestWithBody ["POST"]);
    ("/put", Methods RequestWithBody ["PUT"]);
    ("/ip", Plain IP_);
    ("/user-agent", Plain UserAgent);
    ("/headers", Plain Headers);
    ("/response-headers", Plain ResponseHeaders);
    ("/hostname", Plain Hostname);
    ("/status/", Plain Status);
    ("/unstable", Plain Unstable);
    ("/redirect/", Plain Redirect);
    ("/relative-redirect/", Plain RelativeRedirect);
    ("/absolute-redirect/", Plain AbsoluteRedirect);
    ("/redirect-to", Plain RedirectTo);
    ("/anything/", Plain RequestWithBody);
    ("/anything", Plain RequestWithBody);
    ("/cookies", Plain Cookies);
    ("/cookies/set", Plain SetCookies);
    ("/cookies/delete", Plain DeleteCookies);
    ("/basic-auth/", Plain BasicAuth);
    ("/hidden-basic-auth/", Plain HiddenBasicAuth);
    ("/digest-auth/", Plain DigestAuth);
    ("/bearer", Plain Bearer);
    ("/deflate", Plain Deflate);
    ("/gzip", Plain Gzip);
    ("/stream/", Plain Stream);
    ("/delay/", Plain Delay);
    ("/drip", Plain Drip);
    ("/range/", Plain Range);
    ("/bytes/", Plain Bytes);
    ("/stream-bytes/", Plain StreamBytes);
    ("/html", Plain HTML);
    ("/robots.txt", Plain Robots);
    ("/deny", Plain Deny);
    ("/cache", Plain Cache);
    ("/cache/", Plain CacheControl);
    ("/etag/", Plain ETag);
    ("/links/", Plain Links);
    ("/image", Plain ImageAccept);
    ("/image/", Plain Image);
    ("/xml", Plain XML);
    ("/json", Plain JSON);
    ("/uuid", Plain UUID);
    ("/base64/", Plain Base64);
    ("/brotli", Plain notImplementedHandler);
    ("/absolute-redirect", Plain NotFound);
    ("/basic-auth", Plain NotFound);
    ("/delay", Plain NotFound);
    ("/digest-auth", Plain NotFound);
    ("/hidden-basic-auth", Plain NotFound);
    ("/redirect", Plain NotFound);
    ("/relative-redirect", Plain NotFound);
    ("/status", Plain NotFound);
    ("/stream", Plain NotFound);
    ("/bytes", Plain NotFound);
    ("/stream-bytes", Plain NotFound);
    ("/links", Plain NotFound) ].

(** ** [net/http.ServeMux] *)

(** The mux state: the exact-match map [m] and the subtree patterns [es]
    (those ending in '/') sorted from longest to shortest. *)
Record ServeMux := mkServeMux {
  mux_m : gmap string Target;
  mux_es : list (string * Target)
}.

Definition empty_mux : ServeMux := mkServeMux ∅ [].

Definition ends_with_slash (p : string) : bool :=
  match String.get (String.length p - 1) p with
  | Some c => Ascii.eqb c "/"%char
  | None => false
  end.

(** [appendSorted]: insert before the first strictly shorter pattern
    ([sort.Search] finds that index because [es] is sorted). *)
Fixpoint appendSorted (es : list (string * Target)) (e : string * Target) : list (string * Target) :=
  match es with
  | [] => [e]
  | x :: xs =>
      if String.length x.1 <? String.length e.1 then e :: x :: xs
      else x :: appendSorted xs e
  end.

(** [ServeMux.Handle]: [None] is the panic on an empty pattern or on a
    second registration of a pattern. *)
Definition Handle (mux : ServeMux) (pattern : string) (h : Target) : option ServeMux :=
  if pattern ==s "" then None
  else match mux_m mux !! pattern with
       | Some _ => None
       | None =>
           Some (mkServeMux (<[pattern := h]> (mux_m mux))
                  (if ends_with_slash pattern then appendSorted (mux_es mux) (pattern, h)
                   else mux_es mux))
       end.

(** The sequence of [engine.HandleFunc] calls; a panic stops the program. *)
Definition register_all (rs : list (string * Target)) (mux : ServeMux) : option ServeMux :=
  fold_left (fun om r => match om with Some mx => Handle mx r.1 r.2 | None => None end)
            rs (Some mux).

(** The mux [Handler] builds ([engine], app.go lines 132-217). *)
Definition engine : option ServeMux := register_all routes empty_mux.

(** [ServeMux.match]: the exact pattern, else the first (longest) subtree
    pattern that is a prefix of the path. *)
Definition mux_match (mux : ServeMux) (path : string) : option (Target * string) :=
  match mux_m mux !! path with
  | Some h => Some (h, path)
  | None =>
      match List.find (fun e => String.prefix e.1 path) (mux_es mux) with
      | Some e => Some (e.2, e.1)
      | None => None
      end
  end.

(** [path.Clean] on a rooted path: drop empty and "." elements, let ".."
    remove the previous element (never above the root). *)
Fixpoint clean_stack (segs : list string) (stack : list string) : list string :=
  match segs with
  | [] => stack
  | seg :: rest =>
      if (seg ==s "") || (seg ==s ".") then clean_stack rest stack
      else if seg ==s ".." then clean_stack rest (tail stack)
      else clean_stack rest (seg :: stack)
  end.

Fixpoint join_slash (l : list string) : string :=
  match l with
  | [] => ""
  | [x] => x
  | x :: xs => x +s "/" +s join_slash xs
  end.

Definition Clean_rooted (p : string) : string :=
  "/" +s join_slash (rev (clean_stack (SplitN p "/"%char (-1)) [])).

(** [cleanPath]: a rooted, cleaned path that keeps a trailing slash. *)
Definition cleanPath (p : string) : string :=
  if p ==s "" then "/"
  else
    let p := if String.prefix "/" p then p else "/" +s p in
    let np := Clean_rooted p in
    if ends_with_slash p && negb (np ==s "/") then np +s "/" else np.

(** [shouldRedirectRLocked] (no host patterns are registered). *)
Definition shouldRedirect (mux : ServeMux) (path : string) : bool :=
  match mux_m mux !! path with
  | Some _ => false
  | None =>
      if String.length path =? 0 then false
      else match mux_m mux !! (path +s "/") with
           | Some _ => negb (ends_with_slash path)
           | None => false
           end
  end.

(** What [ServeMux.Handler] hands the request to. *)
Inductive Dispatch :=
| Serve (h : Target) (pattern : string)
| Redirect301 (url : string)
| MuxNotFound.

(** [ServeMux.handler] without host patterns. *)
Definition mux_handler (mux : ServeMux) (path : string) : Dispatch :=
  match mux_match mux path with
  | Some (h, pat) => Serve h pat
  | None => MuxNotFound
  end.

(** [ServeMux.Handler]: CONNECT keeps its path; every other method has
    its path cleaned, is redirected to [path + "/"] when only the subtree
    is registered, and to the cleaned path when cleaning changed it. *)
Definition ServeMux_Handler (mux : ServeMux) (req : Request) : Dispatch :=
  if req_Method req ==s "CONNECT" then
    if shouldRedirect mux (req_Path req) then Redirect301 (req_Path req +s "/")
    else mux_handler mux (req_Path req)
  else
    let path := cleanPath (req_Path req) in
    if shouldRedirect mux path then Redirect301 (path +s "/")
    else if negb (path ==s req_Path req) then Redirect301 path
    else mux_handler mux (req_Path req).

(** ** The routing specification *)

(** The pattern that serves [path] among registrations [rs]: the pattern
    equal to [path], or else, when [path] is not registered, a subtree
    pattern that is a prefix of [path] and at least as long as every other
    such pattern. *)
Definition most_specific (rs : list (string * Target)) (path : string) (h : Target) (p : string) : Prop :=
  In (p, h) rs /\
  (p = path \/
   ((forall h', ~ In (path, h') rs) /\ ends_with_slash p = true /\
    String.prefix p path = true /\
    forall q h', In (q, h') rs -> ends_with_slash q = true -> String.prefix q path = true ->
      String.length q <= String.length p)).

(** No registration serves [path]. *)
Definition no_match (rs : list (string * Target)) (path : string) : Prop :=
  forall q h, In (q, h) rs -> q <> path /\ ~ (ends_with_slash q = true /\ String.prefix q path = true).

(** ** The mux invariant *)

(** What the mux holds after the registrations [done]: [m] is exactly the
    registered map, [es] exactly the subtree patterns, longest first. *)
Record mux_inv (done : list (string * Target)) (mux : ServeMux) : Prop := {
  inv_m : forall q h, mux_m mux !! q = Some h <-> In (q, h) done;
  inv_es : forall e, In e (mux_es mux) <-> In e done /\ ends_with_slash e.1 = true;
  inv_sorted : StronglySorted (fun a b => String.length b.1 <= String.length a.1) (mux_es mux)
}.

Lemma appendSorted_In es x e : In e (appendSorted es x) <-> In e es \/ x = e.
Proof.
  induction es as [|a es IH]; simpl; [tauto|].
  destruct (String.length a.1 <? String.length x.1); simpl; rewrite ?IH; tauto.
Qed.

Lemma appendSorted_sorted es x :
  StronglySorted (fun a b => String.length b.1 <= String.length a.1) es ->
  StronglySorted (fun a b => String.length b.1 <= String.length a.1) (appendSorted es x).
Proof.
  induction es as [|a es IH]; simpl; intros Hs.
  - repeat constructor.
  - inversion Hs as [|? ? Hs' Hf]; subst.
    destruct (Nat.ltb_spec (String.length a.1) (String.length x.1)) as [Hlt|Hge].
    + constructor; [exact Hs|]. constructor; [lia|].
      eapply Forall_impl; [exact Hf|]. simpl. lia.
    + constructor; [by apply IH|]. apply List.Forall_forall. intros y Hy.
      apply appendSorted_In in Hy as [Hy|<-]; [|lia].
      by apply (proj1 (List.Forall_forall _ _) Hf).
Qed.

Lemma Handle_inv done mux p h mux' :
  mux_inv done mux -> Handle mux p h = Some mux' -> mux_inv (done ++ [(p, h)]) mux'.
Proof.
  intros [Hm Hes Hsort]. unfold Handle.
  destruct (p ==s "") eqn:Hp; [done|].
  destruct (mux_m mux !! p) eqn:Hmp; [done|]. intros [= <-].
  split; simpl.
  - intros q h'. rewrite in_app_iff. simpl. destruct (String.eqb_spec p q) as [<-|Hne].
    + rewrite lookup_insert_eq. split; [intros [= <-]; tauto|].
      intros [Hin|[[= <-]|[]]]; [|done]. apply Hm in Hin. congruence.
    + rewrite lookup_insert_ne by done. rewrite Hm. split; [tauto|].
      intros [Hin|[[= -> _]|[]]]; [done | congruence].
  - intros e. rewrite in_app_iff. simpl.
    destruct (ends_with_slash p) eqn:Hs.
    + rewrite appendSorted_In, Hes. split; [intros [[? ?]| <-]; auto|].
      intros [[?|[<-|[]]] ?]; auto.
    + rewrite Hes. split; [tauto|]. intros [[?|[<-|[]]] ?]; [tauto|]. simpl in *. congruence.
  - destruct (ends_with_slash p); [by apply appendSorted_sorted | done].
Qed.

Lemma register_all_inv rs done mux mux' :
  mux_inv done mux -> register_all rs mux = Some mux' -> mux_inv (done ++ rs) mux'.
Proof.
  unfold register_all. revert done mux. induction rs as [|[p h] rs IH]; intros done mux Hinv; simpl.
  - intros [= <-]. by rewrite app_nil_r.
  - destruct (Handle mux p h) as [mx|] eqn:E.
    + intros Hr. replace (done ++ (p, h) :: rs) with ((done ++ [(p, h)]) ++ rs)
        by (rewrite <- app_assoc; reflexivity).
      eapply IH; [|exact Hr].
      by eapply Handle_inv.
    + intros Hr. exfalso. clear -Hr. induction rs; simpl in *; done.
Qed.

Lemma empty_mux_inv : mux_inv [] empty_mux.
Proof. split; simpl; [intros; rewrite lookup_empty; split; [done|tauto] | tauto | constructor]. Qed.

(** In a list sorted longest first, the first match is a longest match. *)
Lemma find_sorted_longest (f : string * Target -> bool) l x :
  StronglySorted (fun a b => String.length b.1 <= String.length a.1) l ->
  List.find f l = Some x -> forall y, In y l -> f y = true -> String.length y.1 <= String.length x.1.
Proof.
  induction l as [|a l IH]; simpl; [done|]. intros Hs Hf y Hy Hfy.
  inversion Hs as [|? ? Hs' Hall]; subst.
  destruct (f a) eqn:Ha.
  - injection Hf as <-. destruct Hy as [<-|Hy]; [lia|].
    by apply (proj1 (List.Forall_forall _ _) Hall).
  - destruct Hy as [<-|Hy]; [congruence|]. by apply IH.
Qed.

(** The endpoint a registration reaches. *)
Definition target_endpoint (t : Target) : Endpoint :=
  match t with Plain e => e | Methods e _ => e end.

(** The mux of [Handler] once every registration succeeded. *)
Definition engine_mux : ServeMux :=
  match engine with Some mux => mux | None => empty_mux end.

Lemma engine_eq : engine = Some engine_mux.
Proof. vm_compute. reflexivity. Qed.

Lemma engine_inv : mux_inv routes engine_mux.
Proof. apply (register_all_inv routes [] empty_mux); [exact empty_mux_inv | exact engine_eq]. Qed.

Definition drop_last (s : string) : string := String.substring 0 (String.length s - 1) s.

Lemma substring_app_l (s t : string) : String.substring 0 (String.length s) (s +s t) = s.
Proof. induction s as [|c s IH]; simpl; [by destruct t | by rewrite IH]. Qed.

Lemma drop_last_slash (s : string) : drop_last (s +s "/") = s.
Proof.
  unfold drop_last. rewrite str_length_app. simpl.
  replace (String.length s + 1 - 1) with (String.length s) by lia. apply substring_app_l.
Qed.

Lemma cleanPath_rooted (p : string) : String.prefix "/" (cleanPath p) = true.
Proof.
  unfold cleanPath, Clean_rooted. destruct (p ==s ""); [done|].
  destruct (_ && _); simpl; match goal with |- prefix "" ?x = true => by destruct x end.
Qed.

(** The bare paths whose subtree is registered but which are not. *)
Definition redirected_bare : list string := ["/range"; "/etag"; "/base64"].

Lemma shouldRedirect_engine (path : string) :
  shouldRedirect engine_mux path = true <-> path ∈ redirected_bare.
Proof.
  split.
  - intros Hr. assert (Hc : path ∈ map (fun r => drop_last r.1) routes).
    { unfold shouldRedirect in Hr.
      destruct (mux_m engine_mux !! path); [done|].
      destruct (String.length path =? 0); [done|].
      destruct (mux_m engine_mux !! (path +s "/")) as [t|] eqn:E; [|done].
      apply (inv_m _ _ engine_inv) in E. apply list_elem_of_In, in_map_iff.
      exists (path +s "/", t). split; [apply drop_last_slash | exact E]. }
    assert (Hall : forallb (fun c => negb (shouldRedirect engine_mux c) ||
                                     bool_decide (c ∈ redirected_bare))
                           (map (fun r => drop_last r.1) routes) = true)
      by (vm_compute; reflexivity).
    apply list_elem_of_In in Hc. rewrite forallb_forall in Hall.
    specialize (Hall path Hc). rewrite Hr in Hall. simpl in Hall.
    by apply bool_decide_eq_true_1 in Hall.
  - intros Hin. repeat (apply elem_of_cons in Hin as [->|Hin]; [vm_compute; reflexivity|]).
    by apply elem_of_nil in Hin.
Qed.

(** ** Theorems *)

(** C1: [Handler]'s 63 registrations run without the panic [ServeMux]
    raises on an empty or repeated pattern. *)
Theorem Handler_registers_without_panic : is_Some engine.
Proof. rewrite engine_eq. by eexists. Qed.

(** for any list of registrations that [ServeMux] accepts, [match]
    returns the most specific pattern for the path (the exact pattern, else
    the longest subtree pattern that prefixes it), and returns nothing only
    when no registration serves the path. *)
Theorem mux_match_most_specific (rs : list (string * Target)) (mux : ServeMux) (path : string) :
  register_all rs empty_mux = Some mux ->
  match mux_match mux path with
  | Some (h, p) => most_specific rs path h p
  | None => no_match rs path
  end.
Proof.
  intros Hr. destruct (register_all_inv rs [] empty_mux mux empty_mux_inv Hr) as [Hm Hes Hs].
  simpl in *. unfold mux_match.
  destruct (mux_m mux !! path) as [h|] eqn:E; [split; [by apply Hm | by left]|].
  destruct (List.find _ (mux_es mux)) as [[q h]|] eqn:F.
  - pose proof (find_some _ _ F) as [Fin Fpre]. apply Hes in Fin as [Fin Fsl].
    split; [exact Fin|right]. split; [intros h' Hin; apply Hm in Hin; congruence|].
    do 2 (split; [done|]). intros q' h' Hin Hsl Hpre.
    apply (find_sorted_longest _ _ (q, h) Hs F (q', h')); [by apply Hes | done].
  - intros q h Hin. split.
    + intros ->. apply Hm in Hin. congruence.
    + intros [Hsl Hpre]. assert (Hf : String.prefix q path = false).
      { apply (find_none _ _ F (q, h)). by apply Hes. }
      congruence.
Qed.

(** C2: among the paths the mux does not rewrite, exactly [/range],
    [/etag] and [/base64] are answered with a redirect to the path with a
    trailing slash; every other bare form of an argument route reaches a
    handler (the [http.NotFound] guards of app.go lines 206-217). *)
Theorem trailing_slash_redirect_iff (req : Request) :
  req_Method req <> "CONNECT" -> cleanPath (req_Path req) = req_Path req ->
  (ServeMux_Handler engine_mux req = Redirect301 (req_Path req +s "/") <->
   req_Path req ∈ redirected_bare).
Proof.
  intros Hm Hc. unfold ServeMux_Handler. rewrite str_eqb_neq by done. rewrite Hc, str_eqb_refl.
  rewrite <- shouldRedirect_engine. simpl.
  destruct (shouldRedirect engine_mux (req_Path req)); [done|].
  unfold mux_handler. by destruct (mux_match _ _) as [[? ?]|].
Qed.

(** C3: every request other than CONNECT is served by a registered
    handler or redirected; the mux's own 404 is never used, since the
    pattern "/" catches every rooted path. *)
Theorem Handler_never_mux_not_found (req : Request) :
  req_Method req <> "CONNECT" -> ServeMux_Handler engine_mux req <> MuxNotFound.
Proof.
  intros Hm. unfold ServeMux_Handler. rewrite str_eqb_neq by done. simpl.
  destruct (shouldRedirect _ _); [done|].
  destruct (String.eqb_spec (cleanPath (req_Path req)) (req_Path req)) as [Hc|]; [|done].
  simpl. unfold mux_handler, mux_match.
  destruct (mux_m engine_mux !! req_Path req); [done|].
  destruct (List.find _ _) eqn:F; [done|].
  assert (Hf : String.prefix "/" (req_Path req) = false).
  { apply (find_none _ _ F ("/", Methods Index ["GET"])).
    apply (inv_es _ _ engine_inv). split; [by left | done]. }
  rewrite <- Hc, cleanPath_rooted in Hf. done.
Qed.

(** The documented paths of the specification (section 6) with the
    handler each is meant to reach. *)
Definition documented : list (string * Endpoint) :=
  [ ("/", Index); ("/get", Get); ("/head", Get); ("/post", RequestWithBody);
    ("/put", RequestWithBody); ("/patch", RequestWithBody); ("/delete", RequestWithBody);
    ("/anything", RequestWithBody); ("/anything/a/b", RequestWithBody);
    ("/ip", IP_); ("/user-agent", UserAgent); ("/headers", Headers);
    ("/response-headers", ResponseHeaders); ("/hostname", Hostname);
    ("/status/418", Status); ("/unstable", Unstable);
    ("/redirect/3", Redirect); ("/relative-redirect/3", RelativeRedirect);
    ("/absolute-redirect/3", AbsoluteRedirect); ("/redirect-to", RedirectTo);
    ("/cookies", Cookies); ("/cookies/set", SetCookies); ("/cookies/delete", DeleteCookies);
    ("/basic-auth/alice/secret", BasicAuth); ("/hidden-basic-auth/alice/secret", HiddenBasicAuth);
    ("/digest-auth/auth/alice/secret", DigestAuth); ("/bearer", Bearer);
    ("/gzip", Gzip); ("/deflate", Deflate);
    ("/stream/5", Stream); ("/delay/3", Delay); ("/drip", Drip);
    ("/range/1024", Range); ("/bytes/16", Bytes); ("/stream-bytes/16", StreamBytes);
    ("/html", HTML); ("/robots.txt", Robots); ("/deny", Deny);
    ("/cache", Cache); ("/cache/60", CacheControl); ("/etag/abc", ETag);
    ("/links/10/2", Links); ("/image", ImageAccept); ("/image/png", Image);
    ("/xml", XML); ("/json", JSON); ("/uuid", UUID); ("/base64/SFRUUEJJTg==", Base64);
    ("/forms/post", FormsPost); ("/encoding/utf8", UTF8); ("/brotli", notImplementedHandler);
    ("/status", NotFound); ("/redirect", NotFound); ("/stream", NotFound);
    ("/bytes", NotFound); ("/links", NotFound); ("/delay", NotFound) ].

Definition dispatches_to (path : string) (e : Endpoint) : bool :=
  match ServeMux_Handler engine_mux (mkRequest "GET" path ∅ "" "") with
  | Serve t _ => bool_decide (target_endpoint t = e)
  | _ => false
  end.

(** each documented path of the route surface reaches its handler
    (and each guarded bare form reaches [http.NotFound]). *)
Theorem documented_routes_dispatch :
  forallb (fun pe => dispatches_to pe.1 pe.2) documented = true.
Proof. vm_compute. reflexivity. Qed.

(** ** Witnesses *)

Lemma mux_match_most_specific_witness :
  register_all routes empty_mux = Some engine_mux /\
  most_specific routes "/status/418" (Plain Status) "/status/".
Proof.
  split; [exact engine_eq|].
  pose proof (mux_match_most_specific routes engine_mux "/status/418" engine_eq) as H.
  exact H.
Defined.

Lemma trailing_slash_redirect_iff_witness :
  ServeMux_Handler engine_mux (mkRequest "GET" "/range" ∅ "" "") = Redirect301 "/range/".
Proof.
  apply (trailing_slash_redirect_iff (mkRequest "GET" "/range" ∅ "" "")); [discriminate | reflexivity |].
  vm_compute. left.
Defined.

Lemma Handler_never_mux_not_found_witness :
  ServeMux_Handler engine_mux (mkRequest "GET" "/no/such/page" ∅ "" "") <> MuxNotFound.
Proof. apply Handler_never_mux_not_found. discriminate. Defined.

End Router.
