(* ===== verification/PathClean.v ===== *)
(** * PathClean: [cleanPath] of Go's [ServeMux] is idempotent

    [ServeMux.Handler] (modelled in [Router]) redirects a request whose
    path is not clean to [cleanPath] of it ([path.Clean], keeping a
    trailing slash).  This file shows that the target of such a redirect
    is clean: [cleanPath (cleanPath p) = cleanPath p], so following the
    redirect never meets the clean-path redirect again.  The proof goes
    through [strings.SplitN] at every ['/'], which inverts [join_slash] on
    segments without a slash, and the stack of [clean_stack], which keeps
    a list of proper segments (not empty, not ".", not "..") as it is. *)

From S2P Require Import Prelude GoLib Router.

Module PathClean.

Import Router.

Definition slash : ascii := "/"%char.

Fixpoint no_slash (w : string) : bool :=
  match w with
  | EmptyString => true
  | String c w' => negb (Ascii.eqb c slash) && no_slash w'
  end.

(** A segment [clean_stack] pushes. *)
Definition proper (w : string) : bool :=
  no_slash w && negb (w ==s "") && negb (w ==s ".") && negb (w ==s "..").

(** ** Splitting at ['/'] *)

Lemma cut_byte_none w : no_slash w = true -> cut_byte slash w = None.
Proof.
  induction w as [|c w IH]; simpl; [done|].
  intros [Hc Hw]%andb_prop. apply negb_true_iff in Hc. by rewrite Hc, IH.
Qed.

Lemma cut_byte_some_no_slash s b a : cut_byte slash s = Some (b, a) -> no_slash b = true.
Proof.
  revert b. induction s as [|c s IH]; intros b; simpl; [done|].
  destruct (Ascii.eqb c slash) eqn:Hc; [by intros [= <- _]|].
  destruct (cut_byte slash s) as [[b' a']|] eqn:E; [|done]. intros [= <- <-].
  simpl. rewrite Hc. by apply IH.
Qed.

Lemma cut_byte_len s b a : cut_byte slash s = Some (b, a) -> (String.length a < String.length s)%nat.
Proof.
  revert b. induction s as [|c s IH]; intros b; simpl; [done|].
  destruct (Ascii.eqb c slash); [intros [= _ <-]; lia|].
  destruct (cut_byte slash s) as [[b' a']|] eqn:E; [|done]. intros [= _ <-].
  specialize (IH b' eq_refl). lia.
Qed.

Lemma cut_byte_join a b : no_slash a = true -> cut_byte slash (a +s "/" +s b) = Some (a, b).
Proof.
  induction a as [|c a IH]; simpl in *; [done|].
  intros [Hc Ha]%andb_prop. apply negb_true_iff in Hc. by rewrite Hc, IH.
Qed.

(** With enough cuts, no piece contains a slash. *)
Lemma split_cuts_no_slash k s :
  (String.length s <= k)%nat -> Forall (fun w => no_slash w = true) (split_cuts slash k s).
Proof.
  revert s. induction k as [|k IH]; intros s Hk; simpl.
  - destruct s; [by repeat constructor | simpl in Hk; lia].
  - destruct (cut_byte slash s) as [[b a]|] eqn:E.
    + constructor; [by eapply cut_byte_some_no_slash|].
      apply IH. apply cut_byte_len in E. lia.
    + constructor; [|done]. clear -E. induction s as [|c s IHs]; simpl in *; [done|].
      destruct (Ascii.eqb c slash); [done|]. destruct (cut_byte slash s) as [[]|]; [done|].
      by rewrite IHs.
Qed.

Lemma join_slash_len l : (List.length l <= S (String.length (join_slash l)))%nat.
Proof.
  induction l as [|x l IH]; [simpl; lia|]. destruct l as [|y l]; [simpl; lia|].
  change (join_slash (x :: y :: l)) with (x +s "/" +s join_slash (y :: l)).
  rewrite !str_length_app. cbn [List.length String.length] in *. lia.
Qed.

(** [SplitN] at every slash inverts [join_slash]. *)
Lemma split_cuts_join k l :
  l <> [] -> Forall (fun w => no_slash w = true) l -> (List.length l <= S k)%nat ->
  split_cuts slash k (join_slash l) = l.
Proof.
  revert k. induction l as [|x [|y l] IH]; intros k Hne Hl Hk; [done| |].
  - inversion Hl; subst. destruct k; simpl; [done|]. by rewrite cut_byte_none.
  - inversion Hl; subst. destruct k as [|k]; simpl in Hk; [lia|].
    change (join_slash (x :: y :: l)) with (x +s "/" +s join_slash (y :: l)).
    cbn [split_cuts]. rewrite cut_byte_join by done. f_equal. apply IH; [done | done | simpl in *; lia].
Qed.

Lemma SplitN_join l :
  l <> [] -> Forall (fun w => no_slash w = true) l -> SplitN (join_slash l) slash (-1) = l.
Proof.
  intros Hne Hl. unfold SplitN. simpl. apply split_cuts_join; try done. apply join_slash_len.
Qed.

(** ** The stack of [clean_stack] *)

Lemma clean_stack_app l1 l2 st : clean_stack (l1 ++ l2) st = clean_stack l2 (clean_stack l1 st).
Proof. revert st. induction l1 as [|w l1 IH]; intros st; simpl; [done|]. by repeat case_match. Qed.

Lemma clean_stack_proper l st : Forall (fun w => proper w = true) l -> clean_stack l st = rev l ++ st.
Proof.
  revert st. induction l as [|w l IH]; intros st Hl; simpl; [done|].
  inversion Hl as [|? ? Hw Hl']; subst. unfold proper in Hw.
  repeat (apply andb_prop in Hw as [Hw ?]). apply negb_true_iff in H, H0, H1.
  rewrite H1, H0, H. simpl. rewrite IH by done. by rewrite <- app_assoc.
Qed.

Lemma clean_stack_result segs st :
  Forall (fun w => no_slash w = true) segs -> Forall (fun w => proper w = true) st ->
  Forall (fun w => proper w = true) (clean_stack segs st).
Proof.
  revert st. induction segs as [|w segs IH]; intros st Hs Hst; simpl; [done|].
  inversion Hs as [|? ? Hw Hs']; subst.
  destruct ((w ==s "") || (w ==s ".")) eqn:E1; [by apply IH|].
  destruct (w ==s "..") eqn:E2.
  - apply IH; [done|]. destruct st; [done|]. by inversion Hst.
  - apply IH; [done|]. constructor; [|done]. apply orb_false_iff in E1 as [E1 E1'].
    unfold proper. by rewrite Hw, E1, E1', E2.
Qed.

(** ** The last byte *)

Lemma no_slash_app a b : no_slash (a +s b) = no_slash a && no_slash b.
Proof. induction a as [|c a IH]; simpl; [done|]. by rewrite IH, andb_assoc. Qed.

Lemma ends_with_slash_snoc s c : ends_with_slash (s +s String c "") = Ascii.eqb c slash.
Proof.
  unfold ends_with_slash. rewrite str_length_app. simpl. rewrite Nat.add_1_r, Nat.sub_succ, Nat.sub_0_r.
  induction s as [|c' s IH]; simpl; [done|]. exact IH.
Qed.

Lemma string_snoc w : w <> EmptyString -> exists w' c, w = w' +s String c "".
Proof.
  induction w as [|c w IH]; [done|]. intros _. destruct w as [|c' w].
  - by exists EmptyString, c.
  - destruct IH as (w' & c'' & ->); [done|]. by exists (String c w'), c''.
Qed.

Lemma join_slash_last l w : exists pre, join_slash (l ++ [w]) = pre +s w.
Proof.
  induction l as [|x l IH]; simpl; [by exists EmptyString|].
  destruct IH as [pre Hpre]. destruct (l ++ [w]) eqn:E; [by destruct l|].
  exists (x +s "/" +s pre). rewrite Hpre. by rewrite !str_app_assoc.
Qed.

(** A joined list of proper segments does not end with a slash. *)
Lemma ends_with_slash_join l :
  l <> [] -> Forall (fun w => proper w = true) l -> ends_with_slash ("/" +s join_slash l) = false.
Proof.
  intros Hne Hl. destruct (exists_last Hne) as (l' & w & ->).
  apply Forall_app in Hl as [_ Hw]. inversion Hw as [|? ? Hpw _]; subst.
  unfold proper in Hpw. apply andb_prop in Hpw as [Hpw _]. apply andb_prop in Hpw as [Hpw _].
  apply andb_prop in Hpw as [Hns Hnempty]. apply negb_true_iff in Hnempty.
  destruct (join_slash_last l' w) as [pre ->].
  destruct (string_snoc w) as (w' & c & ->); [by intros ->|].
  rewrite no_slash_app in Hns. simpl in Hns. apply andb_prop in Hns as [_ Hc].
  rewrite andb_true_r in Hc. apply negb_true_iff in Hc.
  rewrite <- !str_app_assoc. by rewrite ends_with_slash_snoc.
Qed.

(** ** [Clean_rooted] on a clean path *)

Lemma join_slash_snoc_empty l : l <> [] -> join_slash (l ++ [EmptyString]) = join_slash l +s "/".
Proof.
  induction l as [|x l IH]; [done|]. intros _. destruct l as [|y l].
  - reflexivity.
  - change ((x :: y :: l) ++ [EmptyString]) with (x :: ((y :: l) ++ [EmptyString])).
    change (join_slash (x :: (y :: l) ++ [EmptyString]))
      with (x +s "/" +s join_slash ((y :: l) ++ [EmptyString])).
    rewrite IH by done. change (join_slash (x :: y :: l)) with (x +s "/" +s join_slash (y :: l)).
    by rewrite !str_app_assoc.
Qed.

Lemma clean_stack_skip l st : clean_stack (EmptyString :: l) st = clean_stack l st.
Proof. reflexivity. Qed.

Lemma proper_no_slash l : Forall (fun w => proper w = true) l -> Forall (fun w => no_slash w = true) l.
Proof.
  intros Hl. eapply Forall_impl; [exact Hl|]. intros x Hx. unfold proper in Hx.
  by repeat (apply andb_prop in Hx as [Hx _]).
Qed.

(** A rooted path made of proper segments, with or without a trailing
    slash, is cleaned to itself without the slash. *)
Lemma Clean_rooted_clean l :
  Forall (fun w => proper w = true) l ->
  Clean_rooted ("/" +s join_slash l) = "/" +s join_slash l /\
  Clean_rooted ("/" +s join_slash l +s "/") = "/" +s join_slash l.
Proof.
  intros Hl. destruct l as [|w l']; [split; reflexivity|].
  pose proof (proper_no_slash _ Hl) as Hns.
  assert (Hnil : Forall (fun w => no_slash w = true) [EmptyString]) by (repeat constructor).
  unfold Clean_rooted. split.
  - change ("/" +s join_slash (w :: l')) with (join_slash (EmptyString :: w :: l')).
    rewrite SplitN_join by (try done; by constructor).
    rewrite clean_stack_skip, (clean_stack_proper _ _ Hl), app_nil_r, rev_involutive. done.
  - rewrite <- join_slash_snoc_empty by done.
    change ((w :: l') ++ [EmptyString]) with (w :: (l' ++ [EmptyString])).
    change ("/" +s join_slash (w :: l' ++ [EmptyString]))
      with (join_slash (EmptyString :: w :: l' ++ [EmptyString])).
    rewrite SplitN_join; [|done|].
    2:{ constructor; [done|]. change (w :: l' ++ [EmptyString]) with ((w :: l') ++ [EmptyString]).
        by apply Forall_app. }
    rewrite clean_stack_skip. change (w :: l' ++ [EmptyString]) with ((w :: l') ++ [EmptyString]).
    rewrite clean_stack_app, (clean_stack_proper _ _ Hl), clean_stack_skip. cbn [clean_stack].
    rewrite app_nil_r, rev_involutive. done.
Qed.

(** Every result of [Clean_rooted] is a root followed by proper segments. *)
Lemma Clean_rooted_shape p :
  exists l, Forall (fun w => proper w = true) l /\ Clean_rooted p = "/" +s join_slash l.
Proof.
  exists (rev (clean_stack (SplitN p slash (-1)) [])). split; [|done].
  apply Forall_rev, clean_stack_result; [|done].
  unfold SplitN. simpl. by apply split_cuts_no_slash.
Qed.

Lemma cleanPath_rooted_eq (q : string) :
  cleanPath ("/" +s q) =
    let np := Clean_rooted ("/" +s q) in
    if ends_with_slash ("/" +s q) && negb (np ==s "/") then np +s "/" else np.
Proof. by destruct q. Qed.

(** [cleanPath] is idempotent. *)
Theorem cleanPath_idempotent p : cleanPath (cleanPath p) = cleanPath p.
Proof.
  unfold cleanPath at 2 3. destruct (p ==s "") eqn:He; [reflexivity|].
  set (p' := if String.prefix "/" p then p else "/" +s p).
  destruct (Clean_rooted_shape p') as (l & Hl & ->).
  destruct (Clean_rooted_clean l Hl) as [H1 H2].
  destruct (ends_with_slash p' && negb (("/" +s join_slash l) ==s "/")) eqn:E.
  - apply andb_prop in E as [_ E].
    rewrite str_app_assoc, cleanPath_rooted_eq. cbv zeta. rewrite H2.
    replace (ends_with_slash ("/" +s join_slash l +s "/")) with true
      by (rewrite <- str_app_assoc; symmetry; apply (ends_with_slash_snoc _ "/"%char)).
    by rewrite E, str_app_assoc.
  - rewrite cleanPath_rooted_eq. cbv zeta. rewrite H1.
    destruct l as [|w l']; [reflexivity|].
    by rewrite ends_with_slash_join.
Qed.

(** The request [req] for another path. *)
Definition with_path (p : string) (req : Request) : Request :=
  mkRequest (req_Method req) p (req_Header req) (req_RemoteAddr req) (req_Body req).

(** redirects settle.  When [ServeMux.Handler] of the application's
    mux redirects a request to its cleaned path [q], the request for [q]
    meets no clean-path redirect again: it is dispatched to the route
    table's handler, or, for [/range], [/etag] and [/base64] only, once
    more to [q] with a trailing slash. *)
Theorem clean_request_settles (req : Request) :
  req_Method req <> "CONNECT" ->
  ServeMux_Handler engine_mux (with_path (cleanPath (req_Path req)) req) =
    if bool_decide (cleanPath (req_Path req) ∈ redirected_bare)
    then Redirect301 (cleanPath (req_Path req) +s "/")
    else mux_handler engine_mux (cleanPath (req_Path req)).
Proof.
  intros Hm. unfold ServeMux_Handler. cbn [req_Method req_Path with_path].
  destruct (String.eqb_spec (req_Method req) "CONNECT") as [|_]; [done|].
  rewrite cleanPath_idempotent, str_eqb_refl. simpl negb.
  case_bool_decide as Hb.
  - by apply shouldRedirect_engine in Hb as ->.
  - destruct (shouldRedirect engine_mux _) eqn:Hs; [|done].
    by apply shouldRedirect_engine in Hs.
Qed.

(** ** Witness *)

Definition unclean_req : Request := mkRequest "GET" "/range/../etag" ∅ "1.2.3.4" "".

Lemma clean_request_settles_witness :
  cleanPath (req_Path unclean_req) = "/etag" /\
  ServeMux_Handler engine_mux (with_path (cleanPath (req_Path unclean_req)) unclean_req) =
    if bool_decide (cleanPath (req_Path unclean_req) ∈ redirected_bare)
    then Redirect301 (cleanPath (req_Path unclean_req) +s "/")
    else mux_handler engine_mux (cleanPath (req_Path unclean_req)).
Proof. split; [vm_compute; reflexivity | apply clean_request_settles; discriminate]. Defined.

End PathClean.
