(* ===== verification/Middleware.v ===== *)
(** * Middleware: the handler [Handler] returns (app.go lines 219-229)

    [Handler] wraps the mux in four layers, innermost first:
    [limitRequestSize(h.MaxBodySize, ...)], [preflight], [autohead], and,
    when an observer is configured, [observe].  The bodies of these
    middleware functions and of the endpoint handlers are not in the
    sources: the middleware is written here from the specification
    (section 4.5) and the endpoint handlers are an interface, the class
    [Endpoints], whose instances any implementation of the handlers
    provides ([Endpoints.spec_endpoints] is one).  Every theorem of this
    file holds for every instance; the one about HEAD requests also uses
    the law [EndpointsLaws]. *)

From S2P Require Import Prelude GoLib Config Router.

Module Middleware.

Import Config Router.

Local Open Scope Z_scope.

(** A response as the client sees it. *)
Record Response := mkResponse {
  resp_Status : Z;
  resp_Header : Header;
  resp_Body : string
}.

(** What the observer callback receives (the duration is not modelled:
    the model has no clock). *)
Record Result := mkResult {
  res_Status : Z;
  res_Method : string;
  res_URI : string;
  res_Size : Z
}.

(** ** The interface of the endpoint handlers *)

(** What the route table's handlers provide: a response for each
    endpoint and request. *)
Class Endpoints := { serve_endpoint : Endpoint -> Request -> Response }.

Definition with_method (m : string) (req : Request) : Request :=
  mkRequest m (req_Path req) (req_Header req) (req_RemoteAddr req) (req_Body req).

(** The law the HEAD derivation relies on: a handler answers HEAD as it
    answers GET (the handlers are written for GET and do not look at the
    method; [methods] filters methods before them). *)
Class EndpointsLaws `{Endpoints} := {
  head_as_get : forall e req,
    serve_endpoint e (with_method "HEAD" req) = serve_endpoint e (with_method "GET" req)
}.

(** ** Responses written by [net/http] *)

(** The double quote and newline characters. *)
Definition dq : string := String (ascii_of_nat 34) EmptyString.
Definition nl : string := String (ascii_of_nat 10) EmptyString.

Definition text_headers : Header :=
  <["Content-Type" := ["text/plain; charset=utf-8"]]>
    (<["X-Content-Type-Options" := ["nosniff"]]> ∅).

(** [http.Error(w, msg, code)]. *)
Definition http_Error (msg : string) (code : Z) : Response :=
  mkResponse code text_headers (msg +s nl).

(** [http.NotFound]. *)
Definition http_NotFound : Response := http_Error "404 page not found" 404.

(** [http.Redirect(w, r, url, 301)]: a Location header; for GET and HEAD
    a Content-Type; for GET only, a short HTML body naming the target,
    written with [fmt.Fprintln].  (The targets the mux produces are clean
    absolute paths, which [http.Redirect] leaves as they are.) *)
Definition http_Redirect (req : Request) (url : string) : Response :=
  let hdr := <["Location" := [url]]> ∅ in
  let hdr := if (req_Method req ==s "GET") || (req_Method req ==s "HEAD")
             then <["Content-Type" := ["text/html; charset=utf-8"]]> hdr else hdr in
  if req_Method req ==s "GET" then
    mkResponse 301 hdr ("<a href=" +s dq +s url +s dq +s ">Moved Permanently</a>." +s nl +s nl)
  else mkResponse 301 hdr "".

(** ** Middleware, from the specification *)

(** [methods(h, ms...)]: the listed methods, GET implying HEAD, reach the
    handler; any other method is answered 405. *)
Definition methods (h : Request -> Response) (allowed : list string) (req : Request) : Response :=
  let allowed' := if existsb (String.eqb "GET") allowed then "HEAD" :: allowed else allowed in
  if existsb (String.eqb (req_Method req)) allowed' then h req
  else http_Error "Method Not Allowed" 405.

(** [limitRequestSize(maxSize, h)]: a body longer than [maxSize] is
    rejected with 413 before the handler runs. *)
Definition limitRequestSize (maxSize : Z) (h : Request -> Response) (req : Request) : Response :=
  if Z.of_nat (String.length (req_Body req)) >? maxSize
  then http_Error "Request Entity Too Large" 413
  else h req.

(** The permissive CORS headers of a preflight answer. *)
Definition cors_headers (req : Request) : Header :=
  let origin := Header_Get (req_Header req) "Origin" in
  <["Access-Control-Allow-Origin" := [if origin ==s "" then "*" else origin]]>
    (<["Access-Control-Allow-Methods" := ["GET, POST, HEAD, PUT, DELETE, PATCH, OPTIONS"]]> ∅).

(** [preflight(h)]: an OPTIONS request is answered 200 with an empty body
    and the CORS headers, without reaching [h]. *)
Definition preflight (h : Request -> Response) (req : Request) : Response :=
  if req_Method req ==s "OPTIONS" then mkResponse 200 (cors_headers req) ""
  else h req.

(** [autohead(h)]: a HEAD request runs [h] and drops the body it writes,
    keeping status and headers. *)
Definition autohead (h : Request -> Response) (req : Request) : Response :=
  if req_Method req ==s "HEAD" then
    let r := h req in mkResponse (resp_Status r) (resp_Header r) ""
  else h req.

(** [observe(o, h)]: runs [h], then calls the observer once with the
    outcome. *)
Definition observe (o : Observer) (h : Request -> Response) (req : Request) :
    Response * list (Observer * Result) :=
  let r := h req in
  (r, [(o, mkResult (resp_Status r) (req_Method req) (req_Path req)
                    (Z.of_nat (String.length (resp_Body r))))]).

(** ** The mux as a handler *)

Section Serving.
Context `{Endpoints}.

Definition run_endpoint (e : Endpoint) (req : Request) : Response :=
  match e with
  | NotFound => http_NotFound
  | _ => serve_endpoint e req
  end.

Definition run_target (t : Target) (req : Request) : Response :=
  match t with
  | Plain e => run_endpoint e req
  | Methods e allowed => methods (run_endpoint e) allowed req
  end.

(** [ServeMux.ServeHTTP]: dispatch, then run what was chosen. *)
Definition mux_serve (mux : ServeMux) (req : Request) : Response :=
  match ServeMux_Handler mux req with
  | Serve t _ => run_target t req
  | Redirect301 url => http_Redirect req url
  | MuxNotFound => http_NotFound
  end.

(** The wrapping of app.go lines 219-229 around a mux. *)
Definition wrap (h : HTTPBin) (mux : ServeMux) : Request -> Response * list (Observer * Result) :=
  let handler := mux_serve mux in
  let handler := limitRequestSize (MaxBodySize h) handler in
  let handler := preflight handler in
  let handler := autohead handler in
  match Observer_ h with
  | Some o => observe o handler
  | None => fun req => (handler req, [])
  end.

(** [HTTPBin.Handler] (app.go lines 130-230): registers the routes (a
    panic is [None]) and wraps the mux. *)
Definition Handler (h : HTTPBin) : option (Request -> Response * list (Observer * Result)) :=
  match engine with
  | Some mux => Some (wrap h mux)
  | None => None
  end.

End Serving.

(** ** Lemmas *)

Section Props.
Context `{Endpoints}.

Lemma Handler_eq (cfg : HTTPBin) : Handler cfg = Some (wrap cfg engine_mux).
Proof. unfold Handler. by rewrite engine_eq. Qed.

(** The response the pipeline gives, whatever the observer. *)
Definition pipeline (cfg : HTTPBin) (mux : ServeMux) : Request -> Response :=
  autohead (preflight (limitRequestSize (MaxBodySize cfg) (mux_serve mux))).

(** The pair [wrap] returns: the pipeline's response, and the observer
    call when an observer is configured. *)
Lemma wrap_unfold cfg mux req :
  wrap cfg mux req =
  (pipeline cfg mux req,
   match Observer_ cfg with
   | Some o => [(o, mkResult (resp_Status (pipeline cfg mux req)) (req_Method req) (req_Path req)
                    (Z.of_nat (String.length (resp_Body (pipeline cfg mux req)))))]
   | None => []
   end).
Proof. unfold wrap. by destruct (Observer_ cfg). Qed.

Lemma wrap_fst cfg mux req : fst (wrap cfg mux req) = pipeline cfg mux req.
Proof. by rewrite wrap_unfold. Qed.

Lemma pipeline_options cfg mux req :
  req_Method req = "OPTIONS" -> pipeline cfg mux req = mkResponse 200 (cors_headers req) "".
Proof. intros Hm. unfold pipeline, autohead, preflight. by rewrite Hm. Qed.

Lemma pipeline_oversized cfg mux req :
  req_Method req <> "OPTIONS" -> Z.of_nat (String.length (req_Body req)) > MaxBodySize cfg ->
  pipeline cfg mux req =
  if req_Method req ==s "HEAD" then mkResponse 413 text_headers ""
  else http_Error "Request Entity Too Large" 413.
Proof.
  intros Hm Hb. unfold pipeline, autohead, preflight, limitRequestSize.
  rewrite (str_eqb_neq _ "OPTIONS") by done.
  replace (Z.of_nat (String.length (req_Body req)) >? MaxBodySize cfg) with true by lia.
  by destruct (req_Method req ==s "HEAD").
Qed.

(** The mux looks at the method only for CONNECT. *)
Lemma ServeMux_Handler_method mux req m m' :
  m <> "CONNECT" -> m' <> "CONNECT" ->
  ServeMux_Handler mux (with_method m req) = ServeMux_Handler mux (with_method m' req).
Proof.
  intros Hm Hm'. unfold ServeMux_Handler. cbn [req_Method req_Path with_method].
  by rewrite (str_eqb_neq m), (str_eqb_neq m').
Qed.

(** A target that admits HEAD but not GET: only [/head] has one. *)
Definition head_only (t : Target) : bool :=
  match t with
  | Methods _ al => existsb (String.eqb "HEAD") al && negb (existsb (String.eqb "GET") al)
  | Plain _ => false
  end.

Lemma routes_head_only p t : In (p, t) routes -> head_only t = true -> p = "/head".
Proof.
  intros Hin Hh.
  assert (Hall : forallb (fun r => negb (head_only r.2) || (r.1 ==s "/head")) routes = true)
    by (vm_compute; reflexivity).
  rewrite forallb_forall in Hall. specialize (Hall _ Hin). simpl in Hall.
  rewrite Hh in Hall. by apply str_eqb_true.
Qed.

Lemma mux_match_engine path t pat :
  mux_match engine_mux path = Some (t, pat) ->
  In (pat, t) routes /\ (pat = path \/ ends_with_slash pat = true).
Proof.
  destruct engine_inv as [Hm Hes _]. unfold mux_match.
  destruct (mux_m engine_mux !! path) eqn:E.
  - intros [= <- <-]. split; [by apply Hm | by left].
  - destruct (List.find _ _) as [[q u]|] eqn:F; [|done]. intros [= <- <-].
    apply find_some in F as [F _]. apply Hes in F as [F Fs]. split; [done | by right].
Qed.

Lemma ServeMux_Handler_serve mux req t pat :
  ServeMux_Handler mux req = Serve t pat -> mux_match mux (req_Path req) = Some (t, pat).
Proof.
  unfold ServeMux_Handler, mux_handler.
  repeat (destruct (_ ==s _) || destruct (shouldRedirect _ _)); simpl;
    try discriminate; destruct (mux_match _ _) as [[? ?]|]; congruence.
Qed.

Section HeadLaws.
Context `{!EndpointsLaws}.

Lemma run_endpoint_head e req :
  run_endpoint e (with_method "HEAD" req) = run_endpoint e (with_method "GET" req).
Proof. destruct e; try reflexivity; apply head_as_get. Qed.

Lemma run_target_head t req :
  head_only t = false ->
  run_target t (with_method "HEAD" req) = run_target t (with_method "GET" req).
Proof.
  destruct t as [e|e al]; cbn [run_target head_only]; [intros _; apply run_endpoint_head|].
  unfold methods. cbn [req_Method with_method]. rewrite run_endpoint_head.
  destruct (existsb (String.eqb "GET") al) eqn:G; cbn [existsb]; [by rewrite str_eqb_refl, G|].
  rewrite andb_true_r. intros ->. rewrite G. done.
Qed.

(** For every path but [/head], the mux answers HEAD with the status and
    headers it gives GET. *)
Lemma mux_serve_head req :
  req_Path req <> "/head" ->
  resp_Status (mux_serve engine_mux (with_method "HEAD" req)) =
    resp_Status (mux_serve engine_mux (with_method "GET" req)) /\
  resp_Header (mux_serve engine_mux (with_method "HEAD" req)) =
    resp_Header (mux_serve engine_mux (with_method "GET" req)).
Proof.
  intros Hp. unfold mux_serve.
  rewrite (ServeMux_Handler_method engine_mux req "HEAD" "GET") by done.
  destruct (ServeMux_Handler engine_mux (with_method "GET" req)) as [t pat|url|] eqn:D;
    [|done|done].
  rewrite run_target_head; [done|].
  destruct (head_only t) eqn:Hh; [exfalso|done].
  apply ServeMux_Handler_serve, mux_match_engine in D as [Hin [Heq|Hs]]; simpl in *.
  - apply Hp. rewrite <- Heq. by apply (routes_head_only pat t).
  - rewrite (routes_head_only pat t Hin Hh) in Hs. discriminate.
Qed.

End HeadLaws.

End Props.

(** ** Theorems *)

(** C5: a preflight (OPTIONS) request is answered 200 with an empty body
    before the route table: the answer is the same whatever the endpoint
    handlers do, and, because [preflight] wraps [limitRequestSize], it is
    given even when the body exceeds the configured maximum. *)
Theorem preflight_answers_before_routing (E1 E2 : Endpoints) (cfg : HTTPBin) (req : Request) :
  req_Method req = "OPTIONS" ->
  @wrap E1 cfg engine_mux req = @wrap E2 cfg engine_mux req /\
  resp_Status (fst (@wrap E1 cfg engine_mux req)) = 200 /\
  resp_Body (fst (@wrap E1 cfg engine_mux req)) = "".
Proof.
  intros Hm. rewrite !wrap_unfold, !pipeline_options by done. done.
Qed.

(** C6: a request other than OPTIONS whose body exceeds [MaxBodySize] is
    answered 413 and never reaches an endpoint handler. *)
Theorem oversized_body_rejected (E1 E2 : Endpoints) (cfg : HTTPBin) (req : Request) :
  req_Method req <> "OPTIONS" ->
  Z.of_nat (String.length (req_Body req)) > MaxBodySize cfg ->
  @wrap E1 cfg engine_mux req = @wrap E2 cfg engine_mux req /\
  resp_Status (fst (@wrap E1 cfg engine_mux req)) = 413.
Proof.
  intros Hm Hb. rewrite !wrap_unfold, !pipeline_oversized by done.
  by destruct (req_Method req ==s "HEAD").
Qed.

(** C7: with handlers that answer HEAD as GET, the pipeline answers a
    HEAD request on any path but [/head] with the status and headers of
    the GET answer and an empty body, and the observer records it with
    that status and size 0. *)
Theorem head_derived_from_get `{EndpointsLaws} (cfg : HTTPBin) (req : Request) :
  req_Path req <> "/head" ->
  let g := fst (wrap cfg engine_mux (with_method "GET" req)) in
  fst (wrap cfg engine_mux (with_method "HEAD" req)) = mkResponse (resp_Status g) (resp_Header g) "" /\
  Forall (fun c => res_Status c.2 = resp_Status g /\ res_Size c.2 = 0)
         (snd (wrap cfg engine_mux (with_method "HEAD" req))).
Proof.
  intros Hp g. subst g. rewrite !wrap_unfold. cbn [fst snd].
  assert (Hr : pipeline cfg engine_mux (with_method "HEAD" req) =
          mkResponse (resp_Status (pipeline cfg engine_mux (with_method "GET" req)))
                     (resp_Header (pipeline cfg engine_mux (with_method "GET" req))) "").
  { unfold pipeline, autohead, preflight, limitRequestSize. cbn [req_Method req_Body with_method].
    rewrite str_eqb_refl, (str_eqb_neq "HEAD" "OPTIONS"), (str_eqb_neq "GET" "HEAD"),
      (str_eqb_neq "GET" "OPTIONS") by done.
    destruct (_ >? _); [done|].
    by destruct (mux_serve_head req Hp) as [-> ->]. }
  rewrite Hr. split; [done|]. destruct (Observer_ cfg); repeat constructor.
Qed.

(** C8: the observer is called exactly once per request, with the status
    and body size of the final response, and the response is the one the
    server gives without an observer. *)
Theorem observer_sees_outcome `{Endpoints} (cfg : HTTPBin) (o : Observer) (req : Request) :
  Observer_ cfg = Some o ->
  let r := fst (wrap cfg engine_mux req) in
  snd (wrap cfg engine_mux req) =
    [(o, mkResult (resp_Status r) (req_Method req) (req_Path req)
                  (Z.of_nat (String.length (resp_Body r))))] /\
  r = fst (wrap (WithObserver None cfg) engine_mux req).
Proof.
  intros Ho r. subst r. rewrite !wrap_unfold, Ho. split; [done|].
  by destruct cfg.
Qed.

(** C9: a method the route does not admit is answered 405 before the
    handler runs: [/get] admits only GET and HEAD. *)
Theorem methods_rejects_other (E1 E2 : Endpoints) (cfg : HTTPBin) (req : Request) :
  req_Path req = "/get" ->
  req_Method req ∉ ["GET"; "HEAD"; "OPTIONS"; "CONNECT"] ->
  Z.of_nat (String.length (req_Body req)) <= MaxBodySize cfg ->
  @wrap E1 cfg engine_mux req = @wrap E2 cfg engine_mux req /\
  resp_Status (fst (@wrap E1 cfg engine_mux req)) = 405.
Proof.
  intros Hp Hm Hb.
  assert (Hne : forall m, m ∈ ["GET"; "HEAD"; "OPTIONS"; "CONNECT"] -> req_Method req <> m)
    by (intros m Hin Heq; subst m; done).
  assert (Hpipe : forall E : Endpoints, @pipeline E cfg engine_mux req =
            http_Error "Method Not Allowed" 405).
  { intros E. unfold pipeline, autohead, preflight, limitRequestSize, mux_serve, ServeMux_Handler.
    rewrite (str_eqb_neq _ "HEAD"), (str_eqb_neq _ "OPTIONS"), (str_eqb_neq _ "CONNECT")
      by (apply Hne; set_solver).
    replace (Z.of_nat (String.length (req_Body req)) >? MaxBodySize cfg) with false by lia.
    rewrite Hp.
    replace (cleanPath "/get") with "/get" by (vm_compute; reflexivity).
    replace (shouldRedirect engine_mux "/get") with false by (vm_compute; reflexivity).
    rewrite str_eqb_refl. cbn [negb].
    replace (mux_handler engine_mux "/get") with (Serve (Methods Get ["GET"]) "/get")
      by (vm_compute; reflexivity).
    unfold run_target, methods. cbn [existsb req_Method]. rewrite str_eqb_refl. cbn [orb existsb].
    rewrite (str_eqb_neq (req_Method req) "GET"), (str_eqb_neq (req_Method req) "HEAD")
      by (apply Hne; set_solver).
    done. }
  rewrite !wrap_unfold, !Hpipe. done.
Qed.

(** ** Witnesses *)

(** Handlers that answer every request 200 with the path as body. *)
#[local] Instance echo_endpoints : Endpoints :=
  {| serve_endpoint := fun _ req => mkResponse 200 ∅ (req_Path req) |}.
#[local] Instance echo_endpoints_laws : EndpointsLaws.
Proof. split. reflexivity. Qed.
(** Handlers that answer every request 500. *)
Definition failing_endpoints : Endpoints :=
  {| serve_endpoint := fun _ _ => mkResponse 500 ∅ "boom" |}.

Definition small_cfg : HTTPBin := New [WithMaxBodySize 4; WithObserver (Some StdLogObserver)].

Definition big_options : Request := mkRequest "OPTIONS" "/post" ∅ "1.2.3.4" "far too long".
Definition big_post : Request := mkRequest "POST" "/post" ∅ "1.2.3.4" "far too long".
Definition get_req : Request := mkRequest "GET" "/get" ∅ "1.2.3.4" "".
Definition post_get : Request := mkRequest "POST" "/get" ∅ "1.2.3.4" "".

Lemma preflight_answers_before_routing_witness :
  Z.of_nat (String.length (req_Body big_options)) > MaxBodySize small_cfg /\
  @wrap echo_endpoints small_cfg engine_mux big_options =
    @wrap failing_endpoints small_cfg engine_mux big_options /\
  resp_Status (fst (@wrap echo_endpoints small_cfg engine_mux big_options)) = 200 /\
  resp_Body (fst (@wrap echo_endpoints small_cfg engine_mux big_options)) = "".
Proof.
  split; [vm_compute; reflexivity|].
  apply preflight_answers_before_routing. reflexivity.
Defined.

Lemma oversized_body_rejected_witness :
  @wrap echo_endpoints small_cfg engine_mux big_post =
    @wrap failing_endpoints small_cfg engine_mux big_post /\
  resp_Status (fst (@wrap echo_endpoints small_cfg engine_mux big_post)) = 413.
Proof. apply oversized_body_rejected; [discriminate | vm_compute; reflexivity]. Defined.

Lemma head_derived_from_get_witness :
  let g := fst (wrap small_cfg engine_mux (with_method "GET" get_req)) in
  fst (wrap small_cfg engine_mux (with_method "HEAD" get_req)) =
    mkResponse (resp_Status g) (resp_Header g) "" /\
  Forall (fun c => res_Status c.2 = resp_Status g /\ res_Size c.2 = 0)
         (snd (wrap small_cfg engine_mux (with_method "HEAD" get_req))).
Proof. apply head_derived_from_get. discriminate. Defined.

Lemma observer_sees_outcome_witness :
  let r := fst (wrap small_cfg engine_mux get_req) in
  snd (wrap small_cfg engine_mux get_req) =
    [(StdLogObserver, mkResult (resp_Status r) (req_Method get_req) (req_Path get_req)
                  (Z.of_nat (String.length (resp_Body r))))] /\
  r = fst (wrap (WithObserver None small_cfg) engine_mux get_req).
Proof. apply observer_sees_outcome. reflexivity. Defined.

Lemma methods_rejects_other_witness :
  @wrap echo_endpoints small_cfg engine_mux post_get =
    @wrap failing_endpoints small_cfg engine_mux post_get /\
  resp_Status (fst (@wrap echo_endpoints small_cfg engine_mux post_get)) = 405.
Proof.
  apply methods_rejects_other; [reflexivity | | vm_compute; discriminate].
  cbn. rewrite !not_elem_of_cons. repeat split; try discriminate. apply not_elem_of_nil.
Defined.

End Middleware.
