(* ===== verification/Endpoints.v ===== *)
(** * Endpoints: the protocol-simulation and timing handlers, from the specification

    The route table ([Router.routes]) names the handlers [h.Status],
    [h.Redirect], [h.ETag], [h.Stream], [h.Delay], [h.Drip], ...; their
    bodies are not in the sources.  This file writes the ones whose
    contract the specification states precisely (sections 4.3, 4.4 and 8)
    as an instance of the interface [Middleware.Endpoints], and proves
    their contracts end to end: through the route table, [ServeMux]'s
    path cleaning and dispatch, and the middleware of [Handler].

    The handlers are parameterised, in [Section SpecHandlers], by the
    server configuration [cfg], by [base], the handlers of every other
    endpoint (the request envelope of [h.Get] and its relatives is not
    modelled), and by [fields], the envelope members of a stream record.
    The instance satisfies the law [EndpointsLaws] whenever [base] and
    [fields] ignore the method.  The drip and delay handlers also return
    their schedule: the times at which bytes are written and the time the
    response ends, in nanoseconds from the start of the handler (the clock
    is not modelled, only the schedule the handler computes).  The drip's
    query arguments are not in the request model, so [Drip_run] takes them
    parsed and the drip route keeps [base].

    The client [follow] follows redirects on fuel; [n] redirects need fuel
    [n], and the chain theorem holds for any fuel beyond it.  The stream
    count is clamped to [stream_max] = 100, a value the specification
    leaves open. *)

From S2P Require Import Prelude GoLib Config Router PathClean Middleware.
From Stdlib Require Import Sorting.Sorted.

Module Handlers.

Import Config Router PathClean Middleware.

Local Open Scope Z_scope.

(** ** Path arguments and response helpers *)

Fixpoint drop_chars (n : nat) (s : string) : string :=
  match n, s with
  | O, _ => s
  | S n', String _ s' => drop_chars n' s'
  | S _, EmptyString => EmptyString
  end.

(** The path argument after the subtree pattern [pat] that served the
    request, e.g. "418" of "/status/418". *)
Definition path_param (pat : string) (req : Request) : string :=
  drop_chars (String.length pat) (req_Path req).

Definition bodiless (code : Z) (hdr : Header) : Response := mkResponse code hdr "".

(** A client error with a one-line diagnostic (section 5, class (a)). *)
Definition bad_request (msg : string) : Response := http_Error msg 400.

(** A redirect to [url] with status 302. *)
Definition found (url : string) : Response := bodiless 302 (Header_Set ∅ "Location" url).

Definition json_headers : Header := Header_Set ∅ "Content-Type" "application/json".

(** The status codes the echo serves: the classes 1xx to 5xx.  The
    specification gives no range; [net/http]'s [WriteHeader] would accept
    any code from 100 to 999. *)
Definition valid_status (c : Z) : bool := (100 <=? c) && (c <=? 599).

(** [0, 1, ..., n - 1]. *)
Definition indices (n : Z) : list Z := map Z.of_nat (seq 0 (Z.to_nat n)).

Fixpoint concat_all (l : list string) : string :=
  match l with
  | [] => EmptyString
  | s :: l' => s +s concat_all l'
  end.

(** ** Status echo: [/status/{code}] *)

(** The requested status with an empty body; a code that is not a number
    or not a status is a client error. *)
Definition Status_handler (req : Request) : Response :=
  match Atoi (path_param "/status/" req) with
  | inr c => if valid_status c then bodiless c ∅ else bad_request "Invalid status code"
  | inl _ => bad_request "Invalid status code"
  end.

(** ** The n-hop redirect chain: [/redirect/{n}] *)

(** [/redirect/1] redirects to the terminal endpoint [/get]; a larger
    count redirects to the next hop with the count decremented; a count
    below 1 or not a number is a client error. *)
Definition Redirect_handler (req : Request) : Response :=
  match Atoi (path_param "/redirect/" req) with
  | inr n =>
      if n =? 1 then found "/get"
      else if 1 <? n then found ("/redirect/" +s Itoa (n - 1))
      else bad_request "Invalid redirect count"
  | inl _ => bad_request "Invalid redirect count"
  end.

(** ** Conditional caching: [/etag/{tag}] *)

(** The If-None-Match value, when the request has one. *)
Definition if_none_match (req : Request) : option string :=
  match req_Header req !! CanonicalMIMEHeaderKey "If-None-Match" with
  | Some (v :: _) => Some v
  | _ => None
  end.

(** ** Streamed records: [/stream/{n}] *)

(** The upper bound on the record count.  The specification asks for "a
    sane upper bound" without a value; 100 is the one of the httpbin
    services this one imitates. *)
Definition stream_max : Z := 100.

Definition record_prefix : string := "{" +s dq +s "id" +s dq +s ": ".

(** Record [i]: a JSON object whose first member is the sequence index,
    followed by the envelope members. *)
Definition stream_record (fields : string) (i : Z) : string :=
  record_prefix +s Itoa i +s ", " +s fields +s "}".

(** Each record on a line of its own. *)
Definition stream_item (fields : string) (i : Z) : string := stream_record fields i +s nl.

(** *** A consumer of the stream *)

Definition nl_char : ascii := ascii_of_nat 10.

Fixpoint no_nl (s : string) : bool :=
  match s with
  | EmptyString => true
  | String c s' => negb (Ascii.eqb c nl_char) && no_nl s'
  end.

(** The lines of a body, read incrementally: [cur] is the line read so
    far; each newline ends a line. *)
Fixpoint scan_lines (s : string) (cur : string) : list string :=
  match s with
  | EmptyString => if cur ==s "" then [] else [cur]
  | String c s' =>
      if Ascii.eqb c nl_char then cur :: scan_lines s' "" else scan_lines s' (cur +s String c "")
  end.

Fixpoint strip_str (p s : string) : option string :=
  match p, s with
  | EmptyString, _ => Some s
  | String a p', String b s' => if Ascii.eqb a b then strip_str p' s' else None
  | String _ _, EmptyString => None
  end.

Fixpoint take_digits (s : string) : string :=
  match s with
  | String c s' => if is_digit c then String c (take_digits s') else EmptyString
  | EmptyString => EmptyString
  end.

(** The sequence index of a record, read from its first member. *)
Definition record_id (line : string) : option Z :=
  match strip_str record_prefix line with
  | Some rest => match Atoi (take_digits rest) with inr i => Some i | inl _ => None end
  | None => None
  end.

(** ** Drip: [/drip?duration=&delay=&numbytes=&code=] *)

(** The query arguments, [None] when absent (the query string is not part
    of the request model: the handler receives it parsed). *)
Record DripArgs := mkDripArgs {
  arg_duration : option Z;
  arg_delay : option Z;
  arg_numbytes : option Z;
  arg_code : option Z
}.

(** What the drip handler does: reject the request, or write the headers
    with [code] and then the bytes of [sched] at their times, ending the
    response at [finish]. *)
Inductive DripOutcome :=
| DripRejected (r : Response)
| DripStream (code : Z) (sched : list (Z * ascii)) (finish : Z).

(** ** Delay: [/delay/{seconds}] *)

(** What the delay handler does: answer at once (a client error), answer
    after suspending for [d], or stop at the cancellation time [c] without
    writing anything. *)
Inductive DelayOutcome :=
| DelayAnswered (r : Response) (at_ns : Z)
| DelayCancelled (at_ns : Z).

Section SpecHandlers.
Variable cfg : HTTPBin.
Variable base : Endpoint -> Request -> Response.
Variable fields : Request -> string.

(** The full payload of [base] with the tag attached, or 304 with no body
    when the request's If-None-Match is the tag. *)
Definition ETag_handler (req : Request) : Response :=
  let tag := path_param "/etag/" req in
  match if_none_match req with
  | Some v => if v ==s tag then bodiless 304 (Header_Set ∅ "ETag" tag)
              else let r := base ETag req in
                   mkResponse (resp_Status r) (Header_Set (resp_Header r) "ETag" tag) (resp_Body r)
  | None => let r := base ETag req in
            mkResponse (resp_Status r) (Header_Set (resp_Header r) "ETag" tag) (resp_Body r)
  end.

(** The requested count, clamped to [stream_max], of records in order. *)
Definition Stream_handler (req : Request) : Response :=
  match Atoi (path_param "/stream/" req) with
  | inr n =>
      if n <? 0 then bad_request "Invalid count"
      else mkResponse 200 json_headers
             (concat_all (map (stream_item (fields req)) (indices (Z.min n stream_max))))
  | inl _ => bad_request "Invalid count"
  end.

(** The suspension the delay handler computes: the requested seconds in
    nanoseconds, clamped to [MaxDuration]; [None] for a client error. *)
Definition delay_of (req : Request) : option Z :=
  match Atoi (path_param "/delay/" req) with
  | inr s => if s <? 0 then None else Some (Z.min (s * Second) (MaxDuration cfg))
  | inl _ => None
  end.

(** The delay handler with the client cancelling at [cancel] (or never):
    it answers with the envelope of [base] once the suspension ends, and
    aborts without a body when the cancellation comes first. *)
Definition Delay_run (req : Request) (cancel : option Z) : DelayOutcome :=
  match delay_of req with
  | None => DelayAnswered (bad_request "Invalid delay") 0
  | Some d =>
      match cancel with
      | Some c => if c <? d then DelayCancelled c else DelayAnswered (base Delay req) d
      | None => DelayAnswered (base Delay req) d
      end
  end.

Definition Delay_handler (req : Request) : Response :=
  match delay_of req with
  | None => bad_request "Invalid delay"
  | Some _ => base Delay req
  end.

(** The arguments with the configured defaults filled in. *)
Definition drip_duration (a : DripArgs) : Z :=
  default (DripDuration (DefaultParams_ cfg)) (arg_duration a).
Definition drip_delay (a : DripArgs) : Z :=
  default (DripDelay (DefaultParams_ cfg)) (arg_delay a).
Definition drip_numbytes (a : DripArgs) : Z :=
  default (DripNumBytes (DefaultParams_ cfg)) (arg_numbytes a).
Definition drip_code (a : DripArgs) : Z := default 200 (arg_code a).

(** The validation of section 4.3: duration, delay and byte count not
    negative, the whole emission within [MaxDuration], the byte count
    within [MaxBodySize], and a valid status. *)
Definition drip_ok (a : DripArgs) : bool :=
  (0 <=? drip_duration a) && (0 <=? drip_delay a) && (0 <=? drip_numbytes a) &&
  (drip_delay a + drip_duration a <=? MaxDuration cfg) &&
  (drip_numbytes a <=? MaxBodySize cfg) && valid_status (drip_code a).

(** One byte per tick, the ticks spread evenly over the duration. *)
Definition drip_pause (a : DripArgs) : Z := drip_duration a / drip_numbytes a.

Definition Drip_run (a : DripArgs) : DripOutcome :=
  if drip_ok a then
    DripStream (drip_code a)
      (map (fun i => (drip_delay a + i * drip_pause a, "*"%char)) (indices (drip_numbytes a)))
      (drip_delay a + drip_numbytes a * drip_pause a)
  else DripRejected (bad_request "Invalid drip arguments").

(** The handlers of this file, [base] for the others. *)
Definition spec_serve (e : Endpoint) (req : Request) : Response :=
  match e with
  | Status => Status_handler req
  | Redirect => Redirect_handler req
  | ETag => ETag_handler req
  | Stream => Stream_handler req
  | Delay => Delay_handler req
  | _ => base e req
  end.

End SpecHandlers.

#[export] Instance spec_endpoints (cfg : HTTPBin) (base : Endpoint -> Request -> Response)
    (fields : Request -> string) : Endpoints :=
  {| serve_endpoint := spec_serve cfg base fields |}.

#[export] Instance Target_eq_dec : EqDecision Target.
Proof. solve_decision. Defined.

(** No registered pattern but [pat] itself starts with [pat]. *)
Definition owns_subtree (pat : string) : bool :=
  forallb (fun r => negb (String.prefix pat r.1) || (r.1 ==s pat)) routes.

(** The response of [Handler]'s wrapped mux with the spec handlers. *)
Definition serve (cfg : HTTPBin) (base : Endpoint -> Request -> Response)
    (fields : Request -> string) (req : Request) : Response :=
  fst (@wrap (spec_endpoints cfg base fields) cfg engine_mux req).

(** ** A client that follows redirects *)

Definition is_redirect (code : Z) : bool := bool_decide (code ∈ [301; 302; 303; 307; 308]).

(** The request a client sends for a [Location]: a GET with no body,
    from the same address with the same headers. *)
Definition follow_req (req : Request) (url : string) : Request :=
  mkRequest "GET" url (req_Header req) (req_RemoteAddr req) "".

(** Send [req] to [h] and follow at most [fuel] redirects: the number of
    redirects followed, the last request and its response, or [None] when
    the redirects outlast the fuel. *)
Fixpoint follow (h : Request -> Response) (fuel : nat) (req : Request) :
    option (nat * Request * Response) :=
  let r := h req in
  if is_redirect (resp_Status r) then
    match fuel with
    | O => None
    | S f =>
        match follow h f (follow_req req (Header_Get (resp_Header r) "Location")) with
        | Some (k, q, r') => Some (S k, q, r')
        | None => None
        end
    end
  else Some (O, req, r).

(** The argument routes of the documented surface (section 6): the path
    segment before the arguments, and the handler the specification names
    for it. *)
Definition argument_routes : list (string * Endpoint) :=
  [ ("status", Status); ("redirect", Redirect); ("relative-redirect", RelativeRedirect);
    ("absolute-redirect", AbsoluteRedirect); ("anything", RequestWithBody);
    ("basic-auth", BasicAuth); ("hidden-basic-auth", HiddenBasicAuth);
    ("digest-auth", DigestAuth); ("stream", Stream); ("delay", Delay); ("range", Range);
    ("bytes", Bytes); ("stream-bytes", StreamBytes); ("cache", CacheControl);
    ("etag", ETag); ("links", Links); ("image", Image); ("base64", Base64) ].

(** ** Lemmas: path arguments *)

Lemma drop_chars_app (a b : string) : drop_chars (String.length a) (a +s b) = b.
Proof. induction a as [|c a IH]; [by destruct b|exact IH]. Qed.

Lemma path_param_app pat w req : req_Path req = pat +s w -> path_param pat req = w.
Proof. intros Hp. unfold path_param. rewrite Hp. apply drop_chars_app. Qed.

Lemma Header_Get_Set h k v : Header_Get (Header_Set h k v) k = v.
Proof. unfold Header_Get, Header_Set. by rewrite lookup_insert_eq. Qed.

Lemma prefix_app (a b : string) : String.prefix a (a +s b) = true.
Proof.
  induction a as [|c a IH]; [by destruct b|]. simpl.
  destruct (Ascii.ascii_dec c c); [exact IH|done].
Qed.

(** A prefix of [b +s c] at least as long as [b] extends [b]. *)
Lemma prefix_app_long (a b c : string) :
  String.prefix a (b +s c) = true -> (String.length b <= String.length a)%nat ->
  String.prefix b a = true.
Proof.
  revert a. induction b as [|x b IH]; intros a Hp Hl; [by destruct a|].
  destruct a as [|y a]; simpl in *; [lia|].
  destruct (Ascii.ascii_dec y x) as [->|]; [|done].
  destruct (Ascii.ascii_dec x x); [|done]. apply IH; [exact Hp|lia].
Qed.

Lemma all_digits_no_slash w : all_digits w = true -> no_slash w = true.
Proof.
  induction w as [|c w IH]; simpl; [done|]. intros [Hc Hw]%andb_prop.
  rewrite (IH Hw), andb_true_r. apply negb_true_iff, Ascii.eqb_neq.
  intros ->. vm_compute in Hc. discriminate.
Qed.

(** The text [Itoa] writes is one proper path segment. *)
Lemma proper_Itoa z : proper (Itoa z) = true.
Proof.
  destruct (Itoa_shape z) as (w & Hne & Hd & _ & ->).
  destruct w as [|c w]; [done|]. simpl in Hd. apply andb_prop in Hd as [Hc Hd].
  assert (Hdot : c <> "."%char) by (intros ->; vm_compute in Hc; discriminate).
  pose proof (all_digits_no_slash _ Hd) as Hns.
  assert (Hcs : Ascii.eqb c slash = false) by (apply Ascii.eqb_neq; intros ->; vm_compute in Hc; discriminate).
  unfold proper. destruct (z <? 0); simpl; rewrite ?Hcs, ?Hns; simpl; [done|].
  by rewrite (proj2 (Ascii.eqb_neq c "."%char) Hdot).
Qed.

(** ** Lemmas: dispatch of a path under a subtree pattern *)

(** A rooted path of proper segments is clean. *)
Lemma cleanPath_segments l :
  l <> [] -> Forall (fun w => proper w = true) l ->
  cleanPath ("/" +s join_slash l) = "/" +s join_slash l.
Proof.
  intros Hne Hl. rewrite cleanPath_rooted_eq. cbv zeta.
  rewrite (proj1 (Clean_rooted_clean l Hl)). by rewrite ends_with_slash_join.
Qed.

Lemma owns_subtree_In pat q h :
  owns_subtree pat = true -> In (q, h) routes -> String.prefix pat q = true -> q = pat.
Proof.
  intros Ho Hin Hp. unfold owns_subtree in Ho. rewrite forallb_forall in Ho.
  specialize (Ho _ Hin). simpl in Ho. rewrite Hp in Ho. by apply str_eqb_true.
Qed.

Lemma owns_subtree_unregistered pat w h :
  owns_subtree pat = true -> w <> EmptyString -> ~ In (pat +s w, h) routes.
Proof.
  intros Ho Hw Hin. pose proof (owns_subtree_In _ _ _ Ho Hin (prefix_app pat w)) as E.
  apply (f_equal String.length) in E. rewrite str_length_app in E.
  destruct w; [done|simpl in E; lia].
Qed.

(** [ServeMux.match] sends [pat +s w] to [pat] when [pat] owns its
    subtree. *)
Lemma mux_match_subtree pat t w :
  In (pat, t) routes -> ends_with_slash pat = true -> owns_subtree pat = true ->
  w <> EmptyString -> mux_match engine_mux (pat +s w) = Some (t, pat).
Proof.
  intros Hin Hsl Ho Hw. destruct engine_inv as [Hm Hes Hs]. unfold mux_match.
  destruct (mux_m engine_mux !! (pat +s w)) as [h|] eqn:E.
  { apply Hm in E. by apply owns_subtree_unregistered in E. }
  destruct (List.find _ (mux_es engine_mux)) as [[q h]|] eqn:F.
  - pose proof (find_some _ _ F) as [Fin Fpre]. destruct (proj1 (Hes (q, h)) Fin) as [Fin' _].
    simpl in Fpre. clear Fin. rename Fin' into Fin.
    pose proof (find_sorted_longest _ _ _ Hs F (pat, t) (proj2 (Hes _) (conj Hin Hsl))
                  (prefix_app pat w)) as Hlen.
    simpl in Hlen. pose proof (owns_subtree_In _ _ _ Ho Fin (prefix_app_long _ _ _ Fpre Hlen)) as ->.
    apply (proj2 (Hm _ _)) in Fin. apply (proj2 (Hm _ _)) in Hin. rewrite Fin in Hin.
    by injection Hin as ->.
  - exfalso. pose proof (find_none _ _ F (pat, t) (proj2 (Hes _) (conj Hin Hsl))) as Hf.
    simpl in Hf. by rewrite prefix_app in Hf.
Qed.

Lemma join_slash_cons w l : l <> [] -> join_slash (w :: l) = w +s "/" +s join_slash l.
Proof. by destruct l. Qed.

Lemma join_slash_nonempty l : l <> [] -> Forall (fun w => proper w = true) l -> join_slash l <> EmptyString.
Proof.
  intros Hne Hl. destruct l as [|w l]; [done|]. inversion Hl as [|? ? Hw _]; subst.
  destruct w as [|c w]; [done|]. destruct l; [done|]. simpl. discriminate.
Qed.

(** [ServeMux.Handler] serves a request for [/s/w1/.../wk], [s] and the
    [wi] proper segments, with the target of the subtree pattern [/s/]. *)
Lemma dispatch_subtree_segs req s l t :
  req_Method req <> "CONNECT" -> In ("/" +s s +s "/", t) routes ->
  owns_subtree ("/" +s s +s "/") = true -> proper s = true ->
  l <> [] -> Forall (fun w => proper w = true) l ->
  req_Path req = "/" +s s +s "/" +s join_slash l ->
  ServeMux_Handler engine_mux req = Serve t ("/" +s s +s "/").
Proof.
  intros Hm Hin Ho Hs Hne Hl Hp. destruct engine_inv as [Hmi _ _].
  set (w := join_slash l) in *.
  assert (Hwne : w <> EmptyString) by (by apply join_slash_nonempty).
  assert (Hsl : ends_with_slash ("/" +s s +s "/") = true).
  { change ("/" +s s +s "/") with ("/" +s s +s String slash ""). rewrite <- str_app_assoc.
    by rewrite ends_with_slash_snoc. }
  assert (Hpat : req_Path req = ("/" +s s +s "/") +s w) by (rewrite Hp; by rewrite !str_app_assoc).
  assert (Hclean : cleanPath (req_Path req) = req_Path req).
  { rewrite Hp. subst w. rewrite <- join_slash_cons by done.
    apply cleanPath_segments; [done|by constructor]. }
  assert (Hnone : forall x, x <> EmptyString -> mux_m engine_mux !! (("/" +s s +s "/") +s x) = None).
  { intros x Hx. destruct (_ !! _) as [h|] eqn:E; [|done]. apply Hmi in E.
    by apply owns_subtree_unregistered in E. }
  unfold ServeMux_Handler. rewrite str_eqb_neq by done. rewrite Hclean, str_eqb_refl.
  unfold shouldRedirect. rewrite Hpat, (Hnone w Hwne), (str_app_assoc ("/" +s s +s "/") w "/").
  rewrite (Hnone (w +s "/")) by (by destruct w).
  match goal with |- context [(?n =? 0)%nat] => destruct (n =? 0)%nat end.
  all: cbn [negb]; unfold mux_handler; by rewrite (mux_match_subtree _ t w Hin Hsl Ho Hwne).
Qed.

Lemma dispatch_subtree req s w t :
  req_Method req <> "CONNECT" -> In ("/" +s s +s "/", t) routes ->
  owns_subtree ("/" +s s +s "/") = true -> proper s = true -> proper w = true ->
  req_Path req = "/" +s s +s "/" +s w ->
  ServeMux_Handler engine_mux req = Serve t ("/" +s s +s "/").
Proof.
  intros Hm Hin Ho Hs Hw Hp. apply (dispatch_subtree_segs _ s [w]); try done. by repeat constructor.
Qed.

Lemma In_routes p t :
  existsb (fun r => (r.1 ==s p) && bool_decide (r.2 = t)) routes = true -> In (p, t) routes.
Proof.
  intros H. apply existsb_exists in H as ([q u] & Hin & Hq). simpl in Hq.
  apply andb_prop in Hq as [Hq Hu]. apply str_eqb_true in Hq. apply bool_decide_eq_true in Hu.
  by subst.
Qed.

(** ** Lemmas: the pipeline in front of the spec handlers *)

(** A GET request within the size limit reaches the target the mux
    chose, and nothing changes its response on the way out. *)
Lemma serve_dispatch cfg base fields req t pat :
  req_Method req = "GET" -> Z.of_nat (String.length (req_Body req)) <= MaxBodySize cfg ->
  ServeMux_Handler engine_mux req = Serve t pat ->
  serve cfg base fields req = @run_target (spec_endpoints cfg base fields) t req.
Proof.
  intros Hm Hb Hd. unfold serve. rewrite wrap_fst.
  unfold pipeline, autohead, preflight, limitRequestSize, mux_serve. rewrite Hm, Hd.
  change ("GET" ==s "HEAD") with false. change ("GET" ==s "OPTIONS") with false. cbv iota.
  by replace (_ >? _) with false by lia.
Qed.

(** A GET request for [/s/w] under a subtree pattern [/s/] the route table
    gives [Plain e] is answered by the spec handler of [e]. *)
Lemma serve_subtree cfg base fields req s w e :
  req_Method req = "GET" -> Z.of_nat (String.length (req_Body req)) <= MaxBodySize cfg ->
  In ("/" +s s +s "/", Plain e) routes -> owns_subtree ("/" +s s +s "/") = true ->
  proper s = true -> proper w = true -> req_Path req = "/" +s s +s "/" +s w -> e <> NotFound ->
  serve cfg base fields req = spec_serve cfg base fields e req.
Proof.
  intros Hm Hb Hin Ho Hs Hw Hp He.
  rewrite (serve_dispatch _ _ _ _ (Plain e) ("/" +s s +s "/") Hm Hb).
  - cbn [run_target run_endpoint]. by destruct e.
  - apply (dispatch_subtree _ s w); [by rewrite Hm|done..].
Qed.

(** The instance answers HEAD as GET when [base] and [fields] ignore the
    method. *)
Lemma spec_endpoints_laws cfg base fields :
  (forall e req, base e (with_method "HEAD" req) = base e (with_method "GET" req)) ->
  (forall req, fields (with_method "HEAD" req) = fields (with_method "GET" req)) ->
  @EndpointsLaws (spec_endpoints cfg base fields).
Proof.
  intros Hb Hf. split. intros e req. cbn [serve_endpoint spec_endpoints].
  destruct e; cbn [spec_serve]; try apply Hb.
  all: unfold ETag_handler, Stream_handler, Delay_handler; rewrite ?Hb, ?Hf; reflexivity.
Qed.

(** ** Lemmas: reading the stream back *)

Lemma scan_lines_app x rest cur :
  no_nl x = true -> scan_lines (x +s nl +s rest) cur = (cur +s x) :: scan_lines rest "".
Proof.
  change (nl +s rest) with (String nl_char rest). revert cur. induction x as [|c x IH]; intros cur Hx; cbn [String.append scan_lines].
  - by rewrite Ascii.eqb_refl, str_app_nil_r.
  - cbn [no_nl] in Hx. apply andb_prop in Hx as [Hc Hx]. apply negb_true_iff in Hc.
    rewrite Hc, IH by done. by rewrite str_app_assoc.
Qed.

Lemma scan_lines_items ls :
  Forall (fun s => no_nl s = true) ls -> scan_lines (concat_all (map (fun s => s +s nl) ls)) "" = ls.
Proof.
  induction 1 as [|x ls Hx _ IH]; [done|]. cbn [map concat_all].
  rewrite str_app_assoc. by rewrite scan_lines_app, IH.
Qed.

Lemma no_nl_app a b : no_nl (a +s b) = no_nl a && no_nl b.
Proof. induction a as [|c a IH]; simpl; [done|]. by rewrite IH, andb_assoc. Qed.

Lemma all_digits_no_nl w : all_digits w = true -> no_nl w = true.
Proof.
  induction w as [|c w IH]; simpl; [done|]. intros [Hc Hw]%andb_prop.
  rewrite (IH Hw), andb_true_r. apply negb_true_iff, Ascii.eqb_neq.
  intros ->. vm_compute in Hc. discriminate.
Qed.

Lemma no_nl_Itoa z : no_nl (Itoa z) = true.
Proof.
  destruct (Itoa_shape z) as (w & _ & Hd & _ & ->).
  destruct (z <? 0); [|by apply all_digits_no_nl]. cbn [no_nl]. by rewrite all_digits_no_nl.
Qed.

Lemma no_nl_stream_record f i : no_nl f = true -> no_nl (stream_record f i) = true.
Proof. intros Hf. unfold stream_record. rewrite !no_nl_app, no_nl_Itoa, Hf. reflexivity. Qed.

Lemma strip_str_app p s : strip_str p (p +s s) = Some s.
Proof. induction p as [|c p IH]; [by destruct s|]. cbn. by rewrite Ascii.eqb_refl. Qed.

Lemma take_digits_app w r :
  all_digits w = true -> take_digits r = EmptyString -> take_digits (w +s r) = w.
Proof.
  intros Hw Hr. induction w as [|d w IH]; cbn; [done|].
  cbn in Hw. apply andb_prop in Hw as [Hd Hw]. by rewrite Hd, IH.
Qed.

(** A reader gets back the index each record was written with. *)
Lemma record_id_stream_record f i : 0 <= i <= int64_max -> record_id (stream_record f i) = Some i.
Proof.
  intros Hi. unfold record_id, stream_record. rewrite strip_str_app.
  destruct (Itoa_shape i) as (w & _ & Hd & _ & Hw).
  replace (i <? 0) with false in Hw by lia. rewrite Hw at 1.
  rewrite take_digits_app by (done || reflexivity). rewrite <- Hw.
  rewrite Itoa_Atoi_roundtrip by (unfold in_int64, int64_min, int64_max in *; lia). done.
Qed.

Lemma indices_range n i : In i (indices n) -> 0 <= i < n.
Proof. unfold indices. intros (j & <- & Hj)%in_map_iff. apply in_seq in Hj. lia. Qed.

(** ** Lemmas: the drip schedule *)

Lemma seq_sorted (f : Z -> Z) s k :
  (forall i j, i <= j -> f i <= f j) ->
  StronglySorted Z.le (map (fun j => f (Z.of_nat j)) (seq s k)).
Proof.
  intros Hf. revert s. induction k as [|k IH]; intros s; [constructor|]. cbn [seq map].
  constructor; [apply IH|]. apply Forall_map, List.Forall_forall. intros j Hj%in_seq. apply Hf. lia.
Qed.

(** [n] ticks of [d / n] fit in [d] and miss it by less than [n]. *)
Lemma ticks_bounds d n : 0 <= d -> 0 < n -> d - n < n * (d / n) <= d.
Proof.
  intros Hd Hn. pose proof (Z.div_mod d n ltac:(lia)). pose proof (Z.mod_pos_bound d n Hn). lia.
Qed.

Lemma drip_pause_nonneg cfg a : drip_ok cfg a = true -> 0 <= drip_pause cfg a.
Proof.
  unfold drip_ok, drip_pause. intros H. repeat (apply andb_prop in H as [H ?]).
  destruct (Z.eq_dec (drip_numbytes cfg a) 0) as [->|]; [by rewrite Z.div_0_r|].
  apply Z.div_pos; lia.
Qed.

Ltac subtree_side :=
  first [ assumption | done | apply proper_Itoa | (apply In_routes; vm_compute; reflexivity)
        | (vm_compute; reflexivity) ].

Lemma follow_found h f req url :
  h req = found url ->
  follow h (S f) req =
    match follow h f (follow_req req url) with
    | Some (k, q, r') => Some (S k, q, r')
    | None => None
    end.
Proof. intros Hr. cbn [follow]. rewrite Hr. cbn [resp_Status resp_Header found bodiless]. by rewrite Header_Get_Set. Qed.

Lemma follow_final h f req : is_redirect (resp_Status (h req)) = false -> follow h f req = Some (O, req, h req).
Proof. intros Hr. destruct f; cbn [follow]; by rewrite Hr. Qed.

(** [/get] is served by [base] for a GET request within the size limit. *)
Lemma serve_get cfg base fields req :
  req_Method req = "GET" -> Z.of_nat (String.length (req_Body req)) <= MaxBodySize cfg ->
  req_Path req = "/get" -> serve cfg base fields req = base Get req.
Proof.
  intros Hm Hb Hp. rewrite (serve_dispatch _ _ _ _ (Methods Get ["GET"]) "/get" Hm Hb).
  - cbn [run_target run_endpoint]. unfold methods. rewrite Hm. reflexivity.
  - unfold ServeMux_Handler. rewrite Hm, Hp. vm_compute. reflexivity.
Qed.

(** One hop of the chain: [/redirect/n] redirects to [/get] or to the
    next hop. *)
Lemma serve_redirect_hop cfg base fields req n :
  1 <= n <= int64_max -> req_Method req = "GET" ->
  Z.of_nat (String.length (req_Body req)) <= MaxBodySize cfg ->
  req_Path req = "/redirect/" +s Itoa n ->
  serve cfg base fields req = found (if n =? 1 then "/get" else "/redirect/" +s Itoa (n - 1)).
Proof.
  intros Hn Hm Hb Hp.
  rewrite (serve_subtree _ _ _ _ "redirect" (Itoa n) Redirect) by subtree_side.
  cbn [spec_serve]. unfold Redirect_handler. rewrite (path_param_app _ (Itoa n)) by exact Hp.
  rewrite Itoa_Atoi_roundtrip by (unfold in_int64, int64_min, int64_max in *; lia).
  destruct (n =? 1) eqn:E; [done|]. by replace (1 <? n) with true by lia.
Qed.

Lemma redirect_chain_nat cfg base fields (k : nat) :
  (1 <= k)%nat -> Z.of_nat k <= int64_max -> 0 <= MaxBodySize cfg ->
  forall req extra, req_Method req = "GET" ->
  Z.of_nat (String.length (req_Body req)) <= MaxBodySize cfg ->
  req_Path req = "/redirect/" +s Itoa (Z.of_nat k) ->
  is_redirect (resp_Status (base Get (follow_req req "/get"))) = false ->
  follow (serve cfg base fields) (k + extra) req =
    Some (k, follow_req req "/get", base Get (follow_req req "/get")).
Proof.
  intros Hk. induction Hk as [|k Hk IH]; intros Hmax H0 req extra Hm Hb Hp Hg.
  - rewrite (follow_found _ _ _ "/get") by (rewrite (serve_redirect_hop _ _ _ _ 1); try done; lia).
    rewrite follow_final; rewrite (serve_get _ _ _ (follow_req req "/get")); try done; simpl; lia.
  - rewrite Nat.add_succ_l.
    rewrite (follow_found _ _ _ ("/redirect/" +s Itoa (Z.of_nat k))).
    2:{ rewrite (serve_redirect_hop _ _ _ _ (Z.of_nat (S k))) by (first [assumption | lia]).
        rewrite (proj2 (Z.eqb_neq _ 1)) by lia. do 3 f_equal. lia. }
    rewrite IH; [done|lia|done|done|simpl; lia|done|done].
Qed.

(** C4: argument routes.  For every argument route [/s/...] of the
    documented surface and every non-empty list of proper path segments
    [w1, ..., wk] (no slash, not empty, not "." or ".."), a request for
    [/s/w1/.../wk] by any method but CONNECT is dispatched by the mux of
    [Handler] to the handler the specification names, registered at
    [/s/]: app.go registers each of these patterns with its handler, and
    no other pattern of the table captures a path under it. *)
Theorem argument_routes_dispatch s e l req :
  In (s, e) argument_routes -> l <> [] -> Forall (fun w => proper w = true) l ->
  req_Method req <> "CONNECT" -> req_Path req = "/" +s s +s "/" +s join_slash l ->
  ServeMux_Handler engine_mux req = Serve (Plain e) ("/" +s s +s "/").
Proof.
  intros Hin Hne Hl Hm Hp.
  assert (Hall : forallb (fun '(s, e) =>
            existsb (fun r => (r.1 ==s ("/" +s s +s "/")) && bool_decide (r.2 = Plain e)) routes &&
            owns_subtree ("/" +s s +s "/") && proper s) argument_routes = true)
    by (vm_compute; reflexivity).
  rewrite forallb_forall in Hall. specialize (Hall _ Hin). cbn in Hall.
  apply andb_prop in Hall as [Hall Hs]. apply andb_prop in Hall as [Hr Ho].
  apply (dispatch_subtree_segs _ s l); try done. by apply In_routes.
Qed.

(** C10: the n-hop redirect chain (section 8: GET /redirect/3 followed 3
    times lands on /get).  Through the whole of [Handler], a client
    following the redirects of a GET [/redirect/n], [n >= 1], follows
    exactly [n] of them and ends at the terminal [/get], answered by its
    handler, whatever fuel beyond [n] it has. *)
Theorem redirect_chain_reaches_get cfg base fields req n extra :
  1 <= n <= int64_max -> 0 <= MaxBodySize cfg -> req_Method req = "GET" ->
  Z.of_nat (String.length (req_Body req)) <= MaxBodySize cfg ->
  req_Path req = "/redirect/" +s Itoa n ->
  is_redirect (resp_Status (base Get (follow_req req "/get"))) = false ->
  follow (serve cfg base fields) (Z.to_nat n + extra) req =
    Some (Z.to_nat n, follow_req req "/get", base Get (follow_req req "/get")).
Proof.
  intros Hn H0 Hm Hb Hp Hg. apply redirect_chain_nat; try done; try lia.
  by rewrite Z2Nat.id by lia.
Qed.

(** C11: status echo (section 8: GET /status/418 returns 418 with an empty
    body).  Through the whole of [Handler], a GET request for
    [/status/c] within the size limit is answered with status [c] and an
    empty body when [c] is a status code, and with a 400 client error
    otherwise. *)
Theorem status_echo cfg base fields req c :
  in_int64 c -> req_Method req = "GET" ->
  Z.of_nat (String.length (req_Body req)) <= MaxBodySize cfg ->
  req_Path req = "/status/" +s Itoa c ->
  serve cfg base fields req =
    if valid_status c then bodiless c ∅ else bad_request "Invalid status code".
Proof.
  intros Hc Hm Hb Hp.
  rewrite (serve_subtree _ _ _ _ "status" (Itoa c) Status) by subtree_side.
  cbn [spec_serve]. unfold Status_handler. rewrite (path_param_app _ (Itoa c)) by exact Hp.
  by rewrite Itoa_Atoi_roundtrip.
Qed.

(** C13: conditional caching (section 8: GET /etag/tag with If-None-Match
    equal to the tag returns 304 with no body, and otherwise the payload
    with the tag attached).  Through the whole of [Handler], a GET request
    for [/etag/tag] within the size limit is answered 304 with no body and
    the tag when its If-None-Match is the tag, and otherwise with the
    response of the payload handler, the tag added to its headers. *)
Theorem etag_conditional cfg base fields req tag :
  proper tag = true -> req_Method req = "GET" ->
  Z.of_nat (String.length (req_Body req)) <= MaxBodySize cfg ->
  req_Path req = "/etag/" +s tag ->
  serve cfg base fields req =
    if bool_decide (if_none_match req = Some tag) then bodiless 304 (Header_Set ∅ "ETag" tag)
    else let r := base ETag req in
         mkResponse (resp_Status r) (Header_Set (resp_Header r) "ETag" tag) (resp_Body r).
Proof.
  intros Ht Hm Hb Hp.
  rewrite (serve_subtree _ _ _ _ "etag" tag ETag) by subtree_side.
  cbn [spec_serve]. unfold ETag_handler. rewrite (path_param_app _ tag) by exact Hp.
  destruct (if_none_match req) as [v|]; [|done].
  destruct (String.eqb_spec v tag) as [->|Hne].
  - by rewrite bool_decide_eq_true_2.
  - rewrite bool_decide_eq_false_2; [done|congruence].
Qed.

(** C12: streamed records (section 8: GET /stream/n yields n newline
    separated records with ids 0..n-1 in order).  Through the whole of
    [Handler], a GET request for [/stream/n], [n >= 0], within the size
    limit is answered 200, and a consumer reading the body line by line
    finds [min n 100] records whose ids are 0, 1, ... in order, provided
    the envelope members hold no newline. *)
Theorem stream_records_in_order cfg base fields req n :
  0 <= n <= int64_max -> no_nl (fields req) = true -> req_Method req = "GET" ->
  Z.of_nat (String.length (req_Body req)) <= MaxBodySize cfg ->
  req_Path req = "/stream/" +s Itoa n ->
  resp_Status (serve cfg base fields req) = 200 /\
  map record_id (scan_lines (resp_Body (serve cfg base fields req)) "") =
    map Some (indices (Z.min n stream_max)).
Proof.
  intros Hn Hf Hm Hb Hp.
  rewrite (serve_subtree _ _ _ _ "stream" (Itoa n) Stream) by subtree_side.
  cbn [spec_serve]. unfold Stream_handler. rewrite (path_param_app _ (Itoa n)) by exact Hp.
  rewrite Itoa_Atoi_roundtrip by (unfold in_int64, int64_min, int64_max in *; lia).
  replace (n <? 0) with false by lia. split; [done|]. cbn [resp_Body].
  replace (map (stream_item (fields req)) _)
    with (map (fun s => s +s nl) (map (stream_record (fields req)) (indices (Z.min n stream_max))))
    by (rewrite map_map; reflexivity).
  rewrite scan_lines_items.
  - rewrite map_map. apply map_ext_in. intros i Hi%indices_range.
    apply record_id_stream_record. unfold stream_max in Hi. unfold int64_max. lia.
  - apply Forall_map, Forall_forall. intros i _. by apply no_nl_stream_record.
Qed.

(** C15: drip (sections 4.3 and 8: GET /drip?duration=2&numbytes=10 emits
    exactly 10 bytes spread over about 2 seconds).  The drip handler
    rejects arguments out of range with a client error before writing
    anything; otherwise it writes the requested status and exactly
    [numbytes] bytes, at times that never decrease, all after the initial
    delay and at most at the end of the response, which comes no later
    than [delay + duration] (itself within [MaxDuration]) and less than
    [numbytes] nanoseconds before it. *)
Theorem drip_schedule cfg a :
  match Drip_run cfg a with
  | DripRejected r => drip_ok cfg a = false /\ resp_Status r = 400
  | DripStream code sched fin =>
      drip_ok cfg a = true /\ code = drip_code a /\ valid_status code = true /\
      List.length sched = Z.to_nat (drip_numbytes cfg a) /\
      Forall (fun e => e.2 = "*"%char /\ drip_delay cfg a <= e.1 <= fin) sched /\
      StronglySorted Z.le (map fst sched) /\
      fin <= drip_delay cfg a + drip_duration cfg a <= MaxDuration cfg /\
      (0 < drip_numbytes cfg a -> drip_delay cfg a + drip_duration cfg a - drip_numbytes cfg a < fin)
  end.
Proof.
  unfold Drip_run. destruct (drip_ok cfg a) eqn:Hok; [|done].
  pose proof (drip_pause_nonneg _ _ Hok) as Hp.
  assert (Hok' := Hok). unfold drip_ok in Hok'. repeat (apply andb_prop in Hok' as [Hok' ?]).
  unfold drip_pause in *.
  set (d := drip_duration cfg a) in *. set (w := drip_delay cfg a) in *.
  set (n := drip_numbytes cfg a) in *.
  assert (Hfin : n * (d / n) <= d /\ (0 < n -> d - n < n * (d / n))).
  { destruct (Z.eq_dec n 0) as [->|Hn]; [rewrite Z.div_0_r; lia|].
    pose proof (ticks_bounds d n) as Hb. split; intros; lia. }
  do 3 (split; [done|]).
  split; [unfold indices; by rewrite !length_map, length_seq|].
  split; [|split; [|lia]].
  - apply Forall_map, List.Forall_forall. intros i Hi%indices_range. cbn [fst snd].
    split; [done|]. split; [nia|]. assert (i * (d / n) <= n * (d / n)) by nia. lia.
  - unfold indices. rewrite !map_map. apply (seq_sorted (fun i => w + i * (d / n))). intros. nia.
Qed.

(** C14: delay (sections 4.3 and 8: GET /delay/d with d beyond the maximum
    completes within the maximum).  Whatever the request and the time at
    which the client cancels, the delay handler ends no later than
    [MaxDuration]: it answers after the clamped suspension (never before
    a cancellation), or stops at the cancellation without a body. *)
Theorem delay_within_max cfg base req cancel :
  0 <= MaxDuration cfg -> (forall c, cancel = Some c -> 0 <= c) ->
  match Delay_run cfg base req cancel with
  | DelayAnswered r t =>
      0 <= t <= MaxDuration cfg /\ (forall c, cancel = Some c -> t <= c) /\
      (r = base Delay req \/ resp_Status r = 400)
  | DelayCancelled c => cancel = Some c /\ 0 <= c < MaxDuration cfg
  end.
Proof.
  intros Hmax Hc. unfold Delay_run.
  destruct (delay_of cfg req) as [d|] eqn:Hd.
  2:{ split; [lia|]. split; [|by right]. intros c ->. by apply Hc. }
  assert (Hr : 0 <= d <= MaxDuration cfg).
  { unfold delay_of in Hd. destruct (Atoi _) as [|s]; [done|].
    destruct (s <? 0) eqn:Hs; [done|]. injection Hd as <-. unfold Second. lia. }
  destruct cancel as [c|].
  - specialize (Hc c eq_refl). destruct (c <? d) eqn:E; [split; [done|lia]|].
    split; [lia|]. split; [|by left]. intros c' [= <-]. lia.
  - split; [lia|]. split; [done|by left].
Qed.

(** ** Witnesses, at the requests of section 8 *)

(** The default configuration of [New], payload handlers that echo the
    path, and the URL as the envelope member of a stream record. *)
Definition demo_cfg : HTTPBin := New [WithObserver (Some StdLogObserver)].
Definition demo_base (e : Endpoint) (req : Request) : Response := mkResponse 200 json_headers (req_Path req).
Definition demo_fields (req : Request) : string := dq +s "url" +s dq +s ": " +s dq +s req_Path req +s dq.
Definition demo_req (p : string) : Request := mkRequest "GET" p ∅ "1.2.3.4" "".
Definition quoted_abc : string := dq +s "abc" +s dq.
Definition etag_req : Request :=
  mkRequest "GET" ("/etag/" +s quoted_abc) (<["If-None-Match" := [quoted_abc]]> ∅) "1.2.3.4" "".

Lemma argument_routes_dispatch_witness :
  ServeMux_Handler engine_mux (demo_req "/basic-auth/alice/secret") =
    Serve (Plain BasicAuth) "/basic-auth/".
Proof.
  apply (argument_routes_dispatch "basic-auth" BasicAuth ["alice"; "secret"]);
    [vm_compute; tauto | done | repeat constructor | discriminate | reflexivity].
Defined.

Lemma status_echo_witness :
  serve demo_cfg demo_base demo_fields (demo_req "/status/418") = bodiless 418 ∅ /\
  serve demo_cfg demo_base demo_fields (demo_req "/status/1000") = bad_request "Invalid status code".
Proof.
  split.
  - apply (status_echo _ _ _ _ 418); [unfold in_int64, int64_min, int64_max; lia
      | reflexivity | vm_compute; congruence | reflexivity].
  - apply (status_echo _ _ _ _ 1000); [unfold in_int64, int64_min, int64_max; lia
      | reflexivity | vm_compute; congruence | reflexivity].
Defined.

Lemma redirect_chain_reaches_get_witness :
  follow (serve demo_cfg demo_base demo_fields) 3 (demo_req "/redirect/3") =
    Some (3%nat, demo_req "/get", mkResponse 200 json_headers "/get").
Proof.
  apply (redirect_chain_reaches_get demo_cfg demo_base demo_fields (demo_req "/redirect/3") 3 0); [unfold int64_max; lia | vm_compute; congruence
    | reflexivity | vm_compute; congruence | reflexivity | reflexivity].
Defined.

Lemma etag_conditional_witness :
  serve demo_cfg demo_base demo_fields etag_req = bodiless 304 (Header_Set ∅ "ETag" quoted_abc) /\
  serve demo_cfg demo_base demo_fields (demo_req ("/etag/" +s quoted_abc)) =
    mkResponse 200 (Header_Set json_headers "ETag" quoted_abc) ("/etag/" +s quoted_abc).
Proof.
  split.
  - apply (etag_conditional demo_cfg demo_base demo_fields etag_req quoted_abc); [vm_compute; reflexivity | reflexivity
      | vm_compute; congruence | reflexivity].
  - apply (etag_conditional demo_cfg demo_base demo_fields (demo_req ("/etag/" +s quoted_abc)) quoted_abc); [vm_compute; reflexivity | reflexivity
      | vm_compute; congruence | reflexivity].
Defined.

Lemma stream_records_in_order_witness :
  resp_Status (serve demo_cfg demo_base demo_fields (demo_req "/stream/3")) = 200 /\
  map record_id (scan_lines (resp_Body (serve demo_cfg demo_base demo_fields (demo_req "/stream/3"))) "") =
    [Some 0; Some 1; Some 2].
Proof.
  apply (stream_records_in_order demo_cfg demo_base demo_fields (demo_req "/stream/3") 3); [unfold int64_max; lia | vm_compute; reflexivity
    | reflexivity | vm_compute; congruence | reflexivity].
Defined.

Lemma delay_within_max_witness :
  Delay_run demo_cfg demo_base (demo_req "/delay/3600") None =
    DelayAnswered (demo_base Delay (demo_req "/delay/3600")) (10 * Second) /\
  (0 <= 10 * Second <= MaxDuration demo_cfg /\
   (forall c, @None Z = Some c -> 10 * Second <= c) /\
   (demo_base Delay (demo_req "/delay/3600") = demo_base Delay (demo_req "/delay/3600") \/
    resp_Status (demo_base Delay (demo_req "/delay/3600")) = 400)).
Proof.
  split; [vm_compute; reflexivity|].
  pose proof (delay_within_max demo_cfg demo_base (demo_req "/delay/3600") None) as H.
  vm_compute in H. vm_compute. apply H; [congruence | by intros c ?].
Defined.

(** The drip of section 8 with the default delay: ten bytes, the last
    written 1.8 s after the 2 s delay, the response ending at 4 s. *)
Example drip_ten_bytes :
  match Drip_run demo_cfg (mkDripArgs (Some (2 * Second)) None (Some 10) None) with
  | DripStream code sched fin =>
      code = 200 /\ List.length sched = 10%nat /\ fin = 4 * Second /\
      last (map fst sched) = Some (2 * Second + 9 * (Second / 5))
  | DripRejected _ => False
  end.
Proof. vm_compute. repeat split. Qed.

End Handlers.
