(* ===== verification/Startup.v ===== *)
(** * Startup: configuration resolution in [src/cmd/httpbin/main.go]

    [main] reads four flags, lets an environment variable replace a flag
    that still has its built-in default value (lines 40-67), lets
    [USE_REAL_HOSTNAME] switch the real host name on (lines 69-74), builds
    the option list for [app.New] (lines 89-102), the listen address
    (line 104) and, in the shutdown goroutine, the shutdown timeout
    (line 122).  A parse error of an environment value, or a failed host
    name lookup, ends the program with exit status 1.

    The module [Startup] models this as a function from the parsed flag
    values, the environment ([os.Getenv], "" for an unset variable) and
    the result of [os.Hostname] to either an exit or the server set-up.
    [time.ParseDuration] is a variable of the section [WithParseDuration],
    so these theorems hold for any duration parser; [Duration] writes Go's
    [ParseDuration] and instantiates it ([Duration.go_startup]).
    [ParseInt] and [Atoi] are the models of GoLib. *)

From S2P Require Import Prelude GoLib Config.

Module Startup.

Import Config.

Local Open Scope Z_scope.

(** [defaultPort] (main.go lines 21-23). *)
Definition defaultPort : Z := 8080.

(** The flag variables after [flag.Parse()] (main.go lines 25-30, 34-38). *)
Record Flags := mkFlags {
  port : Z;
  maxBodySize : Z;
  maxDuration : Z;
  useRealHostname : bool
}.

(** How [main] ends before serving: an invalid environment value (lines
    46-50, 54-58, 62-66) or a failed host name lookup (lines 96-99); both
    print a message and call [os.Exit(1)]. *)
Inductive Exit :=
| EnvInvalid (var value : string)
| HostnameFailed.

Definition exit_status (e : Exit) : Z := 1.

(** What [main] has built when it starts serving. *)
Record Setup := mkSetup {
  setup_cfg : HTTPBin;
  setup_listenAddr : string;
  setup_shutdownTimeout : Z
}.

(** [net.JoinHostPort]. *)
Definition JoinHostPort (host port : string) : string :=
  if existsb (fun c => Ascii.eqb c ":"%char) (to_bytes host)
  then "[" +s host +s "]:" +s port
  else host +s ":" +s port.

Definition parse_ok {E} (r : E + Z) : option Z :=
  match r with inr v => Some v | inl _ => None end.

Section WithParseDuration.

(** [time.ParseDuration]: [None] is an error. *)
Variable ParseDuration : string -> option Z.

(** One [if flag == default && os.Getenv(var) != "" { flag, err = parse(...);
    if err != nil { exit } }] block of main.go. *)
Definition from_env (flagv dflt : Z) (getenv : string -> string) (var : string)
    (parse : string -> option Z) : Exit + Z :=
  if (flagv =? dflt) && negb (getenv var ==s "") then
    match parse (getenv var) with
    | Some v => inr v
    | None => inl (EnvInvalid var (getenv var))
    end
  else inr flagv.

(** main.go lines 43-74, in order. *)
Definition resolve (fl : Flags) (getenv : string -> string) : Exit + Flags :=
  let? mbs := from_env (maxBodySize fl) DefaultMaxBodySize getenv "MAX_BODY_SIZE"
                (fun s => parse_ok (ParseInt s)) in
  let? md := from_env (maxDuration fl) DefaultMaxDuration getenv "MAX_DURATION" ParseDuration in
  let? p := from_env (port fl) defaultPort getenv "PORT" (fun s => parse_ok (Atoi s)) in
  let useRealHostnameEnv := getenv "USE_REAL_HOSTNAME" in
  let real := if (useRealHostnameEnv ==s "1") || (useRealHostnameEnv ==s "true")
              then true else useRealHostname fl in
  inr (mkFlags p mbs md real).

(** The option list of main.go lines 89-101; [hostnameLookup] is the
    result of [os.Hostname()]. *)
Definition options (fl : Flags) (hostnameLookup : option string) : Exit + list OptionSpec :=
  let opts := [OptMaxBodySize (maxBodySize fl); OptMaxDuration (maxDuration fl);
               OptObserver (Some StdLogObserver)] in
  if useRealHostname fl then
    match hostnameLookup with
    | Some hostname => inr (opts ++ [OptHostname hostname])
    | None => inl HostnameFailed
    end
  else inr opts.

(** [shutdownTimeout := maxDuration + 1*time.Second] (line 122), an
    [int64] addition. *)
Definition shutdownTimeout (md : Z) : Z := add64 md Second.

(** main.go lines 32-122 up to [ListenAndServe]. *)
Definition startup (fl : Flags) (getenv : string -> string) (hostnameLookup : option string) :
    Exit + Setup :=
  let? r := resolve fl getenv in
  let? opts := options r hostnameLookup in
  let hi := New (map option_of_spec opts) in
  inr (mkSetup hi (JoinHostPort "0.0.0.0" (Itoa (port r))) (shutdownTimeout (maxDuration r))).

End WithParseDuration.

(** ** Lemmas *)

Lemma from_env_flag flagv dflt getenv var parse :
  flagv <> dflt -> from_env flagv dflt getenv var parse = inr flagv.
Proof. intros H. unfold from_env. by replace (flagv =? dflt) with false by lia. Qed.

Lemma from_env_env flagv dflt getenv var parse v :
  flagv = dflt -> getenv var <> "" -> parse (getenv var) = Some v ->
  from_env flagv dflt getenv var parse = inr v.
Proof.
  intros -> Hs Hp. unfold from_env. rewrite Z.eqb_refl, str_eqb_neq by done. by rewrite Hp.
Qed.

Lemma from_env_err flagv dflt getenv var parse :
  flagv = dflt -> getenv var <> "" -> parse (getenv var) = None ->
  from_env flagv dflt getenv var parse = inl (EnvInvalid var (getenv var)).
Proof.
  intros -> Hs Hp. unfold from_env. rewrite Z.eqb_refl, str_eqb_neq by done. by rewrite Hp.
Qed.

Lemma from_env_unset flagv dflt getenv var parse :
  getenv var = "" -> from_env flagv dflt getenv var parse = inr flagv.
Proof. intros Hs. unfold from_env. by rewrite Hs, andb_false_r. Qed.

(** What a successful [resolve] consists of. *)
Lemma resolve_ok PD fl getenv r :
  resolve PD fl getenv = inr r ->
  from_env (maxBodySize fl) DefaultMaxBodySize getenv "MAX_BODY_SIZE"
    (fun s => parse_ok (ParseInt s)) = inr (maxBodySize r) /\
  from_env (maxDuration fl) DefaultMaxDuration getenv "MAX_DURATION" PD = inr (maxDuration r) /\
  from_env (port fl) defaultPort getenv "PORT" (fun s => parse_ok (Atoi s)) = inr (port r) /\
  useRealHostname r =
    (if (getenv "USE_REAL_HOSTNAME" ==s "1") || (getenv "USE_REAL_HOSTNAME" ==s "true")
     then true else useRealHostname fl).
Proof.
  unfold resolve, err_bind.
  destruct (from_env (maxBodySize fl) _ _ _ _) as [|mbs]; [done|].
  destruct (from_env (maxDuration fl) _ _ _ _) as [|md]; [done|].
  destruct (from_env (port fl) _ _ _ _) as [|p]; [done|].
  intros [= <-]. done.
Qed.

(** What a successful [startup] consists of. *)
Lemma startup_ok PD fl getenv hl st :
  startup PD fl getenv hl = inr st ->
  exists r opts, resolve PD fl getenv = inr r /\ options r hl = inr opts /\
    st = mkSetup (New (map option_of_spec opts)) (JoinHostPort "0.0.0.0" (Itoa (port r)))
                 (shutdownTimeout (maxDuration r)).
Proof.
  unfold startup, err_bind.
  destruct (resolve PD fl getenv) as [|r]; [done|].
  destruct (options r hl) as [|opts] eqn:Ho; [done|]. intros [= <-]. by exists r, opts.
Qed.

(** ** Theorems *)

(** C23: a flag that differs from its built-in default is used as given:
    the environment variable of the same setting is not read. *)
Theorem flags_take_precedence PD (fl : Flags) (getenv : string -> string) (r : Flags) :
  resolve PD fl getenv = inr r ->
  (maxBodySize fl <> DefaultMaxBodySize -> maxBodySize r = maxBodySize fl) /\
  (maxDuration fl <> DefaultMaxDuration -> maxDuration r = maxDuration fl) /\
  (port fl <> defaultPort -> port r = port fl).
Proof.
  intros (Hb & Hd & Hp & _)%resolve_ok.
  split; [|split]; intros Hne;
    [rewrite from_env_flag in Hb | rewrite from_env_flag in Hd | rewrite from_env_flag in Hp];
    congruence.
Qed.

(** C24: a flag that holds its default value, even one given explicitly
    on the command line, is replaced by a non-empty environment value;
    for PORT, [Atoi] accepts exactly what [ParseInt] accepts. *)
Theorem default_valued_flag_overridden PD (fl : Flags) (getenv : string -> string) (r : Flags)
    (v : Z) :
  port fl = defaultPort -> getenv "PORT" <> "" -> ParseInt (getenv "PORT") = inr v ->
  resolve PD fl getenv = inr r -> port r = v.
Proof.
  intros Hf Hs Hv (_ & _ & Hp & _)%resolve_ok.
  rewrite (from_env_env _ _ _ _ _ v Hf Hs) in Hp; [congruence|].
  by rewrite Atoi_ParseInt, Hv.
Qed.

(** C25: an invalid MAX_BODY_SIZE value (with the flag at its default)
    ends the program with exit status 1 before anything is built. *)
Theorem invalid_env_exits PD (fl : Flags) (getenv : string -> string) hl (e : NumError) :
  maxBodySize fl = DefaultMaxBodySize -> getenv "MAX_BODY_SIZE" <> "" ->
  ParseInt (getenv "MAX_BODY_SIZE") = inl e ->
  startup PD fl getenv hl = inl (EnvInvalid "MAX_BODY_SIZE" (getenv "MAX_BODY_SIZE")) /\
  exit_status (EnvInvalid "MAX_BODY_SIZE" (getenv "MAX_BODY_SIZE")) = 1.
Proof.
  intros Hf Hs He. split; [|done]. unfold startup, resolve.
  by rewrite (from_env_err _ _ _ _ _ Hf Hs) by (by rewrite He).
Qed.

(** C26: USE_REAL_HOSTNAME set to "1" or "true" turns the real host name
    on whatever the flag says, and a failed host name lookup then ends
    the program. *)
Theorem real_hostname_env_wins PD (fl : Flags) (getenv : string -> string) (r : Flags) :
  getenv "USE_REAL_HOSTNAME" = "1" \/ getenv "USE_REAL_HOSTNAME" = "true" ->
  resolve PD fl getenv = inr r ->
  useRealHostname r = true /\ startup PD fl getenv None = inl HostnameFailed.
Proof.
  intros Henv Hr. pose proof Hr as (_ & _ & _ & Hu)%resolve_ok.
  assert (Hreal : useRealHostname r = true)
    by (rewrite Hu; destruct Henv as [-> | ->]; reflexivity).
  split; [exact Hreal|]. unfold startup. rewrite Hr. simpl.
  unfold options. by rewrite Hreal.
Qed.

(** C27: the server [main] builds has the resolved body size and
    duration, the standard log observer, the default drip parameters and
    the real host name exactly when it was asked for; it listens on
    0.0.0.0 at the resolved port and shuts down with the timeout
    [maxDuration + 1s]. *)
Theorem startup_setup PD (fl : Flags) (getenv : string -> string) hl (st : Setup) :
  startup PD fl getenv hl = inr st ->
  exists r, resolve PD fl getenv = inr r /\
    setup_cfg st =
      {| MaxBodySize := maxBodySize r; MaxDuration := maxDuration r;
         Observer_ := Some StdLogObserver; DefaultParams_ := DefaultDefaultParams;
         hostname := match useRealHostname r, hl with
                     | true, Some h => h
                     | _, _ => DefaultHostname
                     end |} /\
    setup_listenAddr st = "0.0.0.0:" +s Itoa (port r) /\
    setup_shutdownTimeout st = shutdownTimeout (maxDuration r).
Proof.
  intros (r & opts & Hr & Ho & ->)%startup_ok. exists r. split; [done|].
  split; [|done]. unfold New. rewrite fold_options. unfold options in Ho.
  destruct (useRealHostname r), hl as [h|]; simplify_eq; reflexivity.
Qed.

(** C28: the shutdown grace period [maxDuration + 1s] is an [int64] sum:
    it is not positive exactly when [maxDuration] is at most -1s or within
    1s of the largest duration, where the addition wraps around. *)
Theorem shutdownTimeout_nonpositive (md : Z) :
  in_int64 md ->
  shutdownTimeout md <= 0 <-> md <= - Second \/ int64_max - Second < md.
Proof.
  intros Hmd. unfold shutdownTimeout, Second.
  destruct (Z.le_gt_cases (md + 1000000000) int64_max) as [Hle|Hgt].
  - rewrite add64_no_overflow by (unfold in_int64, int64_min, int64_max in *; lia).
    unfold int64_max in *. lia.
  - rewrite add64_overflow by (unfold in_int64, int64_min, int64_max in *; lia).
    unfold in_int64, int64_min, int64_max in *. lia.
Qed.

(** ** Witnesses *)

Definition env_of (kvs : list (string * string)) (var : string) : string :=
  match List.find (fun kv => kv.1 ==s var) kvs with Some kv => kv.2 | None => "" end.

(** A duration parser that only knows whole seconds, enough for the
    witnesses. *)
Definition seconds_parser (s : string) : option Z :=
  match s with
  | String c rest => if Ascii.eqb c "5"%char && (rest ==s "s") then Some (5 * Second) else None
  | EmptyString => None
  end.

Definition default_flags : Flags :=
  mkFlags defaultPort DefaultMaxBodySize DefaultMaxDuration false.

Lemma flags_take_precedence_witness :
  resolve seconds_parser (mkFlags 9090 2048 DefaultMaxDuration false)
    (env_of [("PORT", "7000"); ("MAX_BODY_SIZE", "1")]) =
    inr (mkFlags 9090 2048 DefaultMaxDuration false) /\
  port (mkFlags 9090 2048 DefaultMaxDuration false) = 9090.
Proof.
  split; [reflexivity|].
  destruct (flags_take_precedence seconds_parser (mkFlags 9090 2048 DefaultMaxDuration false)
    (env_of [("PORT", "7000"); ("MAX_BODY_SIZE", "1")]) (mkFlags 9090 2048 DefaultMaxDuration false)
    eq_refl) as (_ & _ & Hp).
  apply Hp. cbn. unfold defaultPort. lia.
Defined.

Lemma default_valued_flag_overridden_witness :
  port (mkFlags 9000 DefaultMaxBodySize DefaultMaxDuration false) = 9000.
Proof.
  apply (default_valued_flag_overridden seconds_parser default_flags (env_of [("PORT", "9000")])
    (mkFlags 9000 DefaultMaxBodySize DefaultMaxDuration false) 9000);
    [reflexivity | discriminate | reflexivity | reflexivity].
Defined.

Lemma invalid_env_exits_witness :
  startup seconds_parser default_flags (env_of [("MAX_BODY_SIZE", "1MB")]) None =
    inl (EnvInvalid "MAX_BODY_SIZE" "1MB") /\
  exit_status (EnvInvalid "MAX_BODY_SIZE" "1MB") = 1.
Proof.
  apply (invalid_env_exits seconds_parser default_flags (env_of [("MAX_BODY_SIZE", "1MB")]) None
    ErrSyntax); [reflexivity | discriminate | reflexivity].
Defined.

Lemma real_hostname_env_wins_witness :
  useRealHostname (mkFlags defaultPort DefaultMaxBodySize DefaultMaxDuration true) = true /\
  startup seconds_parser default_flags (env_of [("USE_REAL_HOSTNAME", "true")]) None =
    inl HostnameFailed.
Proof.
  apply (real_hostname_env_wins seconds_parser default_flags (env_of [("USE_REAL_HOSTNAME", "true")]));
    [by right | reflexivity].
Defined.

Lemma startup_setup_witness :
  exists r, resolve seconds_parser default_flags (env_of [("MAX_DURATION", "5s")]) = inr r /\
    setup_cfg (mkSetup (New [WithMaxBodySize DefaultMaxBodySize; WithMaxDuration (5 * Second);
                             WithObserver (Some StdLogObserver)])
                       "0.0.0.0:8080" (shutdownTimeout (5 * Second))) =
      {| MaxBodySize := maxBodySize r; MaxDuration := maxDuration r;
         Observer_ := Some StdLogObserver; DefaultParams_ := DefaultDefaultParams;
         hostname := match useRealHostname r, @None string with
                     | true, Some h => h
                     | _, _ => DefaultHostname
                     end |} /\
    setup_listenAddr (mkSetup (New [WithMaxBodySize DefaultMaxBodySize; WithMaxDuration (5 * Second);
                             WithObserver (Some StdLogObserver)])
                       "0.0.0.0:8080" (shutdownTimeout (5 * Second))) = "0.0.0.0:" +s Itoa (port r) /\
    setup_shutdownTimeout (mkSetup (New [WithMaxBodySize DefaultMaxBodySize; WithMaxDuration (5 * Second);
                             WithObserver (Some StdLogObserver)])
                       "0.0.0.0:8080" (shutdownTimeout (5 * Second))) = shutdownTimeout (maxDuration r).
Proof. apply startup_setup. vm_compute. reflexivity. Defined.

Lemma shutdownTimeout_nonpositive_witness :
  shutdownTimeout int64_max = - 2 ^ 63 + Second - 1 /\
  (shutdownTimeout int64_max <= 0 <-> int64_max <= - Second \/ int64_max - Second < int64_max).
Proof.
  split; [vm_compute; reflexivity|].
  apply shutdownTimeout_nonpositive. unfold in_int64, int64_min, int64_max. lia.
Defined.

End Startup.
