(* ===== verification/Duration.v ===== *)
(** * Duration: Go's [time.ParseDuration], as [main] uses it

    [main] (src/cmd/httpbin/main.go line 53) reads [MAX_DURATION] with
    [time.ParseDuration]; [Startup] leaves that function a variable.  The
    module [Duration] writes it from its Go definition ([time/format.go],
    Go 1.21): [leadingInt], [leadingFraction], [unitMap] and the loop of
    [ParseDuration], with [uint64] arithmetic written out and the
    [float64] computation of a fractional part done in binary64 by the
    Standard Library's [SpecFloat] (round to nearest even, as Go's
    conversions and operations do).  It then instantiates [Startup] with
    it. *)

From Stdlib Require Import Floats.SpecFloat.
From S2P Require Import Prelude GoLib Config Startup.

Module Duration.

Import Config Startup.

Local Open Scope Z_scope.

(** ** [float64] *)

Definition prec : Z := 53.
Definition emax : Z := 1024.

(** [float64(x)] of an integer: rounded to nearest even. *)
Definition f64_of_Z (z : Z) : spec_float := binary_normalize prec emax z 0 false.
Definition f64_mul : spec_float -> spec_float -> spec_float := SFmul prec emax.
Definition f64_div : spec_float -> spec_float -> spec_float := SFdiv prec emax.

(** [uint64(x)] of a non-negative [float64] below [2^64]: truncation. *)
Definition uint64_of_f64 (x : spec_float) : Z :=
  match x with
  | S754_finite false m e => if 0 <=? e then Z.pos m * 2 ^ e else Z.pos m / 2 ^ (- e)
  | _ => 0
  end.

(** ** The pieces of [ParseDuration] *)

Inductive DurationError :=
| ErrInvalidDuration            (* "time: invalid duration ..." *)
| ErrMissingUnit                (* "time: missing unit in duration ..." *)
| ErrUnknownUnit (u : string).  (* "time: unknown unit ... in duration ..." *)

(** [leadingInt]: the leading digits as a [uint64]; [None] is
    [errLeadingInt] (the value would pass [1<<63]). *)
Fixpoint leadingInt (s : string) (x : Z) : option (Z * string) :=
  match s with
  | String c s' =>
      if negb (is_digit c) then Some (x, s)
      else if x >? 2 ^ 63 / 10 then None
      else let x' := x * 10 + digit_val c in
           if x' >? 2 ^ 63 then None else leadingInt s' x'
  | EmptyString => Some (x, s)
  end.

(** [leadingFraction]: the leading digits after the point; past
    [2^63] it stops accumulating precision (the flag [overflow]) but still
    consumes the digits.  [scale] is multiplied by 10 in [float64]. *)
Fixpoint leadingFraction (s : string) (x : Z) (scale : spec_float) (overflow : bool)
    : Z * spec_float * string :=
  match s with
  | String c s' =>
      if negb (is_digit c) then (x, scale, s)
      else if overflow then leadingFraction s' x scale true
      else if x >? (2 ^ 63 - 1) / 10 then leadingFraction s' x scale true
      else let y := x * 10 + digit_val c in
           if y >? 2 ^ 63 then leadingFraction s' x scale true
           else leadingFraction s' y (f64_mul scale (f64_of_Z 10)) false
  | EmptyString => (x, scale, s)
  end.

Definition is_dot (c : ascii) : bool := Ascii.eqb c "."%char.

(** The unit: the longest prefix with no ['.'] and no digit. *)
Fixpoint take_unit (s : string) : string * string :=
  match s with
  | String c s' =>
      if is_dot c || is_digit c then (EmptyString, s)
      else let '(u, r) := take_unit s' in (String c u, r)
  | EmptyString => (EmptyString, EmptyString)
  end.

(** The two spellings of "µs": U+00B5 and U+03BC, in UTF-8. *)
Definition micro_sign_s : string := String (ascii_of_nat 194) (String (ascii_of_nat 181) "s").
Definition mu_s : string := String (ascii_of_nat 206) (String (ascii_of_nat 188) "s").

(** [unitMap]. *)
Definition unitMap (u : string) : option Z :=
  if u ==s "ns" then Some 1
  else if (u ==s "us") || (u ==s micro_sign_s) || (u ==s mu_s) then Some 1000
  else if u ==s "ms" then Some 1000000
  else if u ==s "s" then Some Second
  else if u ==s "m" then Some (60 * Second)
  else if u ==s "h" then Some (3600 * Second)
  else None.

(** The optional fraction after a point: its value, its [float64]
    scale, the rest, and whether digits were consumed after the point. *)
Definition fraction_part (s1 : string) : Z * spec_float * string * bool :=
  match s1 with
  | String c1 s1' =>
      if is_dot c1 then
        let '(f, scale, s2) := leadingFraction s1' 0 (f64_of_Z 1) false in
        (f, scale, s2, negb (String.length s2 =? String.length s1')%nat)
      else (0, f64_of_Z 1, s1, false)
  | EmptyString => (0, f64_of_Z 1, s1, false)
  end.

(** One component (digits, an optional fraction, a unit) of the loop of
    [ParseDuration]: its value in nanoseconds and the rest. *)
Definition component (s : string) : DurationError + (Z * string) :=
  match s with
  | EmptyString => inl ErrInvalidDuration
  | String c _ =>
      if negb (is_dot c || is_digit c) then inl ErrInvalidDuration else
      match leadingInt s 0 with
      | None => inl ErrInvalidDuration
      | Some (v, s1) =>
          let pre := negb (String.length s1 =? String.length s)%nat in
          let '(f, scale, s2, post) := fraction_part s1 in
          if negb (pre || post) then inl ErrInvalidDuration else
          let '(u, s3) := take_unit s2 in
          if u ==s "" then inl ErrMissingUnit else
          match unitMap u with
          | None => inl (ErrUnknownUnit u)
          | Some unit =>
              if v >? 2 ^ 63 / unit then inl ErrInvalidDuration else
              let v := v * unit in
              let v := if f >? 0
                       then v + uint64_of_f64 (f64_mul (f64_of_Z f) (f64_div (f64_of_Z unit) scale))
                       else v in
              if v >? 2 ^ 63 then inl ErrInvalidDuration else inr (v, s3)
          end
      end
  end.

(** The loop [for s != ""]: [d += v] is a [uint64] addition, checked
    against [1<<63] after it.  Each round consumes at least the unit, so
    [String.length s] rounds are enough ([parse_loop_fuel]). *)
Fixpoint parse_loop (fuel : nat) (s : string) (d : Z) : DurationError + Z :=
  match s with
  | EmptyString => inr d
  | _ =>
      match fuel with
      | O => inl ErrInvalidDuration
      | S fuel' =>
          match component s with
          | inl e => inl e
          | inr (v, s') =>
              let d := (d + v) mod 2 ^ 64 in
              if d >? 2 ^ 63 then inl ErrInvalidDuration else parse_loop fuel' s' d
          end
      end
  end.

(** An optional sign: whether it is '-', and the rest. *)
Definition consume_sign (orig : string) : bool * string :=
  match orig with
  | String c s' => if Ascii.eqb c "-"%char then (true, s')
                   else if Ascii.eqb c "+"%char then (false, s') else (false, orig)
  | EmptyString => (false, orig)
  end.

(** [time.ParseDuration]. *)
Definition ParseDuration (orig : string) : DurationError + Z :=
  let '(neg, s) := consume_sign orig in
  if s ==s "0" then inr 0
  else if s ==s "" then inl ErrInvalidDuration
  else match parse_loop (String.length s) s 0 with
       | inl e => inl e
       | inr d => if neg then inr (wrap64 (- d))
                  else if d >? 2 ^ 63 - 1 then inl ErrInvalidDuration else inr d
       end.

(** The [Startup] of [main] with Go's [ParseDuration]. *)
Definition ParseDuration_opt (s : string) : option Z := parse_ok (ParseDuration s).

Definition go_startup : Flags -> (string -> string) -> option string -> Exit + Setup :=
  startup ParseDuration_opt.

(** ** Lemmas *)

Lemma leadingInt_len s x v r : leadingInt s x = Some (v, r) -> (String.length r <= String.length s)%nat.
Proof.
  revert x. induction s as [|c s IH]; intros x; simpl; [by intros [= _ <-]|].
  destruct (is_digit c); simpl; [|intros [= _ <-]; simpl; lia].
  destruct (x >? 2 ^ 63 / 10); [done|].
  destruct (x * 10 + digit_val c >? 2 ^ 63); [done|]. intros H. specialize (IH _ H). lia.
Qed.

Lemma leadingFraction_len s x sc o :
  (String.length (snd (leadingFraction s x sc o)) <= String.length s)%nat.
Proof.
  revert x sc o. induction s as [|c s IH]; intros x sc o; simpl; [lia|].
  destruct (is_digit c); simpl; [|lia].
  repeat case_match; simpl; (etransitivity; [apply IH | lia]).
Qed.

Lemma take_unit_len s :
  (String.length (fst (take_unit s)) + String.length (snd (take_unit s)) = String.length s)%nat.
Proof.
  induction s as [|c s IH]; simpl; [done|].
  destruct (is_dot c || is_digit c); simpl; [done|].
  destruct (take_unit s) as [u r]; simpl in *. lia.
Qed.

(** Each component consumes at least its unit. *)
Lemma component_len s v r : component s = inr (v, r) -> (String.length r < String.length s)%nat.
Proof.
  unfold component. destruct s as [|c s0]; [done|].
  destruct (negb (is_dot c || is_digit c)); [done|].
  destruct (leadingInt (String c s0) 0) as [[v1 s1]|] eqn:Hl; [|done].
  apply leadingInt_len in Hl.
  assert (Hs2 : forall s2 f sc post, fraction_part s1 = (f, sc, s2, post) ->
     (String.length s2 <= String.length s1)%nat).
  { intros s2 f sc post. unfold fraction_part. destruct s1 as [|c1 s1']; [by intros [= _ _ <- _]|].
    destruct (is_dot c1); [|by intros [= _ _ <- _]].
    pose proof (leadingFraction_len s1' 0 (f64_of_Z 1) false) as Hf.
    destruct (leadingFraction s1' 0 (f64_of_Z 1) false) as [[f' sc'] s2']. simpl in *.
    intros [= _ _ <- _]. lia. }
  destruct (fraction_part s1) as [[[f sc] s2] post] eqn:Hm.
  specialize (Hs2 s2 f sc post eq_refl).
  destruct (negb _); [done|].
  pose proof (take_unit_len s2) as Ht. destruct (take_unit s2) as [u s3]; simpl in Ht.
  destruct (u ==s "") eqn:Hu; [done|].
  assert (String.length u <> 0)%nat by (destruct u; done).
  destruct (unitMap u); [|done]. repeat case_match; intros; simplify_eq; lia.
Qed.

(** termination.  The loop of [ParseDuration] consumes at least one
    byte per round, so every fuel at least the length of its input gives
    the same result: [String.length s] rounds compute what the unbounded
    Go loop computes. *)
Theorem parse_loop_fuel n m s d :
  (String.length s <= n)%nat -> (String.length s <= m)%nat -> parse_loop n s d = parse_loop m s d.
Proof.
  revert m s d. induction n as [|n IH]; intros m s d Hn Hm.
  - destruct s; [by destruct m | simpl in Hn; lia].
  - destruct s as [|c s0]; [by destruct m|]. destruct m as [|m]; [simpl in Hm; lia|].
    cbn [parse_loop]. destruct (component (String c s0)) as [e|[v r]] eqn:Hc; [done|].
    apply component_len in Hc. case_match; [done|]. apply IH; lia.
Qed.

(** Where [leadingInt] stops, and where a unit ends. *)
Definition int_stop (r : string) : bool :=
  match r with EmptyString => true | String c _ => negb (is_digit c) end.
Definition unit_stop (r : string) : bool :=
  match r with EmptyString => true | String c _ => is_dot c || is_digit c end.

Lemma leadingInt_digits w r x :
  all_digits w = true -> (0 <= x) -> dec_val w x <= 2 ^ 63 -> int_stop r = true ->
  leadingInt (w +s r) x = Some (dec_val w x, r).
Proof.
  revert x. induction w as [|c w IH]; intros x Hd Hx Hb Hr; simpl in *.
  - destruct r as [|c r]; simpl in *; [done|]. apply negb_true_iff in Hr. by rewrite Hr.
  - apply andb_prop in Hd as [Hc Hw]. pose proof (digit_val_range c Hc).
    pose proof (dec_val_ge w (x * 10 + digit_val c) ltac:(lia) Hw).
    rewrite Hc. cbn [negb].
    change (2 ^ 63 / 10) with 922337203685477580.
    replace (x >? 922337203685477580) with false by lia.
    replace (x * 10 + digit_val c >? 2 ^ 63) with false by lia.
    apply IH; try done; lia.
Qed.

Lemma take_unit_stop r : unit_stop r = true -> take_unit r = (EmptyString, r).
Proof. destruct r as [|c r]; [done|]. simpl. intros Hr. by rewrite Hr. Qed.

(** A component written as digits followed by [ns]. *)
Lemma component_ns w r :
  w <> EmptyString -> all_digits w = true -> dec_val w 0 <= 2 ^ 63 -> unit_stop r = true ->
  component (w +s "ns" +s r) = inr (dec_val w 0, r).
Proof.
  intros Hne Hd Hb Hr. destruct w as [|c w']; [done|].
  pose proof Hd as Hd'. simpl in Hd'. apply andb_prop in Hd' as [Hc _].
  unfold component. cbn [String.append]. rewrite Hc, orb_true_r. cbn [negb].
  change (String c (w' +s String "n" (String "s" r))) with (String c w' +s "ns" +s r).
  rewrite leadingInt_digits by done.
  replace (String.length ("ns" +s r) =? String.length (String c w' +s "ns" +s r))%nat with false
    by (symmetry; apply Nat.eqb_neq; rewrite !str_length_app; simpl; lia).
  revert Hb. generalize (dec_val (String c w') 0). intros v Hb.
  cbn. change (is_digit "n") with false. change (is_digit "s") with false. cbn.
  rewrite take_unit_stop by done. cbn.
  replace (v >? 2 ^ 63 / 1) with false by (rewrite Z.div_1_r; lia).
  replace (v * 1 >? 2 ^ 63) with false by lia.
  by rewrite Z.mul_1_r.
Qed.

Lemma parse_loop_S n s d v r :
  component s = inr (v, r) ->
  parse_loop (S n) s d =
    if (d + v) mod 2 ^ 64 >? 2 ^ 63 then inl ErrInvalidDuration
    else parse_loop n r ((d + v) mod 2 ^ 64).
Proof. destruct s; [done|]. intros H. cbn [parse_loop]. by rewrite H. Qed.

Lemma parse_loop_nonneg n s d0 d : 0 <= d0 -> parse_loop n s d0 = inr d -> 0 <= d.
Proof.
  revert s d0. induction n as [|n IH]; intros s d0 H0 H; destruct s as [|c s]; cbn [parse_loop] in H;
    try (injection H as <-; lia); try discriminate.
  destruct (component (String c s)) as [|[v r]]; [discriminate|].
  destruct (_ >? _); [discriminate|]. eapply IH; [|exact H]. apply Z.mod_pos_bound; lia.
Qed.

Lemma str_neq_len (s t : string) : String.length s <> String.length t -> (s ==s t) = false.
Proof. intros H. apply String.eqb_neq. intros ->. done. Qed.

(** Digits and [ns]: one round of the loop. *)
Lemma parse_digits_ns w :
  w <> EmptyString -> all_digits w = true -> dec_val w 0 <= 2 ^ 63 ->
  parse_loop (String.length (w +s "ns")) (w +s "ns") 0 = inr (dec_val w 0).
Proof.
  intros Hne Hd Hb.
  replace (String.length (w +s "ns")) with (S (S (String.length w))) by (rewrite str_length_app; simpl; lia).
  rewrite (parse_loop_S _ _ _ (dec_val w 0) EmptyString);
    [|rewrite <- (str_app_nil_r (w +s "ns")), str_app_assoc; by apply component_ns].
  pose proof (dec_val_ge w 0 ltac:(lia) Hd).
  rewrite Z.add_0_l, Z.mod_small by lia. replace (dec_val w 0 >? 2 ^ 63) with false by lia.
  by destruct (String.length w).
Qed.

(** round trip.  [ParseDuration] reads back every [int64] number of
    nanoseconds written as [Itoa d] followed by the unit [ns], including
    [-2^63], whose magnitude only [uint64] holds. *)
Theorem ParseDuration_ns_roundtrip d : in_int64 d -> ParseDuration (Itoa d +s "ns") = inr d.
Proof.
  intros Hd. unfold in_int64, int64_min, int64_max in Hd.
  destruct (Itoa_shape d) as (w & Hne & Hw & Hv & ->).
  assert (Hl : forall t, String.length (w +s "ns") <> String.length t -> ((w +s "ns") ==s t) = false)
    by (intros; by apply str_neq_len).
  assert (H0 : ((w +s "ns") ==s "0") = false)
    by (apply Hl; rewrite str_length_app; destruct w; simpl; [done | lia]).
  assert (H1 : ((w +s "ns") ==s "") = false) by (apply Hl; rewrite str_length_app; simpl; lia).
  destruct (d <? 0) eqn:Hn.
  - apply Z.ltb_lt in Hn. unfold ParseDuration, consume_sign. cbn [String.append].
    change (Ascii.eqb "-" "-") with true. cbv iota. rewrite H0, H1.
    rewrite parse_digits_ns by first [done | lia]. rewrite Hv, wrap64_id; [f_equal; lia|].
    unfold in_int64, int64_min, int64_max. lia.
  - apply Z.ltb_ge in Hn. destruct w as [|c w']; [done|].
    pose proof Hw as Hw'. simpl in Hw'. apply andb_prop in Hw' as [Hc _].
    destruct (digit_not_sign c Hc) as [Hm Hp].
    unfold ParseDuration, consume_sign. cbn [String.append]. rewrite Hm, Hp. cbv iota.
    change (String c (w' +s "ns")) with (String c w' +s "ns"). rewrite H0, H1.
    rewrite parse_digits_ns by first [done | lia]. rewrite Hv.
    replace (Z.abs d >? 2 ^ 63 - 1) with false by lia. f_equal. lia.
Qed.

(** [ParseDuration] on a string that starts with a digit and is not "0". *)
Lemma ParseDuration_unsigned c s' :
  is_digit c = true -> (String c s' ==s "0") = false ->
  ParseDuration (String c s') =
    match parse_loop (String.length (String c s')) (String c s') 0 with
    | inl e => inl e
    | inr d => if d >? 2 ^ 63 - 1 then inl ErrInvalidDuration else inr d
    end.
Proof.
  intros Hc H0. destruct (digit_not_sign c Hc) as [Hm Hp].
  unfold ParseDuration, consume_sign. rewrite Hm, Hp. cbv iota. by rewrite H0.
Qed.

(** The digits of a non-negative [Itoa]. *)
Lemma Itoa_nonneg z :
  0 <= z -> exists c w', Itoa z = String c w' /\ is_digit c = true /\
    all_digits (String c w') = true /\ dec_val (String c w') 0 = z.
Proof.
  intros Hz. destruct (Itoa_shape z) as (w & Hne & Hw & Hv & ->).
  replace (z <? 0) with false by lia. destruct w as [|c w']; [done|].
  exists c, w'. pose proof Hw as Hw'. simpl in Hw'. apply andb_prop in Hw' as [Hc _].
  repeat split; try done. lia.
Qed.

(** the [uint64] sum of the loop.  For two components [a]ns and [b]ns
    with [a, b <= 2^63] (what [leadingInt] accepts), [ParseDuration]
    returns their sum modulo [2^64] when that fits an [int64], an error
    otherwise: [d += v] wraps around, so [2^63 + 2^63] is read as 0. *)
Theorem ParseDuration_sum a b :
  0 <= a <= 2 ^ 63 -> 0 <= b <= 2 ^ 63 ->
  ParseDuration (Itoa a +s "ns" +s Itoa b +s "ns") =
    if (a + b) mod 2 ^ 64 >? 2 ^ 63 - 1 then inl ErrInvalidDuration else inr ((a + b) mod 2 ^ 64).
Proof.
  intros Ha Hb.
  destruct (Itoa_nonneg a ltac:(lia)) as (c1 & w1 & -> & Hc1 & Hd1 & Hv1).
  destruct (Itoa_nonneg b ltac:(lia)) as (c2 & w2 & -> & Hc2 & Hd2 & Hv2).
  change (String c1 w1 +s "ns" +s String c2 w2 +s "ns")
    with (String c1 (w1 +s "ns" +s String c2 w2 +s "ns")).
  rewrite ParseDuration_unsigned; [|done|].
  2:{ apply str_neq_len. simpl. rewrite !str_length_app. simpl. lia. }
  change (String c1 (w1 +s "ns" +s String c2 w2 +s "ns"))
    with (String c1 w1 +s "ns" +s (String c2 w2 +s "ns")).
  remember (String.length (String c1 w1 +s "ns" +s (String c2 w2 +s "ns"))) as n eqn:Hn.
  rewrite !str_length_app in Hn. simpl in Hn.
  destruct n as [|n]; [lia|].
  rewrite (parse_loop_S _ _ _ a (String c2 w2 +s "ns")); [|rewrite <- Hv1; apply component_ns; [done | done | lia | simpl; by rewrite Hc2, orb_true_r]].
  rewrite Z.add_0_l, Z.mod_small by lia. replace (a >? 2 ^ 63) with false by lia.
  destruct n as [|n]; [lia|].
  rewrite (parse_loop_S _ _ _ b EmptyString);
    [|rewrite <- (str_app_nil_r (String c2 w2 +s "ns")), str_app_assoc, <- Hv2; apply component_ns; [done | done | lia | done]].
  destruct ((a + b) mod 2 ^ 64 >? 2 ^ 63) eqn:Hbig.
  - replace ((a + b) mod 2 ^ 64 >? 2 ^ 63 - 1) with true by lia. done.
  - by destruct n.
Qed.

(** type.  Every duration [ParseDuration] returns is an [int64]
    ([time.Duration]): the loop keeps [d] in [[0, 2^63]], the sign wraps
    like Go's [-Duration(d)], and a positive result is checked against
    [1<<63 - 1]. *)
Theorem ParseDuration_int64 s d : ParseDuration s = inr d -> in_int64 d.
Proof.
  unfold ParseDuration, in_int64, int64_min, int64_max.
  destruct (consume_sign s) as [neg s'].
  destruct (s' ==s "0"); [intros [= <-]; lia|]. destruct (s' ==s ""); [done|].
  destruct (parse_loop _ s' 0) as [e|d0] eqn:Hl; [done|].
  apply parse_loop_nonneg in Hl; [|lia].
  destruct neg.
  - intros [= <-]. apply wrap64_range.
  - destruct (d0 >? 2 ^ 63 - 1) eqn:Hd; [done|]. intros [= <-]. lia.
Qed.

(** C29: [main] accepts a wrapped [MAX_DURATION].  With [-max-duration]
    at its default and neither [MAX_BODY_SIZE] nor [PORT] set, a
    [MAX_DURATION] of two nanosecond components [a] and [b] (each at most
    [2^63]) makes the block of main.go lines 52-58 exit with an invalid
    value only when [(a + b) mod 2^64] exceeds the largest [int64];
    otherwise [main] goes on with that value as its maximum duration: a
    sum of [2^64] ns is accepted as 0, with no error. *)
Theorem startup_max_duration_wraps fl getenv a b :
  0 <= a <= 2 ^ 63 -> 0 <= b <= 2 ^ 63 -> maxDuration fl = DefaultMaxDuration ->
  getenv "MAX_BODY_SIZE" = "" -> getenv "PORT" = "" ->
  getenv "MAX_DURATION" = Itoa a +s "ns" +s Itoa b +s "ns" ->
  resolve ParseDuration_opt fl getenv =
    if (a + b) mod 2 ^ 64 >? 2 ^ 63 - 1
    then inl (EnvInvalid "MAX_DURATION" (getenv "MAX_DURATION"))
    else inr (mkFlags (port fl) (maxBodySize fl) ((a + b) mod 2 ^ 64)
               (if (getenv "USE_REAL_HOSTNAME" ==s "1") || (getenv "USE_REAL_HOSTNAME" ==s "true")
                then true else useRealHostname fl)).
Proof.
  intros Ha Hb Hmd Hmbs Hport Hv. unfold resolve, err_bind.
  rewrite (from_env_unset (maxBodySize fl)) by done.
  assert (Hne : getenv "MAX_DURATION" <> "") by (rewrite Hv; by destruct (Itoa a)).
  assert (Hp : ParseDuration_opt (getenv "MAX_DURATION") =
                 if (a + b) mod 2 ^ 64 >? 2 ^ 63 - 1 then None else Some ((a + b) mod 2 ^ 64)).
  { unfold ParseDuration_opt. rewrite Hv, ParseDuration_sum by done.
    by destruct (_ >? _). }
  destruct ((a + b) mod 2 ^ 64 >? 2 ^ 63 - 1).
  - by rewrite from_env_err.
  - rewrite (from_env_env _ _ _ _ _ ((a + b) mod 2 ^ 64)) by done.
    by rewrite (from_env_unset (port fl)).
Qed.

(** ** Witnesses *)

Lemma parse_loop_fuel_witness :
  parse_loop 10 "1h30m" 0 = inr 5400000000000 /\
  parse_loop 10 "1h30m" 0 = parse_loop 5 "1h30m" 0.
Proof. split; [vm_compute; reflexivity | apply parse_loop_fuel; simpl; lia]. Defined.

Lemma ParseDuration_ns_roundtrip_witness :
  Itoa (-9223372036854775808) +s "ns" = "-9223372036854775808ns" /\
  ParseDuration (Itoa (-9223372036854775808) +s "ns") = inr (-9223372036854775808).
Proof.
  split; [vm_compute; reflexivity|].
  apply ParseDuration_ns_roundtrip. unfold in_int64, int64_min, int64_max. lia.
Defined.

Definition wrapping_max_duration : string := "9223372036854775808ns9223372036854775808ns".

(** [MAX_DURATION] set to two components of [2^63] ns: [main] starts with
    a maximum duration of 0 and a shutdown timeout of 1s. *)
Lemma startup_max_duration_wraps_witness :
  resolve ParseDuration_opt default_flags (env_of [("MAX_DURATION", wrapping_max_duration)]) =
    inr (mkFlags defaultPort DefaultMaxBodySize 0 false) /\
  exists st, go_startup default_flags (env_of [("MAX_DURATION", wrapping_max_duration)]) None = inr st /\
    MaxDuration (setup_cfg st) = 0 /\ setup_shutdownTimeout st = Second.
Proof.
  split.
  - apply (startup_max_duration_wraps default_flags (env_of [("MAX_DURATION", wrapping_max_duration)])
      (2 ^ 63) (2 ^ 63)); try lia;
      vm_compute; reflexivity.
  - eexists. split; [vm_compute; reflexivity | split; vm_compute; reflexivity].
Defined.

Lemma ParseDuration_int64_witness :
  ParseDuration "-1.5h" = inr (-5400000000000) /\ in_int64 (-5400000000000).
Proof.
  split; [vm_compute; reflexivity|].
  apply (ParseDuration_int64 "-1.5h"). vm_compute. reflexivity.
Defined.

End Duration.
