(* ===== verification/Lifecycle.v ===== *)
(** * Lifecycle: serving and graceful shutdown, [src/cmd/httpbin/main.go] lines 111-146

    After building the server, [main] starts a goroutine that waits for
    SIGINT or SIGTERM on the buffered channel [shutdownCh], logs, creates a
    context whose deadline is [maxDuration + 1s] after that moment, calls
    [server.Shutdown(ctx)] and closes [exitCh]; [main] itself prints the
    banner, runs [ListenAndServe], exits with status 1 on a listen error
    other than [ErrServerClosed], and otherwise waits for [exitCh] before
    logging "shutdown finished" and returning.

    The module [Lifecycle] models the two goroutines, the server, the two
    channels, the connections being served and a clock as a [State], and
    their interleaving as the step relation [step]: one constructor per
    atomic action of the code, plus the actions of the environment
    (signals, connections, the clock).  The [http.Server] behaviour the
    code relies on is written from [net/http/server.go] (Go 1.21):
    [ListenAndServe] checks [shuttingDown] and returns [ErrServerClosed]
    once [Shutdown] has begun, else calls [net.Listen], and [Serve] then
    tracks the listener unless [Shutdown] began meanwhile (three steps);
    [Shutdown] closes the listeners, then returns [nil] as soon as no
    connection is active, or the context's error once its deadline has
    passed.  [log.Fatalf] writes its message and then calls [os.Exit(1)]
    (two steps, between which the other goroutine runs).  The process
    ends when [main] returns or exits; the connections still active at
    that moment are cut. *)

From S2P Require Import Prelude GoLib Config Startup.

Module Lifecycle.

Import Config Startup.

Local Open Scope Z_scope.

(** The signals [signal.Notify] relays (line 113). *)
Inductive Signal := SIGINT | SIGTERM.

#[export] Instance Signal_eq_dec : EqDecision Signal.
Proof. solve_decision. Defined.

(** What the process writes to its log, in order; [serverLog] lines carry
    the time at which they are written. *)
Inductive LogEvent :=
| LogBanner                               (* info.ShowInfo, line 136 *)
| LogShutdownStarted (sig : Signal) (at_ : Z)  (* line 120 *)
| LogShutdownError                        (* line 128 *)
| LogFatalListen                          (* line 141 *)
| LogShutdownFinished.                    (* line 145 *)

(** Where [main] is: before the banner (line 136); in [ListenAndServe]
    (line 138) before its [shuttingDown] check, in [net.Listen], or with
    the listener bound and [Serve] about to track it; serving; inside
    [log.Fatalf] (line 141) with the message written and [os.Exit(1)] to
    come; waiting on [exitCh] (line 144); or gone with an exit status. *)
Inductive MainPC :=
| MShowInfo | MListen | MBind | MTrack | MServe | MFatal | MWaitExit | MExited (code : Z).

#[export] Instance MainPC_eq_dec : EqDecision MainPC.
Proof. solve_decision. Defined.

(** Where the shutdown goroutine is: receiving (line 119), about to call
    [Shutdown] (lines 126-127), inside [Shutdown] waiting for the
    connections, about to close [exitCh] (line 131), done. *)
Inductive GorPC := GRecv | GShutdown | GDrain | GClose | GDone.

#[export] Instance GorPC_eq_dec : EqDecision GorPC.
Proof. solve_decision. Defined.

(** The server: not yet listening, listening, or shut down (its
    [inShutdown] flag set and its listeners closed). *)
Inductive SrvPhase := SrvIdle | SrvListening | SrvShutdown.

#[export] Instance SrvPhase_eq_dec : EqDecision SrvPhase.
Proof. solve_decision. Defined.

Record State := mkState {
  main_pc : MainPC;
  gor_pc : GorPC;
  srv : SrvPhase;
  shutdownCh : option Signal;   (* the buffer of size 1 of line 112 *)
  exitCh_closed : bool;         (* line 116 *)
  active : nat;                 (* connections serving a request *)
  now : Z;                      (* the clock, in nanoseconds *)
  deadline : Z;                 (* the deadline of [ctx], line 123 *)
  log : list LogEvent
}.

Definition alive (s : State) : bool :=
  match main_pc s with MExited _ => false | _ => true end.

(** The state when line 111 is reached at time [t0]. *)
Definition init (t0 : Z) : State :=
  {| main_pc := MShowInfo; gor_pc := GRecv; srv := SrvIdle; shutdownCh := None;
     exitCh_closed := false; active := 0; now := t0; deadline := 0; log := [] |}.

(** Record updates, one per field the actions change. *)
Definition set_main (p : MainPC) (s : State) : State :=
  {| main_pc := p; gor_pc := gor_pc s; srv := srv s; shutdownCh := shutdownCh s;
     exitCh_closed := exitCh_closed s; active := active s; now := now s;
     deadline := deadline s; log := log s |}.
Definition set_gor (p : GorPC) (s : State) : State :=
  {| main_pc := main_pc s; gor_pc := p; srv := srv s; shutdownCh := shutdownCh s;
     exitCh_closed := exitCh_closed s; active := active s; now := now s;
     deadline := deadline s; log := log s |}.
Definition set_srv (p : SrvPhase) (s : State) : State :=
  {| main_pc := main_pc s; gor_pc := gor_pc s; srv := p; shutdownCh := shutdownCh s;
     exitCh_closed := exitCh_closed s; active := active s; now := now s;
     deadline := deadline s; log := log s |}.
Definition set_ch (c : option Signal) (s : State) : State :=
  {| main_pc := main_pc s; gor_pc := gor_pc s; srv := srv s; shutdownCh := c;
     exitCh_closed := exitCh_closed s; active := active s; now := now s;
     deadline := deadline s; log := log s |}.
Definition close_exitCh (s : State) : State :=
  {| main_pc := main_pc s; gor_pc := gor_pc s; srv := srv s; shutdownCh := shutdownCh s;
     exitCh_closed := true; active := active s; now := now s;
     deadline := deadline s; log := log s |}.
Definition set_active (n : nat) (s : State) : State :=
  {| main_pc := main_pc s; gor_pc := gor_pc s; srv := srv s; shutdownCh := shutdownCh s;
     exitCh_closed := exitCh_closed s; active := n; now := now s;
     deadline := deadline s; log := log s |}.
Definition tick (s : State) : State :=
  {| main_pc := main_pc s; gor_pc := gor_pc s; srv := srv s; shutdownCh := shutdownCh s;
     exitCh_closed := exitCh_closed s; active := active s; now := now s + 1;
     deadline := deadline s; log := log s |}.
Definition set_deadline (d : Z) (s : State) : State :=
  {| main_pc := main_pc s; gor_pc := gor_pc s; srv := srv s; shutdownCh := shutdownCh s;
     exitCh_closed := exitCh_closed s; active := active s; now := now s;
     deadline := d; log := log s |}.
Definition write_log (e : LogEvent) (s : State) : State :=
  {| main_pc := main_pc s; gor_pc := gor_pc s; srv := srv s; shutdownCh := shutdownCh s;
     exitCh_closed := exitCh_closed s; active := active s; now := now s;
     deadline := deadline s; log := log s ++ [e] |}.

Section Steps.

(** The resolved [maxDuration] of [main]. *)
Variable maxDuration : Z.

(** One atomic action of the program or of its environment; every action
    needs the process to be alive. *)
Inductive step : State -> State -> Prop :=
(** A signal arrives; [signal.Notify] sends without blocking, so a signal
    that finds the buffer full is dropped. *)
| st_signal sig s :
    alive s = true -> shutdownCh s = None -> step s (set_ch (Some sig) s)
(** Lines 119-123: receive, log, start the timer of [ctx]. *)
| st_recv sig s :
    alive s = true -> gor_pc s = GRecv -> shutdownCh s = Some sig ->
    step s (set_gor GShutdown
             (set_deadline (now s + shutdownTimeout maxDuration)
               (write_log (LogShutdownStarted sig (now s)) (set_ch None s))))
(** Lines 126-127: [SetKeepAlivesEnabled(false)], then [Shutdown] sets
    [inShutdown] and closes the listeners. *)
| st_shutdown s :
    alive s = true -> gor_pc s = GShutdown -> step s (set_gor GDrain (set_srv SrvShutdown s))
(** [Shutdown] returns [nil]: no connection is active. *)
| st_drained s :
    alive s = true -> gor_pc s = GDrain -> active s = 0%nat -> step s (set_gor GClose s)
(** [Shutdown] returns [ctx.Err()] once the deadline has passed, logged at
    line 128. *)
| st_drain_timeout s :
    alive s = true -> gor_pc s = GDrain -> active s <> 0%nat -> deadline s <= now s ->
    step s (set_gor GClose (write_log LogShutdownError s))
(** Line 131. *)
| st_close s :
    alive s = true -> gor_pc s = GClose -> step s (set_gor GDone (close_exitCh s))
(** Line 136. *)
| st_banner s :
    main_pc s = MShowInfo -> step s (set_main MListen (write_log LogBanner s))
(** Line 138: [ListenAndServe] first checks [shuttingDown]; after
    [Shutdown] began it returns [ErrServerClosed]. *)
| st_listen_closed s :
    main_pc s = MListen -> srv s = SrvShutdown -> step s (set_main MWaitExit s)
(** Otherwise it calls [net.Listen]. *)
| st_listen s :
    main_pc s = MListen -> srv s = SrvIdle -> step s (set_main MBind s)
(** [net.Listen] binds the port. *)
| st_bind_ok s :
    main_pc s = MBind -> step s (set_main MTrack s)
(** [net.Listen] fails; lines 140-141: [log.Fatalf] writes its message ... *)
| st_bind_fail s :
    main_pc s = MBind -> step s (set_main MFatal (write_log LogFatalListen s))
(** ... and then calls [os.Exit(1)]: the other goroutines run meanwhile. *)
| st_fatal_exit s :
    main_pc s = MFatal -> step s (set_main (MExited 1) s)
(** [Serve] tracks the listener and serves ... *)
| st_track_ok s :
    main_pc s = MTrack -> srv s = SrvIdle -> step s (set_main MServe (set_srv SrvListening s))
(** ... unless [Shutdown] began ([trackListener] fails): [ErrServerClosed]. *)
| st_track_closed s :
    main_pc s = MTrack -> srv s = SrvShutdown -> step s (set_main MWaitExit s)
(** Line 138: [Serve] returns [ErrServerClosed] when [Shutdown] closed its
    listener. *)
| st_serve_closed s :
    main_pc s = MServe -> srv s = SrvShutdown -> step s (set_main MWaitExit s)
(** Lines 144-145: [exitCh] is closed; [main] logs and returns. *)
| st_exit s :
    main_pc s = MWaitExit -> exitCh_closed s = true ->
    step s (set_main (MExited 0) (write_log LogShutdownFinished s))
(** A client connects while the listener is open. *)
| st_accept s :
    alive s = true -> srv s = SrvListening -> step s (set_active (S (active s)) s)
(** A connection finishes its request. *)
| st_finish s :
    alive s = true -> (0 < active s)%nat -> step s (set_active (pred (active s)) s)
(** Time passes. *)
| st_tick s :
    alive s = true -> step s (tick s).

Definition reachable (t0 : Z) (s : State) : Prop := star step (init t0) s.

(** ** The same actions, executable

    One constructor of [Action] per constructor of [step]; [exec] performs
    an action when its guard holds, [run] a list of them in order. *)
Inductive Action :=
| ASignal (sig : Signal) | ARecv | AShutdown | ADrained | ADrainTimeout | AClose
| ABanner | AListenClosed | AListen | ABindOk | ABindFail | AFatalExit | ATrackOk | ATrackClosed
| AServeClosed | AExit
| AAccept | AFinish | ATick.

Definition exec (a : Action) (s : State) : option State :=
  let guard (P : Prop) `{Decision P} (s' : State) := if decide P then Some s' else None in
  match a with
  | ASignal sig => guard (alive s = true /\ shutdownCh s = None) (set_ch (Some sig) s)
  | ARecv =>
      match shutdownCh s with
      | Some sig =>
          guard (alive s = true /\ gor_pc s = GRecv)
            (set_gor GShutdown
              (set_deadline (now s + shutdownTimeout maxDuration)
                (write_log (LogShutdownStarted sig (now s)) (set_ch None s))))
      | None => None
      end
  | AShutdown => guard (alive s = true /\ gor_pc s = GShutdown) (set_gor GDrain (set_srv SrvShutdown s))
  | ADrained => guard (alive s = true /\ gor_pc s = GDrain /\ active s = 0%nat) (set_gor GClose s)
  | ADrainTimeout =>
      guard (alive s = true /\ gor_pc s = GDrain /\ active s <> 0%nat /\ deadline s <= now s)
        (set_gor GClose (write_log LogShutdownError s))
  | AClose => guard (alive s = true /\ gor_pc s = GClose) (set_gor GDone (close_exitCh s))
  | ABanner => guard (main_pc s = MShowInfo) (set_main MListen (write_log LogBanner s))
  | AListenClosed => guard (main_pc s = MListen /\ srv s = SrvShutdown) (set_main MWaitExit s)
  | AListen => guard (main_pc s = MListen /\ srv s = SrvIdle) (set_main MBind s)
  | ABindOk => guard (main_pc s = MBind) (set_main MTrack s)
  | ABindFail => guard (main_pc s = MBind) (set_main MFatal (write_log LogFatalListen s))
  | AFatalExit => guard (main_pc s = MFatal) (set_main (MExited 1) s)
  | ATrackOk => guard (main_pc s = MTrack /\ srv s = SrvIdle) (set_main MServe (set_srv SrvListening s))
  | ATrackClosed => guard (main_pc s = MTrack /\ srv s = SrvShutdown) (set_main MWaitExit s)
  | AServeClosed => guard (main_pc s = MServe /\ srv s = SrvShutdown) (set_main MWaitExit s)
  | AExit =>
      guard (main_pc s = MWaitExit /\ exitCh_closed s = true)
        (set_main (MExited 0) (write_log LogShutdownFinished s))
  | AAccept => guard (alive s = true /\ srv s = SrvListening) (set_active (S (active s)) s)
  | AFinish => guard (alive s = true /\ (0 < active s)%nat) (set_active (pred (active s)) s)
  | ATick => guard (alive s = true) (tick s)
  end.

Fixpoint run (acts : list Action) (s : State) : option State :=
  match acts with
  | [] => Some s
  | a :: acts' => match exec a s with Some s' => run acts' s' | None => None end
  end.

End Steps.

(** ** The specification's state machine

    Section 9 of the specification asks for an explicit machine
    Running -> Draining -> Stopped: on a signal, stop accepting; let the
    connections in flight finish for a grace period of [maxDuration] plus
    a fixed slack, counted from the moment the signal is acted upon; then
    exit.  The abstract state records whether a signal is waiting
    ([a_pending]), when the signal was acted upon ([a_signal]), and the end
    of the grace period once draining.  Draining starts only after a
    signal was received, with the grace period counted from it; the
    process stops only with no connection active, or when draining and the
    grace period is over. *)






(** [main] has not started serving: no connection can be active. *)
Definition pre_serve (p : MainPC) : bool :=
  match p with MShowInfo | MListen | MBind | MTrack | MFatal => true | _ => false end.

(** Whether [Shutdown] has been called: the goroutine is past line 127. *)
Definition shutdown_called (p : GorPC) : bool :=
  match p with GRecv | GShutdown => false | _ => true end.

(** The invariant of the reachable states. *)
Record lc_inv (maxDuration : Z) (s : State) : Prop := {
  inv_exit_closed : exitCh_closed s = true <-> gor_pc s = GDone;
  inv_srv : srv s = SrvShutdown <-> shutdown_called (gor_pc s) = true;
  inv_wait : main_pc s = MWaitExit -> srv s = SrvShutdown;
  inv_exit0 : main_pc s = MExited 0 -> gor_pc s = GDone;
  inv_drained : gor_pc s = GClose \/ gor_pc s = GDone -> active s = 0%nat \/ deadline s <= now s;
  inv_started : gor_pc s <> GRecv -> exists sig t,
    In (LogShutdownStarted sig t) (log s) /\ t <= now s /\ deadline s = t + shutdownTimeout maxDuration;
  inv_prelisten : pre_serve (main_pc s) = true -> active s = 0%nat /\ srv s <> SrvListening
}.


(** Log entries that start a shutdown. *)
Definition is_started (e : LogEvent) : bool :=
  match e with LogShutdownStarted _ _ => true | _ => false end.

Definition shutdowns_started (l : list LogEvent) : nat := List.length (filter is_started l).

(** The state after [n] ticks of the clock. *)
Definition ticks (n : nat) (s : State) : State :=
  {| main_pc := main_pc s; gor_pc := gor_pc s; srv := srv s; shutdownCh := shutdownCh s;
     exitCh_closed := exitCh_closed s; active := active s; now := now s + Z.of_nat n;
     deadline := deadline s; log := log s |}.

(** What the shutdown goroutine leaves when it is done, started from [s]:
    [exitCh] closed, the listeners closed, [main] and the connections
    untouched, and no time past the deadline spent. *)
Definition gor_finished (s s' : State) : Prop :=
  gor_pc s' = GDone /\ exitCh_closed s' = true /\ srv s' = SrvShutdown /\
  main_pc s' = main_pc s /\ active s' = active s /\ deadline s' = deadline s /\
  now s <= now s' <= Z.max (now s) (deadline s).

(** ** The invariant *)

Lemma In_log_app (e e' : LogEvent) l : In e l -> In e (l ++ [e']).
Proof. intros H. apply in_or_app. by left. Qed.

#[local] Hint Resolve In_log_app : httpbin.

Lemma lc_inv_init md t0 : lc_inv md (init t0).
Proof. split; simpl; try done. intuition congruence. Qed.

Ltac lc_fields :=
  simpl in *; intuition (try congruence; try lia; eauto with httpbin).

(** The [inv_started] field: the entry just logged, or the one before. *)
Ltac lc_started I6 :=
  match goal with
  | |- exists _ _, _ =>
      first [ eexists _, _; split; [apply in_or_app; right; left; reflexivity | lia]
            | destruct I6 as (sg & t & ? & ? & ?); [congruence | exists sg, t; lc_fields] ]
  end.

Lemma lc_inv_step md s s' : lc_inv md s -> step md s s' -> lc_inv md s'.
Proof.
  intros [I1 I2 I3 I4 I5 I6] Hs.
  destruct Hs; split; simpl in *; try done;
  repeat match goal with
  | H : gor_pc _ = _ |- _ => rewrite H in *
  | H : srv _ = _ |- _ => rewrite H in *
  | H : main_pc _ = _ |- _ => rewrite H in *
  end; destruct (gor_pc s) eqn:?; simpl in *; intros; try lc_started I6; lc_fields.
Qed.

Lemma lc_inv_reachable md t0 s : reachable md t0 s -> lc_inv md s.
Proof. apply star_inv; [apply lc_inv_step | apply lc_inv_init]. Qed.







(** ** The interpreter and the step relation *)

Lemma exec_sound md a s s' : exec md a s = Some s' -> step md s s'.
Proof.
  destruct a; simpl; try (destruct (shutdownCh s) eqn:?; [|done]);
  case_decide as Hg; intros Hs; simplify_eq; destruct_and?; by econstructor.
Qed.

Lemma exec_complete md s s' : step md s s' -> exists a, exec md a s = Some s'.
Proof.
  destruct 1;
  [ exists (ASignal sig) | exists ARecv | exists AShutdown | exists ADrained
  | exists ADrainTimeout | exists AClose | exists ABanner | exists AListenClosed
  | exists AListen | exists ABindOk | exists ABindFail | exists AFatalExit
  | exists ATrackOk | exists ATrackClosed | exists AServeClosed | exists AExit
  | exists AAccept | exists AFinish | exists ATick ];
  simpl; repeat match goal with H : shutdownCh _ = _ |- _ => rewrite H end;
  rewrite decide_True; naive_solver.
Qed.

Lemma run_star md acts s s' : run md acts s = Some s' -> star (step md) s s'.
Proof.
  revert s. induction acts as [|a acts IH]; simpl; intros s Hr; [injection Hr as <-; apply star_refl|].
  destruct (exec md a s) as [s1|] eqn:He; [|done].
  eapply star_step; [by apply (exec_sound md a) | by apply IH].
Qed.

Lemma run_reachable md t0 acts s : run md acts (init t0) = Some s -> reachable md t0 s.
Proof. apply run_star. Qed.

(** ** Runs that finish the shutdown *)

Lemma star_ticks md s n : alive s = true -> star (step md) s (ticks n s).
Proof.
  intros Ha. induction n as [|n IH].
  - replace (ticks 0 s) with s; [apply star_refl|]. destruct s; unfold ticks; simpl; f_equal; lia.
  - eapply star_right; [exact IH|].
    replace (ticks (S n) s) with (tick (ticks n s)) by (unfold tick, ticks; simpl; f_equal; lia).
    apply st_tick. done.
Qed.

Lemma from_close md s :
  alive s = true -> gor_pc s = GClose -> srv s = SrvShutdown ->
  exists s', star (step md) s s' /\ gor_finished s s'.
Proof.
  intros Ha Hg Hv. exists (set_gor GDone (close_exitCh s)). split.
  - apply star_one. by apply st_close.
  - repeat split; simpl; auto; lia.
Qed.

Lemma from_drain md s :
  alive s = true -> gor_pc s = GDrain -> srv s = SrvShutdown ->
  exists s', star (step md) s s' /\ gor_finished s s'.
Proof.
  intros Ha Hg Hv. destruct (decide (active s = 0%nat)) as [H0|H0].
  - destruct (from_close md (set_gor GClose s)) as (s' & Hs & G); try done.
    exists s'. split; [eapply star_step; [by apply st_drained | exact Hs]|].
    destruct G as (? & ? & ? & ? & ? & ? & ?); simpl in *; repeat split; auto; lia.
  - set (n := Z.to_nat (deadline s - now s)).
    set (s1 := set_gor GClose (write_log LogShutdownError (ticks n s))).
    destruct (from_close md s1) as (s' & Hs & G); try done.
    exists s'. split.
    + eapply star_trans; [apply (star_ticks md s n Ha)|].
      eapply star_step; [apply st_drain_timeout; try done; simpl; lia | exact Hs].
    + destruct G as (? & ? & ? & ? & ? & ? & ?); simpl in *; repeat split; auto; lia.
Qed.

Lemma from_started md s :
  lc_inv md s -> alive s = true -> gor_pc s <> GRecv ->
  exists s', star (step md) s s' /\ gor_finished s s'.
Proof.
  intros [I1 I2 I3 I4 I5 I6] Ha Hg. destruct (gor_pc s) eqn:Hp; try done.
  - destruct (from_drain md (set_gor GDrain (set_srv SrvShutdown s))) as (s' & Hs & G); try done.
    exists s'. split; [eapply star_step; [by apply st_shutdown | exact Hs]|].
    destruct G as (? & ? & ? & ? & ? & ? & ?); simpl in *; repeat split; auto; lia.
  - apply from_drain; auto. by apply I2.
  - apply from_close; auto. by apply I2.
  - exists s. split; [apply star_refl|]. repeat split; auto; try lia.
    + by apply I1.
    + by apply I2.
Qed.

(** [main], once [exitCh] is closed and the listeners are, returns,
    unless it is already inside [log.Fatalf]. *)
Lemma main_returns md s :
  alive s = true -> main_pc s <> MFatal -> srv s = SrvShutdown -> exitCh_closed s = true ->
  exists s', star (step md) s s' /\ main_pc s' = MExited 0 /\
    active s' = active s /\ now s' = now s.
Proof.
  intros Ha Hf Hv He.
  assert (Hw : forall s, main_pc s = MWaitExit -> exitCh_closed s = true ->
    exists s', star (step md) s s' /\ main_pc s' = MExited 0 /\
      active s' = active s /\ now s' = now s).
  { intros s0 Hm He0. eexists. split; [apply star_one; by apply st_exit | done]. }
  assert (Ht : forall s, main_pc s = MTrack -> srv s = SrvShutdown -> exitCh_closed s = true ->
    exists s', star (step md) s s' /\ main_pc s' = MExited 0 /\
      active s' = active s /\ now s' = now s).
  { intros s0 Hm Hv0 He0. destruct (Hw (set_main MWaitExit s0)) as (s' & Hs & ?); try done.
    exists s'. split; [eapply star_step; [by apply st_track_closed | exact Hs] | done]. }
  unfold alive in Ha. destruct (main_pc s) eqn:Hm; try done.
  - destruct (Hw (set_main MWaitExit (set_main MListen (write_log LogBanner s))))
      as (s' & Hs & ?); try done.
    exists s'. split; [|done].
    eapply star_step; [by apply st_banner|].
    eapply star_step; [by apply st_listen_closed | exact Hs].
  - destruct (Hw (set_main MWaitExit s)) as (s' & Hs & ?); try done.
    exists s'. split; [eapply star_step; [by apply st_listen_closed | exact Hs] | done].
  - destruct (Ht (set_main MTrack s)) as (s' & Hs & ?); try done.
    exists s'. split; [eapply star_step; [by apply st_bind_ok | exact Hs] | done].
  - by apply Ht.
  - destruct (Hw (set_main MWaitExit s)) as (s' & Hs & ?); try done.
    exists s'. split; [eapply star_step; [by apply st_serve_closed | exact Hs] | done].
  - by apply Hw.
Qed.

(** The invariant of [shutdowns_started]. *)
Lemma shutdowns_started_step md s s' :
  shutdowns_started (log s) = (if decide (gor_pc s = GRecv) then 0 else 1)%nat ->
  step md s s' ->
  shutdowns_started (log s') = (if decide (gor_pc s' = GRecv) then 0 else 1)%nat.
Proof.
  unfold shutdowns_started. intros Hc Hs.
  destruct Hs; simpl; rewrite ?filter_app, ?length_app, Hc; simpl;
  repeat case_decide; simpl in *; congruence || lia.
Qed.

(** What a listener failure leaves behind, and that the banner is
    written before [main] leaves [MShowInfo]: once [log.Fatalf] has
    written, no connection is active, the server does not listen, and the
    fatal message follows the banner and is followed by nothing but the
    goroutine's "shutdown started" entry. *)
Definition fatal_record (s : State) : Prop :=
  active s = 0%nat /\ srv s <> SrvListening /\
  exists l1 l2, log s = l1 ++ LogFatalListen :: l2 /\ In LogBanner l1 /\
    Forall (fun e => is_started e = true) l2.

Definition exit_record (s : State) : Prop :=
  (main_pc s <> MShowInfo -> In LogBanner (log s)) /\
  (main_pc s = MFatal \/ main_pc s = MExited 1 -> fatal_record s) /\
  (forall c, main_pc s = MExited c -> c = 0 \/ c = 1).

Lemma step_alive md s s' : step md s s' -> alive s = true.
Proof. destruct 1; try done; unfold alive; by rewrite H. Qed.

(** The fatal record survives an action of the other goroutines that
    keeps the connections, does not listen, and logs at most a "shutdown
    started" entry. *)
Lemma fatal_record_keep s s' :
  fatal_record s -> active s' = active s -> srv s' <> SrvListening ->
  (log s' = log s \/ exists e, is_started e = true /\ log s' = log s ++ [e]) -> fatal_record s'.
Proof.
  intros (Ha & Hv & l1 & l2 & Hl & Hb & Hf) Ha' Hv' Hl'. repeat split; [lia|done|].
  destruct Hl' as [-> | (e & He & ->)]; [by exists l1, l2|].
  exists l1, (l2 ++ [e]). rewrite Hl, <- app_assoc. split; [done|].
  split; [done|]. apply Forall_app. split; [done|]. by repeat constructor.
Qed.

Lemma exit_record_step md s s' :
  lc_inv md s -> exit_record s -> step md s s' -> exit_record s'.
Proof.
  intros I (E1 & E2 & E3) Hs. pose proof (step_alive _ _ _ Hs) as Ha. unfold alive in Ha.
  destruct Hs; cbn [set_main set_gor set_srv set_ch close_exitCh set_active tick set_deadline
                    write_log main_pc gor_pc srv active log] in *;
  (split; [|split]).
  (* the banner is logged first *)
  all: try (intros Hm; cbn in Hm; first [ apply in_or_app; right; left; reflexivity
                             | apply In_log_app, E1 | apply E1 ]; congruence).
  (* exit statuses *)
  all: try (intros c Hc; cbn in Hc; first [ injection Hc; intros; subst; lia | by apply E3 ]).
  (* [log.Fatalf] writes after a failed bind *)
  all: try (intros _; destruct (inv_prelisten _ _ I ltac:(by rewrite H)) as [Hac Hv];
            repeat split; [done|done|]; exists (log s), []; split; [done|];
            split; [apply E1; congruence | constructor]).
  (* [main] moves elsewhere *)
  all: try (intros [Hm|Hm]; cbn in Hm; discriminate).
  all: try (intros _; apply E2; by left).
  (* the other goroutines and the environment *)
  all: intros Hm; cbn in Hm; destruct (E2 Hm) as (Hac & Hv & _); try lia; try congruence.
  all: apply (fatal_record_keep s _ (E2 Hm)); cbn; try done.
  all: first [ by left | right; eexists; split; [|reflexivity]; done ].
Qed.

(** ** Theorems *)


(** C17: graceful exit.  When [main] returns (status 0), a signal started
    the shutdown at some time [t] (logged), and either no connection is
    still active or the grace period [shutdownTimeout maxDuration] counted
    from [t] has passed: a request is cut by the exit only after the grace
    period. *)
Theorem graceful_exit md t0 s :
  reachable md t0 s -> main_pc s = MExited 0 ->
  exists sig t, In (LogShutdownStarted sig t) (log s) /\
    (active s = 0%nat \/ t + shutdownTimeout md <= now s).
Proof.
  intros Hr Hm. destruct (lc_inv_reachable _ _ _ Hr) as [I1 I2 I3 I4 I5 I6].
  specialize (I4 Hm).
  destruct (I6 ltac:(congruence)) as (sig & t & Hin & _ & Hd).
  exists sig, t. split; [done|]. rewrite <- Hd. apply I5. by right.
Qed.

(** C33: at most one shutdown.  The log of every reachable state holds at
    most one "shutdown started" entry: the goroutine receives once, and a
    later signal stays in the buffer or is dropped. *)
Theorem single_shutdown md t0 s :
  reachable md t0 s -> (shutdowns_started (log s) <= 1)%nat.
Proof.
  intros Hr.
  assert (H : shutdowns_started (log s) = (if decide (gor_pc s = GRecv) then 0 else 1)%nat).
  { refine (star_inv (step md)
      (fun s => shutdowns_started (log s) = (if decide (gor_pc s = GRecv) then 0 else 1)%nat)
      _ _ (shutdowns_started_step md) _ Hr). done. }
  rewrite H. case_decide; lia.
Qed.

(** C18: the shutdown completes.  From a reachable state in which a signal
    is pending or the shutdown has begun, the program can reach the return
    of [main] by its own actions and the clock alone (no connection has to
    finish), no later than the grace period after the current time; the
    exit status is 0, unless [main] is already inside [log.Fatalf] after a
    failed bind, in which case it is 1. *)
Theorem shutdown_completes md t0 s :
  reachable md t0 s -> alive s = true -> (gor_pc s <> GRecv \/ shutdownCh s <> None) ->
  exists s', star (step md) s s' /\
    main_pc s' = (if decide (main_pc s = MFatal) then MExited 1 else MExited 0) /\
    active s' = active s /\ now s' <= now s + Z.max 0 (shutdownTimeout md).
Proof.
  intros Hr Ha Hsig. pose proof (lc_inv_reachable _ _ _ Hr) as I.
  destruct (decide (main_pc s = MFatal)) as [Hf|Hf].
  { exists (set_main (MExited 1) s). split; [apply star_one; by apply st_fatal_exit|].
    cbn. repeat split; lia. }
  assert (exists s1, star (step md) s s1 /\ lc_inv md s1 /\ alive s1 = true /\
            gor_pc s1 <> GRecv /\ active s1 = active s /\ now s1 = now s /\
            main_pc s1 = main_pc s /\ deadline s1 <= now s + Z.max 0 (shutdownTimeout md))
    as (s1 & H1 & I1 & Ha1 & Hg1 & Hac1 & Hn1 & Hm1 & Hd1).
  { destruct (decide (gor_pc s = GRecv)) as [Hg|Hg].
    - destruct (shutdownCh s) as [sig|] eqn:Hc; [|destruct Hsig; congruence].
      assert (Hst := st_recv md sig s Ha Hg Hc).
      eexists. split; [by apply star_one|]. split; [by eapply lc_inv_step|].
      simpl. repeat split; try done; lia.
    - exists s. refine (conj (star_refl _ _) (conj I (conj Ha (conj Hg (conj eq_refl (conj eq_refl (conj eq_refl _))))))).
      destruct (inv_started _ _ I Hg) as (sig & t & _ & Ht & Hd). lia. }
  destruct (from_started md s1 I1 Ha1 Hg1) as (s2 & H2 & Gg & Ge & Gv & Gm & Gac & Gd & Gn).
  destruct (main_returns md s2) as (s3 & H3 & Hm3 & Hac3 & Hn3); try done.
  { unfold alive in *. by rewrite Gm. }
  { by rewrite Gm, Hm1. }
  exists s3. split; [eauto using star_trans|]. repeat split; [done | lia | lia].
Qed.

(** C32: a timeout that is not positive cuts requests at once.  When
    [maxDuration + 1s] is not positive (a negative [-max-duration], or the
    [int64] wrap-around), a run exists in which a request is in flight when
    SIGINT arrives at [t0] and [main] returns at [t0] itself, cutting it:
    there is no grace period at all. *)
Theorem nonpositive_timeout_cuts_requests md t0 :
  shutdownTimeout md <= 0 ->
  exists s, reachable md t0 s /\ main_pc s = MExited 0 /\ active s = 1%nat /\
    now s = t0 /\ In (LogShutdownStarted SIGINT t0) (log s).
Proof.
  intros Ht. eexists. split.
  { unfold reachable.
    eapply star_step; [by apply st_banner|].
    eapply star_step; [by apply st_listen|].
    eapply star_step; [by apply st_bind_ok|].
    eapply star_step; [by apply st_track_ok|].
    eapply star_step; [by apply st_accept|].
    eapply star_step; [by apply (st_signal _ SIGINT)|].
    eapply star_step; [by eapply st_recv|].
    eapply star_step; [by apply st_shutdown|].
    eapply star_step; [by apply st_serve_closed|].
    eapply star_step; [apply st_drain_timeout; simpl; try done; lia|].
    eapply star_step; [by apply st_close|].
    eapply star_step; [by apply st_exit|].
    apply star_refl. }
  simpl. repeat split; try done. right. by left.
Qed.

(** C34: a listener failure.  Exit status 1 comes only from [log.Fatalf]
    after [net.Listen] failed: then no connection is active and the server
    is not listening, the fatal message is in the log after the banner
    announcing that the server is ready, and only the shutdown goroutine's
    "shutdown started" can follow it (a signal acted upon between the
    write of [log.Fatalf] and its [os.Exit(1)]).  Every exit status is 0
    or 1. *)
Theorem listen_failure_exit md t0 s :
  reachable md t0 s ->
  (main_pc s = MExited 1 ->
     active s = 0%nat /\ srv s <> SrvListening /\
     exists l1 l2, log s = l1 ++ LogFatalListen :: l2 /\ In LogBanner l1 /\
       Forall (fun e => is_started e = true) l2) /\
  (forall c, main_pc s = MExited c -> c = 0 \/ c = 1).
Proof.
  intros Hr. assert (E : lc_inv md s /\ exit_record s).
  { refine (star_inv (step md) (fun s => lc_inv md s /\ exit_record s) _ _ _ _ Hr).
    - intros a b [Ia Ea] Hab. split; [by eapply lc_inv_step | by eapply exit_record_step].
    - split; [apply lc_inv_init|]. split; [by intros []|]. split; [by intros [? | ?]|]. simpl; discriminate. }
  destruct E as (_ & _ & E2 & E3). split; [|exact E3]. intros Hm. apply E2. by right.
Qed.

(** C35: the fatal exit races with the shutdown.  A run exists in which
    binding the port fails, SIGINT arrives while [log.Fatalf] is between
    its write and [os.Exit(1)], the goroutine logs "shutdown started"
    after "failed to listen", and the process still exits with status 1:
    the last log line is not the fatal message, and a requested graceful
    shutdown ends in the failure status. *)
Theorem fatal_exit_races_shutdown md t0 :
  exists s, reachable md t0 s /\ main_pc s = MExited 1 /\
    log s = [LogBanner; LogFatalListen; LogShutdownStarted SIGINT t0].
Proof.
  eexists. split.
  { unfold reachable.
    eapply star_step; [by apply st_banner|].
    eapply star_step; [by apply st_listen|].
    eapply star_step; [by apply st_bind_fail|].
    eapply star_step; [by apply (st_signal _ SIGINT)|].
    eapply star_step; [by eapply st_recv|].
    eapply star_step; [by apply st_fatal_exit|].
    apply star_refl. }
  split; reflexivity.
Qed.

(** The interpreter is the step relation: a state [s'] follows [s] by
    one action of the program or of its environment exactly when some
    [Action] executed by [exec] turns [s] into [s']. *)
Theorem exec_step_iff md s s' : step md s s' <-> exists a, exec md a s = Some s'.
Proof. split; [apply exec_complete | intros [a Ha]; by apply (exec_sound md a)]. Qed.

(** ** Witnesses *)

(** The state after running [acts] from [init 0]. *)
Definition demo_state (md : Z) (acts : list Action) : State :=
  default (init 0) (run md acts (init 0)).

(** Two requests, SIGTERM, both requests finish, clean exit. *)
Definition clean_acts : list Action :=
  [ABanner; AListen; ABindOk; ATrackOk; AAccept; AAccept; ASignal SIGTERM; ARecv; AShutdown; AServeClosed;
   AFinish; ATick; AFinish; ADrained; AClose; AExit].

(** A second signal while the first shutdown runs. *)
Definition twice_acts : list Action :=
  [ABanner; AListen; ABindOk; ATrackOk; ASignal SIGINT; ARecv; ASignal SIGTERM; AShutdown; AServeClosed].

(** A request in flight and SIGINT pending. *)
Definition pending_acts : list Action :=
  [ABanner; AListen; ABindOk; ATrackOk; AAccept; ASignal SIGINT].

Definition fail_acts : list Action := [ABanner; AListen; ABindFail; AFatalExit].


Lemma graceful_exit_witness :
  main_pc (demo_state DefaultMaxDuration clean_acts) = MExited 0 /\
  exists sig t, In (LogShutdownStarted sig t) (log (demo_state DefaultMaxDuration clean_acts)) /\
    (active (demo_state DefaultMaxDuration clean_acts) = 0%nat \/
     t + shutdownTimeout DefaultMaxDuration <= now (demo_state DefaultMaxDuration clean_acts)).
Proof.
  split; [vm_compute; reflexivity|]. apply (graceful_exit DefaultMaxDuration 0).
  - apply (run_reachable _ _ clean_acts). vm_compute. reflexivity.
  - vm_compute. reflexivity.
Defined.

Lemma single_shutdown_witness :
  shutdowns_started (log (demo_state DefaultMaxDuration twice_acts)) = 1%nat /\
  (shutdowns_started (log (demo_state DefaultMaxDuration twice_acts)) <= 1)%nat.
Proof.
  split; [vm_compute; reflexivity|]. apply (single_shutdown DefaultMaxDuration 0).
  apply (run_reachable _ _ twice_acts). vm_compute. reflexivity.
Defined.

Lemma shutdown_completes_witness :
  exists s', star (step DefaultMaxDuration) (demo_state DefaultMaxDuration pending_acts) s' /\
    main_pc s' = MExited 0 /\ active s' = active (demo_state DefaultMaxDuration pending_acts) /\
    now s' <= now (demo_state DefaultMaxDuration pending_acts) + Z.max 0 (shutdownTimeout DefaultMaxDuration).
Proof.
  apply (shutdown_completes DefaultMaxDuration 0).
  - apply (run_reachable _ _ pending_acts). vm_compute. reflexivity.
  - vm_compute. reflexivity.
  - right. vm_compute. discriminate.
Defined.

Lemma nonpositive_timeout_cuts_requests_witness :
  shutdownTimeout (- Second) = 0 /\
  exists s, reachable (- Second) 0 s /\ main_pc s = MExited 0 /\ active s = 1%nat /\
    now s = 0 /\ In (LogShutdownStarted SIGINT 0) (log s).
Proof.
  split; [vm_compute; reflexivity|]. apply nonpositive_timeout_cuts_requests.
  vm_compute. discriminate.
Defined.

Lemma listen_failure_exit_witness :
  main_pc (demo_state DefaultMaxDuration fail_acts) = MExited 1 /\
  ((main_pc (demo_state DefaultMaxDuration fail_acts) = MExited 1 ->
     active (demo_state DefaultMaxDuration fail_acts) = 0%nat /\
     srv (demo_state DefaultMaxDuration fail_acts) <> SrvListening /\
     exists l1 l2, log (demo_state DefaultMaxDuration fail_acts) = l1 ++ LogFatalListen :: l2 /\
       In LogBanner l1 /\ Forall (fun e => is_started e = true) l2) /\
   (forall c, main_pc (demo_state DefaultMaxDuration fail_acts) = MExited c -> c = 0 \/ c = 1)).
Proof.
  split; [vm_compute; reflexivity|]. apply (listen_failure_exit DefaultMaxDuration 0).
  apply (run_reachable _ _ fail_acts). vm_compute. reflexivity.
Defined.

End Lifecycle.
