(* ===== verification/Banner.v ===== *)
(** * Banner: [src/app/utils/color/color.go] and [src/app/utils/info/info.go]

    [main] prints a start-up banner with [info.ShowInfo(startTime)] just
    before [ListenAndServe]: the start-up time in milliseconds and two URLs
    (loopback and the first non-loopback IPv4 address from [GetLocalIp]),
    coloured with the ANSI wrappers of color.go.  The module [Banner]
    writes the banner as the string [ShowInfo] sends to standard output;
    the clock readings, the interface addresses and the [global.APP_NAME]
    and [global.VERSION] constants (package [httpbin/global], not in the
    sources) are its parameters. *)

From S2P Require Import Prelude GoLib ClientIP Config Startup.

Module Banner.

Import ClientIP Config Startup.

Local Open Scope Z_scope.

Definition ESC : string := String (ascii_of_nat 27) EmptyString.
Definition nl : string := String (ascii_of_nat 10) EmptyString.

(** color.go lines 3-17. *)
Definition Bold (text : string) : string := ESC +s "[1m" +s text +s ESC +s "[0m".
Definition Faint (text : string) : string := ESC +s "[2m" +s text +s ESC +s "[0m".
Definition Cyan (text : string) : string := ESC +s "[36m" +s text +s ESC +s "[0m".
Definition Green (text : string) : string := ESC +s "[32m" +s text +s ESC +s "[0m".

(** The arrow U+279C in UTF-8. *)
Definition arrow : string := of_bytes (bytes [226; 158; 156]%nat).

(** [difference := (endTime - startTime) / 1000 / 1000] (info.go line 17):
    an [int64] subtraction and two divisions that truncate toward zero. *)
Definition difference (startTime endTime : Z) : Z :=
  Z.quot (Z.quot (wrap64 (endTime - startTime)) 1000) 1000.

(** The number the banner shows (info.go lines 19-23): 1 when the
    difference is 0. *)
Definition shown_ms (startTime endTime : Z) : Z :=
  if difference startTime endTime =? 0 then 1 else difference startTime endTime.

Section WithGlobals.

Variables APP_NAME VERSION : string.

(** The text of each [fmt] call of [ShowInfo] (info.go lines 15-27). *)
Definition clear_screen : string := ESC +s "[H" +s ESC +s "[2J".

Definition ready_line (startTime endTime : Z) : string :=
  let d := difference startTime endTime in
  let ms := if d =? 0 then Itoa 1 else Itoa d in
  "  " +s Bold (Green APP_NAME) +s " " +s Green ("v" +s VERSION) +s "  " +s
    Faint "ready in" +s " " +s Bold ms +s " ms" +s nl.

Definition local_line : string :=
  "  " +s Green arrow +s "  " +s Bold "Local:" +s "   " +s
    Cyan ("http://127.0.0.1:" +s Itoa 8080 +s "/") +s nl.

Definition network_line (interfaceAddrs : option (list Addr)) : string :=
  "  " +s Green arrow +s "  " +s Bold "Network:" +s " " +s
    Cyan ("http://" +s GetLocalIp interfaceAddrs +s ":" +s Itoa 8080 +s "/") +s nl.

(** [ShowInfo] (info.go lines 14-28): what it writes to standard output.
    [endTime] is the [time.Now().UnixNano()] of line 16, [interfaceAddrs]
    the result of [net.InterfaceAddrs()] that [GetLocalIp] reads. *)
Definition ShowInfo (startTime endTime : Z) (interfaceAddrs : option (list Addr)) : string :=
  clear_screen +s ready_line startTime endTime +s nl +s local_line +s
  network_line interfaceAddrs +s nl.

End WithGlobals.

(** ** Theorems *)

Lemma quot_quot_1000 (x : Z) : 0 <= x -> Z.quot (Z.quot x 1000) 1000 = x / 1000000.
Proof.
  intros Hx. rewrite (Z.quot_div_nonneg x 1000) by lia.
  rewrite Z.quot_div_nonneg by (try apply Z.div_pos; lia).
  rewrite Z.div_div by lia. reflexivity.
Qed.

(** for a start-up that took between 0 and [int64_max] nanoseconds,
    the banner shows the whole number of milliseconds, and 1 when that is
    0. *)
Theorem shown_ms_elapsed (startTime endTime : Z) :
  0 <= endTime - startTime <= int64_max ->
  shown_ms startTime endTime = Z.max 1 ((endTime - startTime) / 1000000).
Proof.
  intros Hd. unfold shown_ms, difference.
  rewrite wrap64_id by (unfold in_int64, int64_min, int64_max in *; lia).
  rewrite quot_quot_1000 by lia.
  pose proof (Z.div_pos (endTime - startTime) 1000000 ltac:(lia) ltac:(lia)).
  destruct (Z.eqb_spec ((endTime - startTime) / 1000000) 0); lia.
Qed.

(** C30: [UnixNano] is wall-clock time; when the clock steps back by a
    millisecond or more during start-up, the banner reports a negative
    start-up time. *)
Theorem shown_ms_clock_backwards (startTime endTime : Z) :
  int64_min <= endTime - startTime <= -1000000 -> shown_ms startTime endTime < 0.
Proof.
  intros Hd. unfold shown_ms, difference.
  rewrite wrap64_id by (unfold in_int64, int64_min, int64_max in *; lia).
  assert (Hneg : forall y, 1000000 <= y -> Z.quot (Z.quot (- y) 1000) 1000 < 0).
  { intros y Hy. rewrite (Z.quot_opp_l y), (Z.quot_opp_l (Z.quot y 1000)) by lia.
    rewrite quot_quot_1000 by lia.
    assert (1 <= y / 1000000) by (apply Z.div_le_lower_bound; lia). lia. }
  assert (Hq : Z.quot (Z.quot (endTime - startTime) 1000) 1000 < 0).
  { specialize (Hneg (- (endTime - startTime)) ltac:(lia)).
    by rewrite Z.opp_involutive in Hneg. }
  destruct (Z.eqb_spec (Z.quot (Z.quot (endTime - startTime) 1000) 1000) 0); lia.
Qed.

(** C31: the banner always advertises port 8080, while the server built
    by [main] listens on the resolved port: when PORT or [-port] selects
    another port, the advertised URL is not the one served. *)
Theorem banner_port_mismatch PD (fl : Flags) getenv hl (st : Setup) (r : Flags)
    (APP_NAME VERSION : string) (startTime endTime : Z) (addrs : option (list Addr)) :
  startup PD fl getenv hl = inr st -> resolve PD fl getenv = inr r -> port r <> 8080 ->
  (exists pre post, ShowInfo APP_NAME VERSION startTime endTime addrs =
     pre +s "  " +s Green arrow +s "  " +s Bold "Local:" +s "   " +s
       Cyan "http://127.0.0.1:8080/" +s post) /\
  setup_listenAddr st <> "0.0.0.0:8080".
Proof.
  intros Hs Hr Hp. split.
  - exists (clear_screen +s ready_line APP_NAME VERSION startTime endTime +s nl),
      (nl +s network_line addrs +s nl).
    unfold ShowInfo, local_line. rewrite !str_app_assoc. reflexivity.
  - destruct (startup_ok _ _ _ _ _ Hs) as (r' & opts & Hr' & _ & ->).
    rewrite Hr in Hr'. injection Hr' as <-. cbn [setup_listenAddr].
    unfold JoinHostPort. simpl. intros H.
    apply (str_app_inj_l "0.0.0.0:" (Itoa (port r)) (Itoa 8080)) in H.
    by apply Itoa_inj in H.
Qed.

(** ** Witnesses *)

Lemma shown_ms_elapsed_witness : shown_ms 0 2500000 = 2 /\ shown_ms 0 2500000 = Z.max 1 (2500000 / 1000000).
Proof.
  split; [vm_compute; reflexivity|].
  apply shown_ms_elapsed. unfold int64_max. lia.
Defined.

Lemma shown_ms_clock_backwards_witness : shown_ms 5000000 2000000 = -3 /\ shown_ms 5000000 2000000 < 0.
Proof.
  split; [vm_compute; reflexivity|].
  apply shown_ms_clock_backwards. unfold int64_min. lia.
Defined.

Definition port_env (var : string) : string := if var ==s "PORT" then "9000" else "".

Lemma banner_port_mismatch_witness :
  (exists pre post, ShowInfo "httpbin" "1.0.0" 0 2000000 None =
     pre +s "  " +s Green arrow +s "  " +s Bold "Local:" +s "   " +s
       Cyan "http://127.0.0.1:8080/" +s post) /\
  setup_listenAddr (mkSetup (New [WithMaxBodySize DefaultMaxBodySize; WithMaxDuration DefaultMaxDuration;
                                  WithObserver (Some StdLogObserver)])
                            "0.0.0.0:9000" (shutdownTimeout DefaultMaxDuration)) <> "0.0.0.0:8080".
Proof.
  apply (banner_port_mismatch (fun _ => None) default_flags port_env None _
           (mkFlags 9000 DefaultMaxBodySize DefaultMaxDuration false));
    [vm_compute; reflexivity | vm_compute; reflexivity | cbn; lia].
Defined.

End Banner.
